(** * LC-2K toolchain: assembler (asemble.py) and simulator (simulate.py)

  A shallow embedding of the two Python programs and the properties of
  their bit packing, symbol resolution and fetch/decode/execute loop.

  Conventions of the embedding:
  - a Python [int] is a [Z]; [&], [|], [<<], [>>] and [~] are [Z.land],
    [Z.lor], [Z.shiftl], [Z.shiftr] and [Z.lnot] (both sides work on the
    infinite two's-complement representation);
  - a Python [str] is a [string] whose characters are read as the code
    points 0..255; a text file is the [string] of its decoded text;
  - a [dict] keyed by strings is a [gmap string Z];
  - a raised exception is the [Raise] case of [result]; a [sys.exit] of
    the simulator is an explicit outcome of the step function;
  - a Python list indexed by an integer is a [list Z] read and written
    through [py_get] and [py_set], which fail (IndexError) out of range
    and count negative indices from the end. *)

From Stdlib Require Import ZArith Lia String Ascii List Sorted.
From stdpp Require Import base option list gmap strings.

Local Open Scope string_scope.
Local Open Scope list_scope.
Local Open Scope Z_scope.

(** ** Python primitives shared by both programs *)

Module Py.

(** [c] is one of the characters '0'..'9'. *)
Definition is_ascii_digit (c : ascii) : bool :=
  let n := Z.of_N (N_of_ascii c) in (48 <=? n) && (n <=? 57).

(** The characters for which [str.isdigit] holds among the code points
    0..255: the ten decimal digits and the superscripts two (178),
    three (179) and one (185). *)
Definition is_digit_char (c : ascii) : bool :=
  let n := Z.of_N (N_of_ascii c) in
  is_ascii_digit c || (n =? 178) || (n =? 179) || (n =? 185).

Fixpoint all_chars (p : ascii -> bool) (s : string) : bool :=
  match s with
  | EmptyString => true
  | String c r => p c && all_chars p r
  end.

(** [s.isdigit()]: at least one character, and every character a digit. *)
Definition isdigit (s : string) : bool :=
  match s with
  | EmptyString => false
  | String _ _ => all_chars is_digit_char s
  end.

(** [s.startswith("-")] and [s[1:]]. *)
Definition startswith_minus (s : string) : bool :=
  match s with
  | String c _ => Z.of_N (N_of_ascii c) =? 45
  | EmptyString => false
  end.

Definition tail (s : string) : string :=
  match s with
  | String _ r => r
  | EmptyString => EmptyString
  end.

(** Value of a run of decimal digits, most significant first; [None]
    when a character is not one of '0'..'9'. *)
Fixpoint digits_value (acc : Z) (s : string) : option Z :=
  match s with
  | EmptyString => Some acc
  | String c r =>
      if is_ascii_digit c
      then digits_value (10 * acc + (Z.of_N (N_of_ascii c) - 48)) r
      else None
  end.

(** The default of [sys.get_int_max_str_digits()]: [int] refuses a
    numeral of more digits. *)
Definition MAX_STR_DIGITS : Z := 4300.

(** The blanks [int] skips on both sides of a numeral, among the code
    points 0..255: 9..13, the space (32), 133 and 160 (not 28..31, which
    [str.isspace] accepts). *)
Definition is_int_space (c : ascii) : bool :=
  let n := Z.of_N (N_of_ascii c) in
  ((9 <=? n) && (n <=? 13)) || (n =? 32) || (n =? 133) || (n =? 160).

Fixpoint lstrip (p : ascii -> bool) (s : string) : string :=
  match s with
  | String c r => if p c then lstrip p r else s
  | EmptyString => EmptyString
  end.

(** The digits of a numeral after its first digit: decimal digits, each
    possibly preceded by one underscore.  Returns the number of digits
    and the value read so far and the text left; [None] when an
    underscore is not followed by a digit. *)
Fixpoint scan_digits (count acc : Z) (s : string) : option (Z * Z * string) :=
  match s with
  | EmptyString => Some (count, acc, s)
  | String c r =>
      if is_ascii_digit c
      then scan_digits (count + 1) (10 * acc + (Z.of_N (N_of_ascii c) - 48)) r
      else if Z.of_N (N_of_ascii c) =? 95
      then match r with
           | String c2 r2 =>
               if is_ascii_digit c2
               then scan_digits (count + 1)
                      (10 * acc + (Z.of_N (N_of_ascii c2) - 48)) r2
               else None
           | EmptyString => None
           end
      else Some (count, acc, s)
  end.

(** The numeral after its sign: a digit, more digits, and blanks up to
    the end; at most [MAX_STR_DIGITS] digits, leading zeros counted. *)
Definition int_unsigned (s : string) : option Z :=
  match s with
  | EmptyString => None
  | String c r =>
      if is_ascii_digit c
      then match scan_digits 1 (Z.of_N (N_of_ascii c) - 48) r with
           | Some (count, v, rest) =>
               if all_chars is_int_space rest && (count <=? MAX_STR_DIGITS)
               then Some v else None
           | None => None
           end
      else None
  end.

(** [int(s)] of a [str], in base 10: blanks, one optional sign ([-] is
    45, [+] is 43), the numeral, blanks.  [None] is ValueError (a
    superscript digit passes [isdigit] and is refused by [int]). *)
Definition int (s : string) : option Z :=
  match lstrip is_int_space s with
  | EmptyString => None
  | String c r as t =>
      if Z.of_N (N_of_ascii c) =? 45 then Z.opp <$> int_unsigned r
      else if Z.of_N (N_of_ascii c) =? 43 then int_unsigned r
      else int_unsigned t
  end.

(** The lines a text file yields when it is iterated over, in the
    default universal-newlines mode: each line ends with its line feed
    (10), a carriage return (13) and a carriage return followed by a line
    feed are read as one line feed, and a last line without one is
    yielded as it is. *)
Fixpoint file_lines (s : string) : list string :=
  match s with
  | EmptyString => []
  | String c r =>
      if Z.of_N (N_of_ascii c) =? 10
      then String "010" EmptyString :: file_lines r
      else if Z.of_N (N_of_ascii c) =? 13 then
        String "010" EmptyString ::
          match r with
          | String c2 r2 =>
              if Z.of_N (N_of_ascii c2) =? 10 then file_lines r2
              else file_lines r
          | EmptyString => []
          end
      else
        match file_lines r with
        | [] => [String c EmptyString]
        | l :: ls => String c l :: ls
        end
  end.

(** The characters for which [str.isspace] holds among the code points
    0..255, which are also the ones [\s] matches in a pattern on [str]:
    9..13, 28..31, the space (32), 133 and 160. *)
Definition is_space (c : ascii) : bool :=
  let n := Z.of_N (N_of_ascii c) in
  ((9 <=? n) && (n <=? 13)) || ((28 <=? n) && (n <=? 31)) ||
  (n =? 32) || (n =? 133) || (n =? 160).

(** The line boundaries of [str.splitlines] among the code points 0..255:
    10..13, 28..30 and 133 (a 13 followed by a 10 counts once). *)
Definition is_linebreak (c : ascii) : bool :=
  let n := Z.of_N (N_of_ascii c) in
  ((10 <=? n) && (n <=? 13)) || ((28 <=? n) && (n <=? 30)) || (n =? 133).

(** [s.splitlines()]: the lines without their boundaries; no empty last
    line after a final boundary. *)
Fixpoint splitlines (s : string) : list string :=
  match s with
  | EmptyString => []
  | String c r =>
      if is_linebreak c then
        EmptyString ::
          match r with
          | String c2 r2 =>
              if (Z.of_N (N_of_ascii c) =? 13) && (Z.of_N (N_of_ascii c2) =? 10)
              then splitlines r2 else splitlines r
          | EmptyString => splitlines r
          end
      else
        match splitlines r with
        | [] => [String c EmptyString]
        | l :: ls => String c l :: ls
        end
  end.

(** [s.split('#', 1)[0]]: the text before the first [#]. *)
Fixpoint before_hash (s : string) : string :=
  match s with
  | EmptyString => EmptyString
  | String c r =>
      if Z.of_N (N_of_ascii c) =? 35 then EmptyString
      else String c (before_hash r)
  end.

(** [not s.strip()]: nothing but blanks. *)
Definition blank (s : string) : bool := all_chars is_space s.

Definition starts_with_nonspace (s : string) : bool :=
  match s with
  | String c _ => negb (is_space c)
  | EmptyString => false
  end.

(** [re.compile(r"[^\s]+").findall(s)]: the maximal runs of characters
    that are not blanks, in order. *)
Fixpoint findall_tokens (s : string) : list string :=
  match s with
  | EmptyString => []
  | String c r =>
      if is_space c then findall_tokens r
      else if starts_with_nonspace r then
        match findall_tokens r with
        | t :: ts => String c t :: ts
        | [] => [String c EmptyString]
        end
      else String c EmptyString :: findall_tokens r
  end.

Definition is_ascii_alpha (c : ascii) : bool :=
  let n := Z.of_N (N_of_ascii c) in
  ((65 <=? n) && (n <=? 90)) || ((97 <=? n) && (n <=? 122)).

Definition is_ascii_alnum (c : ascii) : bool :=
  is_ascii_alpha c || is_ascii_digit c.

(** [l[i]] on a list: IndexError ([None]) outside [-len, len). *)
Definition py_get (l : list Z) (i : Z) : option Z :=
  let n := Z.of_nat (length l) in
  if (0 <=? i) && (i <? n) then l !! Z.to_nat i
  else if (- n <=? i) && (i <? 0) then l !! Z.to_nat (i + n)
  else None.

(** [l[i] = v] on a list: IndexError ([None]) outside [-len, len). *)
Definition py_set (l : list Z) (i : Z) (v : Z) : option (list Z) :=
  let n := Z.of_nat (length l) in
  if (0 <=? i) && (i <? n) then Some (<[Z.to_nat i := v]> l)
  else if (- n <=? i) && (i <? 0) then Some (<[Z.to_nat (i + n) := v]> l)
  else None.

End Py.

(** ** The assembler, asemble.py *)

Module Asm.

Definition MAX_16 : Z := Z.shiftl 1 16.
Definition MASK_32 : Z := 0xFFFFFFFF.

(** [OPCODES]: mnemonic to opcode number. *)
Definition OPCODES (op : string) : option Z :=
  if (op =? "add")%string then Some 0
  else if (op =? "nand")%string then Some 1
  else if (op =? "lw")%string then Some 2
  else if (op =? "sw")%string then Some 3
  else if (op =? "beq")%string then Some 4
  else if (op =? "jalr")%string then Some 5
  else if (op =? "halt")%string then Some 6
  else if (op =? "noop")%string then Some 7
  else None.

Definition sign_extend_16 (value : Z) : Z :=
  let value := Z.land value 0xFFFF in
  if value <? 0x8000 then value else value - 0x10000.

(** A pre-parsed line.  [lineno] is the 0-based index of the line in the
    source text, as [parse_lines] stores it. *)
Record Line := mkLine {
  lineno : Z;
  label : option string;
  opcode : string;
  args : list string;
  raw : string
}.

(** The texts of the messages given to [AsmError]; the values
    interpolated into each text are the arguments. *)
Inductive message :=
| MissingOpcode
| DuplicateLabel (l : string)
| UnknownOpcode (op : string)
| OffsetOutOfRange
| BranchOffsetOutOfRange
| UndefinedSymbol (token : string)
| ExpectedArguments (expected got : Z)
| RegisterNotNumeric (token : string)
| RegisterOutOfRange (reg : Z).

(** Exceptions: [AsmError(lineno, msg, line)] with its three constructor
    arguments, and the ValueError of [int]. *)
Inductive exn :=
| AsmError (lineno : Z) (msg : message) (line : string)
| ValueError.

(** What [AsmError.__init__] prints after "Line ": [lineno + 1]. *)
Definition reported_line (e : exn) : option Z :=
  match e with
  | AsmError n _ _ => Some (n + 1)
  | ValueError => None
  end.

(** The source text [AsmError.__init__] prints under the message (it
    prints it without its leading and trailing blanks). *)
Definition reported_text (e : exn) : option string :=
  match e with
  | AsmError _ _ line => Some line
  | ValueError => None
  end.

Inductive result (A : Type) :=
| Ok (a : A)
| Raise (e : exn).
Arguments Ok {A} a.
Arguments Raise {A} e.

#[global] Instance result_ret : MRet result := fun _ a => Ok a.
#[global] Instance result_bind : MBind result := fun _ _ f m =>
  match m with
  | Ok a => f a
  | Raise e => Raise e
  end.

Definition of_int (o : option Z) : result Z :=
  match o with
  | Some v => Ok v
  | None => Raise ValueError
  end.

(** *** Pass 1: the symbol table *)

(** The loop of [build_symbol_table] from index [pc] on, with the
    dictionary built so far. *)
Fixpoint build_from (pc : Z) (lines : list Line) (symbols : gmap string Z)
  : result (gmap string Z) :=
  match lines with
  | [] => Ok symbols
  | line :: rest =>
      match label line with
      | Some l =>
          match symbols !! l with
          | Some _ => Raise (AsmError (lineno line) (DuplicateLabel l) (raw line))
          | None => build_from (pc + 1) rest (<[l := pc]> symbols)
          end
      | None => build_from (pc + 1) rest symbols
      end
  end.

Definition build_symbol_table (lines : list Line) : result (gmap string Z) :=
  build_from 0 lines ∅.

(** *** Utilities *)

Definition is_numeric (token : string) : bool :=
  Py.isdigit token || (Py.startswith_minus token && Py.isdigit (Py.tail token)).

Definition resolve_value (token : string) (symbols : gmap string Z)
    (allow_label : bool) : result Z :=
  if is_numeric token then of_int (Py.int token)
  else match (if allow_label then symbols !! token else None) with
       | Some a => Ok a
       | None => Raise (AsmError (-1) (UndefinedSymbol token) "")
       end.

Definition check_argc (line : Line) (expected : Z) : result unit :=
  let n := Z.of_nat (length (args line)) in
  if n =? expected then Ok tt
  else Raise (AsmError (lineno line) (ExpectedArguments expected n) (raw line)).

Definition int_reg (token : string) : result Z :=
  if negb (Py.isdigit token)
  then Raise (AsmError (-1) (RegisterNotNumeric token) "")
  else
    reg ← of_int (Py.int token);
    if (0 <=? reg) && (reg <? 8) then Ok reg
    else Raise (AsmError (-1) (RegisterOutOfRange reg) "").

(** [map(int_reg, tokens)], consumed left to right. *)
Fixpoint map_int_reg (tokens : list string) : result (list Z) :=
  match tokens with
  | [] => Ok []
  | t :: ts => r ← int_reg t; rs ← map_int_reg ts; Ok (r :: rs)
  end.

(** *** Pass 2: encoding *)

Definition in_16_bit_range (offset : Z) : bool :=
  (Z.div (- MAX_16) 2 <=? offset) && (offset <? Z.div MAX_16 2).

(** The body of the loop of [encode] for the line at index [pc]. *)
Definition encode_line (pc : Z) (line : Line) (symbols : gmap string Z)
  : result Z :=
  let op := opcode line in
  if (op =? ".fill")%string then
    _ ← check_argc line 1;
    match args line with
    | a0 :: _ => resolve_value a0 symbols false
    | [] => Raise ValueError
    end
  else
    match OPCODES op with
    | None => Raise (AsmError (lineno line) (UnknownOpcode op) (raw line))
    | Some opc_val =>
        instr ←
          (if (op =? "add")%string || (op =? "nand")%string then
             _ ← check_argc line 3;
             regs ← map_int_reg (args line);
             match regs with
             | [rA; rB; rD] =>
                 Ok (Z.lor (Z.lor (Z.lor (Z.shiftl opc_val 22) (Z.shiftl rA 19))
                                  (Z.shiftl rB 16)) rD)
             | _ => Raise ValueError
             end
           else if (op =? "lw")%string || (op =? "sw")%string then
             _ ← check_argc line 3;
             regs ← map_int_reg (take 2 (args line));
             match regs, args line with
             | [rA; rB], [_; _; a2] =>
                 offset ← resolve_value a2 symbols true;
                 if negb (in_16_bit_range offset)
                 then Raise (AsmError (lineno line) OffsetOutOfRange (raw line))
                 else Ok (Z.lor (Z.lor (Z.lor (Z.shiftl opc_val 22) (Z.shiftl rA 19))
                                       (Z.shiftl rB 16)) (Z.land offset 0xFFFF))
             | _, _ => Raise ValueError
             end
           else if (op =? "beq")%string then
             _ ← check_argc line 3;
             regs ← map_int_reg (take 2 (args line));
             match regs, args line with
             | [rA; rB], [_; _; a2] =>
                 offset ←
                   match symbols !! a2 with
                   | Some target => Ok (target - (pc + 1))
                   | None => resolve_value a2 symbols false
                   end;
                 if negb (in_16_bit_range offset)
                 then Raise (AsmError (lineno line) BranchOffsetOutOfRange (raw line))
                 else Ok (Z.lor (Z.lor (Z.lor (Z.shiftl opc_val 22) (Z.shiftl rA 19))
                                       (Z.shiftl rB 16)) (Z.land offset 0xFFFF))
             | _, _ => Raise ValueError
             end
           else if (op =? "jalr")%string then
             _ ← check_argc line 2;
             regs ← map_int_reg (args line);
             match regs with
             | [rA; rB] =>
                 Ok (Z.lor (Z.lor (Z.shiftl opc_val 22) (Z.shiftl rA 19))
                           (Z.shiftl rB 16))
             | _ => Raise ValueError
             end
           else
             _ ← check_argc line 0;
             Ok (Z.shiftl opc_val 22));
        Ok (Z.land instr MASK_32)
    end.

(** The loop of [encode] from index [pc] on: the words of the lines in
    order, or the first exception. *)
Fixpoint encode_from (pc : Z) (lines : list Line) (symbols : gmap string Z)
  : result (list Z) :=
  match lines with
  | [] => Ok []
  | line :: rest =>
      w ← encode_line pc line symbols;
      ws ← encode_from (pc + 1) rest symbols;
      Ok (w :: ws)
  end.

Definition encode (lines : list Line) (symbols : gmap string Z)
  : result (list Z) :=
  encode_from 0 lines symbols.

(** Label [l] is defined by the line at index [i] of [lines]. *)
Definition defined_at (lines : list Line) (l : string) (i : nat) : Prop :=
  exists line, lines !! i = Some line /\ label line = Some l.

(** [main] between parsing and writing the output file. *)
Definition assemble (lines : list Line) : result (list Z) :=
  symbols ← build_symbol_table lines;
  encode lines symbols.

(** *** Parsing *)

(** [[A-Za-z0-9]{0,n}$] on the rest of a token: at most [n] letters or
    digits up to the end, or up to a newline that ends the string. *)
Fixpoint label_tail (n : nat) (r : string) : bool :=
  match r with
  | EmptyString => true
  | String c r' =>
      if (Z.of_N (N_of_ascii c) =? 10) && (if r' is EmptyString then true else false)
      then true
      else match n with
           | O => false
           | S n' => Py.is_ascii_alnum c && label_tail n' r'
           end
  end.

(** [LABEL_RE.match(t)] as a truth value. *)
Definition LABEL_RE_match (t : string) : bool :=
  match t with
  | String c r => Py.is_ascii_alpha c && label_tail 5 r
  | EmptyString => false
  end.

Definition is_opcode (t : string) : bool :=
  if OPCODES t is Some _ then true else false.

(** What the body of the loop of [parse_lines] does with the line [raw]
    at index [idx]: nothing ([Ok None]) for a blank or comment line, a
    [Line], or the missing-opcode error.  The outer [None] is the
    IndexError of [tokens[0]] on an empty list. *)
Definition parse_line (idx : Z) (raw : string) : option (result (option Line)) :=
  let code := Py.before_hash raw in
  if Py.blank code then Some (Ok None)
  else
    let tokens := Py.findall_tokens code in
    match tokens with
    | [] => None
    | t0 :: rest =>
        if LABEL_RE_match t0 && negb (is_opcode t0) && negb (t0 =? ".fill")%string
        then
          match rest with
          | [] => Some (Raise (AsmError idx MissingOpcode raw))
          | op :: args => Some (Ok (Some (mkLine idx (Some t0) op args raw)))
          end
        else Some (Ok (Some (mkLine idx None t0 rest raw)))
    end.

(** The loop of [parse_lines] over the lines from index [idx] on. *)
Fixpoint parse_from (idx : Z) (raws : list string) : option (result (list Line)) :=
  match raws with
  | [] => Some (Ok [])
  | raw :: rest =>
      match parse_line idx raw with
      | None => None
      | Some (Raise e) => Some (Raise e)
      | Some (Ok parsed) =>
          match parse_from (idx + 1) rest with
          | None => None
          | Some (Raise e) => Some (Raise e)
          | Some (Ok lines) =>
              Some (Ok (match parsed with
                        | Some line => line :: lines
                        | None => lines
                        end))
          end
      end
  end.

Definition parse_lines (text : string) : option (result (list Line)) :=
  parse_from 0 (Py.splitlines text).

(** [main] from the text read to the words written: the three passes. *)
Definition assemble_text (text : string) : option (result (list Z)) :=
  match parse_lines text with
  | None => None
  | Some (Raise e) => Some (Raise e)
  | Some (Ok lines) => Some (assemble lines)
  end.

(** *** Vocabulary for the properties of the parser *)

(** A token as [findall] returns it from the text before [#]: not empty,
    no blank and no [#] in it. *)
Definition token_char (c : ascii) : bool :=
  negb (Py.is_space c) && negb (Z.of_N (N_of_ascii c) =? 35).

Definition token_ok (t : string) : Prop :=
  t <> EmptyString /\ Py.all_chars token_char t = true.

(** The shape of a line that [parse_lines] returns. *)
Definition line_ok (line : Line) : Prop :=
  token_ok (opcode line) /\ Forall token_ok (args line) /\
  match label line with
  | Some l => token_ok l /\ LABEL_RE_match l = true /\ OPCODES l = None
  | None => LABEL_RE_match (opcode line) = false \/ is_Some (OPCODES (opcode line))
  end.

(** The code of the line is one token, which is a label: the line
    [parse_lines] refuses. *)
Definition lone_label (raw : string) : Prop :=
  exists t, Py.findall_tokens (Py.before_hash raw) = [t] /\
            LABEL_RE_match t = true /\ OPCODES t = None.

(** The line has code, that is something other than blanks before [#]. *)
Definition has_code (raw : string) : bool := negb (Py.blank (Py.before_hash raw)).

(** Tokens written one after the other with one space between them. *)
Fixpoint unwords (tokens : list string) : string :=
  match tokens with
  | [] => EmptyString
  | [t] => t
  | t :: ts => t +:+ String " " (unwords ts)
  end.

(** The label (if any), the mnemonic and the operands of a line. *)
Definition line_tokens (line : Line) : list string :=
  match label line with
  | Some l => l :: opcode line :: args line
  | None => opcode line :: args line
  end.

(** The number of operands [encode] checks for each mnemonic; [None] for
    a mnemonic that is neither [.fill] nor in [OPCODES]. *)
Definition expected_argc (op : string) : option Z :=
  if (op =? ".fill")%string then Some 1
  else if (op =? "add")%string || (op =? "nand")%string
          || (op =? "lw")%string || (op =? "sw")%string || (op =? "beq")%string
  then Some 3
  else if (op =? "jalr")%string then Some 2
  else if (op =? "halt")%string || (op =? "noop")%string then Some 0
  else None.

End Asm.

(** ** The simulator, simulate.py *)

Module Sim.

Definition MEM_SIZE : Z := Z.shiftl 1 16.
Definition STEP_LIMIT : Z := 1000000.
Definition MASK_32 : Z := 0xFFFFFFFF.

Definition OP_ADD : Z := 0.
Definition OP_NAND : Z := 1.
Definition OP_LW : Z := 2.
Definition OP_SW : Z := 3.
Definition OP_BEQ : Z := 4.
Definition OP_JALR : Z := 5.
Definition OP_HALT : Z := 6.
Definition OP_NOOP : Z := 7.

Definition sext16 (x : Z) : Z := Z.land x 0x7FFF - Z.land x 0x8000.

(** What [load_mc] comes to: the memory image, the [sys.exit] with
    "Program too big: n > 65536", or the ValueError of [int(line)]. *)
Inductive image :=
| Loaded (memory : list Z)
| ProgramTooBig (n : Z)
| NotAnInt (line : string).

(** The comprehension [[int(line) & MASK_32 for line in f]]: the words
    of the lines, or the first line that [int] refuses. *)
Fixpoint read_words (lines : list string) : list Z + string :=
  match lines with
  | [] => inl []
  | line :: rest =>
      match Py.int line with
      | None => inr line
      | Some v =>
          match read_words rest with
          | inl words => inl (Z.land v MASK_32 :: words)
          | inr bad => inr bad
          end
      end
  end.

(** [load_mc], on the text of the file at [path]. *)
Definition load_mc (text : string) : image :=
  match read_words (Py.file_lines text) with
  | inr line => NotAnInt line
  | inl words =>
      if Z.of_nat (length words) >? MEM_SIZE
      then ProgramTooBig (Z.of_nat (length words))
      else Loaded (words ++ replicate (Z.to_nat (MEM_SIZE - Z.of_nat (length words))) 0)
  end.

(** The lines written through [_out], by kind, with the values
    interpolated into them. *)
Inductive event :=
| Dump (pc : Z) (regs : list Z)
| MachineHalted
| InstructionsExecuted (steps : Z)
| MemoryHeader
| MemCell (addr val : Z)
| StepLimitExceeded (limit : Z).

(** [State]; [log] holds the lines written so far, oldest first.  The
    [trace] flag only copies each line to the console and is left out. *)
Record State := mkState {
  mem : list Z;
  log : list event;
  reg : list Z;
  pc : Z;
  steps : Z
}.

Definition init_state (memory : list Z) : State :=
  {| mem := memory; log := []; reg := replicate 8 0; pc := 0; steps := 0 |}.

Inductive pyexn := IndexError | KeyError.

(** A computation on the machine state returns a value, leaves through
    [sys.exit(code)], or raises. *)
Inductive res (A : Type) :=
| Val (a : A) (s : State)
| Exit (code : Z) (s : State)
| Fault (e : pyexn) (s : State).
Arguments Val {A} a s.
Arguments Exit {A} code s.
Arguments Fault {A} e s.

Definition M (A : Type) : Type := State -> res A.

#[global] Instance M_ret : MRet M := fun _ a s => Val a s.
#[global] Instance M_bind : MBind M := fun _ _ f m s =>
  match m s with
  | Val a s' => f a s'
  | Exit c s' => Exit c s'
  | Fault e s' => Fault e s'
  end.

Definition state_of {A} (r : res A) : State :=
  match r with
  | Val _ s | Exit _ s | Fault _ s => s
  end.

(** *** Reads and writes of the fields of the state *)

Definition reg_get (i : Z) : M Z := fun s =>
  match Py.py_get (reg s) i with
  | Some v => Val v s
  | None => Fault IndexError s
  end.

Definition reg_set (i v : Z) : M unit := fun s =>
  match Py.py_set (reg s) i v with
  | Some r => Val tt {| mem := mem s; log := log s; reg := r; pc := pc s; steps := steps s |}
  | None => Fault IndexError s
  end.

Definition mem_get (i : Z) : M Z := fun s =>
  match Py.py_get (mem s) i with
  | Some v => Val v s
  | None => Fault IndexError s
  end.

Definition mem_set (i v : Z) : M unit := fun s =>
  match Py.py_set (mem s) i v with
  | Some m => Val tt {| mem := m; log := log s; reg := reg s; pc := pc s; steps := steps s |}
  | None => Fault IndexError s
  end.

Definition pc_get : M Z := fun s => Val (pc s) s.

Definition pc_set (v : Z) : M unit := fun s =>
  Val tt {| mem := mem s; log := log s; reg := reg s; pc := v; steps := steps s |}.

Definition steps_get : M Z := fun s => Val (steps s) s.

Definition steps_set (v : Z) : M unit := fun s =>
  Val tt {| mem := mem s; log := log s; reg := reg s; pc := pc s; steps := v |}.

(** [s._out(msg)] *)
Definition logged (s : State) (e : event) : State :=
  {| mem := mem s; log := log s ++ [e]; reg := reg s; pc := pc s; steps := steps s |}.

Definition out (e : event) : M unit := fun s => Val tt (logged s e).

Definition sys_exit {A} (code : Z) : M A := fun s => Exit code s.

(** [s.dump()]: reads [reg[0]] to [reg[7]]. *)
Definition dump : M unit := fun s =>
  if (8 <=? length (reg s))%nat then out (Dump (pc s) (take 8 (reg s))) s
  else Fault IndexError s.

(** *** Handlers.  Each is called with the four values
    [(a, b, imm, dst)] after the state and binds them by position. *)

Definition op_add (a b dst _5 : Z) : M bool :=
  x ← reg_get a; y ← reg_get b;
  _ ← reg_set dst (Z.land (x + y) MASK_32);
  mret true.

Definition op_nand (a b dst _5 : Z) : M bool :=
  x ← reg_get a; y ← reg_get b;
  _ ← reg_set dst (Z.land (Z.lnot (Z.land x y)) MASK_32);
  mret true.

Definition op_lw (a b off _5 : Z) : M bool :=
  x ← reg_get a;
  v ← mem_get (Z.land (x + sext16 off) (MEM_SIZE - 1));
  _ ← reg_set b v;
  mret true.

Definition op_sw (a b off _5 : Z) : M bool :=
  v ← reg_get b;
  x ← reg_get a;
  _ ← mem_set (Z.land (x + sext16 off) (MEM_SIZE - 1)) (Z.land v MASK_32);
  mret true.

Definition op_beq (a b off _5 : Z) : M bool :=
  x ← reg_get a; y ← reg_get b;
  if x =? y then
    p ← pc_get;
    _ ← pc_set (Z.land (p + 1 + sext16 off) (MEM_SIZE - 1));
    mret false
  else mret true.

Definition op_jalr (a b _4 _5 : Z) : M bool :=
  p ← pc_get;
  _ ← reg_set b (Z.land (p + 1) MASK_32);
  x ← reg_get a;
  _ ← pc_set (Z.land x (MEM_SIZE - 1));
  mret false.

(** The lines of [dump_memory] for the cells from address [addr] on. *)
Fixpoint nonzero_cells (addr : Z) (cells : list Z) : list event :=
  match cells with
  | [] => []
  | val :: rest =>
      (if val =? 0 then [] else [MemCell addr val]) ++ nonzero_cells (addr + 1) rest
  end.

Definition dump_memory : M unit := fun s =>
  Val tt {| mem := mem s; log := log s ++ nonzero_cells 0 (mem s);
            reg := reg s; pc := pc s; steps := steps s |}.

Definition op_halt (_2 _3 _4 _5 : Z) : M bool :=
  _ ← out MachineHalted;
  n ← steps_get;
  _ ← out (InstructionsExecuted n);
  _ ← dump;
  _ ← out MemoryHeader;
  _ ← dump_memory;
  sys_exit 0.

Definition op_noop (_2 _3 _4 _5 : Z) : M bool := mret true.

(** [HANDLERS[op]] *)
Definition HANDLERS (op : Z) : option (Z -> Z -> Z -> Z -> M bool) :=
  if op =? OP_ADD then Some op_add
  else if op =? OP_NAND then Some op_nand
  else if op =? OP_LW then Some op_lw
  else if op =? OP_SW then Some op_sw
  else if op =? OP_BEQ then Some op_beq
  else if op =? OP_JALR then Some op_jalr
  else if op =? OP_HALT then Some op_halt
  else if op =? OP_NOOP then Some op_noop
  else None.

(** *** Single step *)

(** The five fields [step] takes from a word. *)
Record fields := mkFields { f_op : Z; f_a : Z; f_b : Z; f_imm : Z; f_dst : Z }.

Definition decode (word : Z) : fields :=
  {| f_op := Z.land (Z.shiftr word 22) 7;
     f_a := Z.land (Z.shiftr word 19) 7;
     f_b := Z.land (Z.shiftr word 16) 7;
     f_imm := Z.land word 0xFFFF;
     f_dst := Z.land word 7 |}.

Definition step : M unit :=
  p ← pc_get;
  word ← mem_get p;
  let f := decode word in
  _ ← dump;
  advance ←
    match HANDLERS (f_op f) with
    | Some handler => handler (f_a f) (f_b f) (f_imm f) (f_dst f)
    | None => Fault KeyError
    end;
  _ ← (if advance : bool
       then p ← pc_get; pc_set (Z.land (p + 1) (MEM_SIZE - 1))
       else mret tt);
  _ ← reg_set 0 0;
  n ← steps_get;
  _ ← steps_set (n + 1);
  n ← steps_get;
  if n >? STEP_LIMIT
  then _ ← out (StepLimitExceeded STEP_LIMIT); sys_exit 1
  else mret tt.

(** *** The loop of [main]: [while True: step(state)], at most [fuel]
    calls of [step]; [None] when the calls are used up. *)
Fixpoint run (fuel : nat) (s : State) : option (res unit) :=
  match fuel with
  | O => None
  | S fuel' =>
      match step s with
      | Val _ s' => run fuel' s'
      | r => Some r
      end
  end.

(** The part of [step] after the call of the handler, from the test of
    [advance] on; [step] is proved to end with it ([step_unfold]). *)
Definition after_handler (advance : bool) : M unit :=
  _ ← (if advance
       then p ← pc_get; pc_set (Z.land (p + 1) (MEM_SIZE - 1))
       else mret tt);
  _ ← reg_set 0 0;
  n ← steps_get;
  _ ← steps_set (n + 1);
  n ← steps_get;
  if n >? STEP_LIMIT
  then _ ← out (StepLimitExceeded STEP_LIMIT); sys_exit 1
  else mret tt.

(** The states a run goes through: the state made from a loaded
    program, and the state left by each call of [step] that returns. *)
Inductive reachable : State -> Prop :=
| reachable_init (text : string) (memory : list Z) :
    load_mc text = Loaded memory -> reachable (init_state memory)
| reachable_step (s s' : State) :
    reachable s -> step s = Val tt s' -> reachable s'.

(** *** Well-formed machine states *)

Definition word_ok (v : Z) : Prop := 0 <= v < 2 ^ 32.

Record wf (s : State) : Prop := mkWf {
  wf_pc : 0 <= pc s < MEM_SIZE;
  wf_reg_len : length (reg s) = 8%nat;
  wf_reg : Forall word_ok (reg s);
  wf_mem_len : Z.of_nat (length (mem s)) = MEM_SIZE;
  wf_mem : Forall word_ok (mem s)
}.

(** *** Vocabulary for the properties of the steps *)

(** The result of a call of [step] on [s] whose handler returned, with
    memory [m], registers [r] and program counter [p] after the clearing of
    register 0: the trace line of the step is in the log, the step is
    counted, and the run goes on or stops at the limit. *)
Definition finished (s : State) (m r : list Z) (p : Z) : res unit :=
  let s' := mkState m (log s ++ [Dump (pc s) (take 8 (reg s))]) r p (steps s + 1) in
  if steps s + 1 >? STEP_LIMIT
  then Exit 1 (logged s' (StepLimitExceeded STEP_LIMIT))
  else Val tt s'.

(** The order of the lines of the memory report. *)
Definition cell_before (e1 e2 : event) : Prop :=
  match e1, e2 with
  | MemCell a1 _, MemCell a2 _ => a1 < a2
  | _, _ => False
  end.

(** A state that loops on itself: the word at [pc] is a [beq] with offset
    -1 on two registers that hold the same value. *)
Record self_loop (s : State) (word : Z) : Prop := mkSelfLoop {
  sl_fetch : Py.py_get (mem s) (pc s) = Some word;
  sl_op : f_op (decode word) = OP_BEQ;
  sl_imm : f_imm (decode word) = 0xFFFF;
  sl_regs : length (reg s) = 8%nat;
  sl_reg0 : Py.py_get (reg s) 0 = Some 0;
  sl_equal : Py.py_get (reg s) (f_a (decode word))
             = Py.py_get (reg s) (f_b (decode word));
  sl_pc : 0 <= pc s < 65536
}.


End Sim.

(** ** Concrete programs used in the examples below *)

Module Examples.
Import Asm.

(** [add 1 2 3] *)
Definition add_line : Line := mkLine 0 None "add" ["1"; "2"; "3"] "add 1 2 3".

(** [beq 0 0 32767], [beq 0 0 32768] and [loop beq 0 0 loop] *)
Definition beq_max : Line :=
  mkLine 0 None "beq" ["0"; "0"; "32767"] "beq 0 0 32767".
Definition beq_over : Line :=
  mkLine 0 None "beq" ["0"; "0"; "32768"] "beq 0 0 32768".
Definition beq_self : Line :=
  mkLine 0 (Some "loop") "beq" ["0"; "0"; "loop"] "loop beq 0 0 loop".

(** A data word and a second data word holding its address. *)
Definition fill_label_prog : list Line :=
  [ mkLine 0 (Some "five") ".fill" ["5"] "five .fill 5";
    mkLine 1 (Some "ptr") ".fill" ["five"] "ptr .fill five" ].

(** The data line of the example in the docstring of asemble.py. *)
Definition fill_neg_prog : list Line :=
  [ mkLine 0 (Some "neg1") ".fill" ["-1"] "neg1 .fill -1" ].

Definition fill_big_prog : list Line :=
  [ mkLine 0 None ".fill" ["4294967296"] ".fill 4294967296" ].

(** A register out of range on the second source line, and an undefined
    symbol on the second source line. *)
Definition bad_reg_prog : list Line :=
  [ mkLine 0 None "noop" [] "noop";
    mkLine 1 None "add" ["1"; "2"; "9"] "add 1 2 9" ].

Definition undefined_prog : list Line :=
  [ mkLine 0 None "noop" [] "noop";
    mkLine 1 None "lw" ["0"; "1"; "nosuch"] "lw 0 1 nosuch" ].

(** The state the simulator starts from for a machine-code file. *)
Definition loaded (text : string) : Sim.State :=
  Sim.init_state (match Sim.load_mc text with
                  | Sim.Loaded memory => memory
                  | _ => []
                  end).

(** The text of a file made of the given lines, each with its line
    feed. *)
Definition file_of (lines : list string) : string :=
  String.concat "" (map (fun l => l +:+ String "010" EmptyString) lines).

(** [lw 0 0 1] followed by the data word 77: the load writes 77 to
    register 0. *)
Definition lw_r0_mc : string := file_of ["8388609"; "77"].

(** A machine-code file with the one line [8]. *)
Definition crash_mc : string := file_of ["8"].

(** The words of [beq 1 2 3] at address 0, and registers 1 and 2. *)
Definition beq_state (r1 r2 : Z) : Sim.State :=
  {| Sim.mem := [17432579]; Sim.log := [];
     Sim.reg := [0; r1; r2; 0; 0; 0; 0; 0]; Sim.pc := 0; Sim.steps := 0 |}.

(** [start lw 0 1 five], [jalr 4 7] and [.fill -5] *)
Definition lw_label_line : Line :=
  mkLine 3 (Some "start") "lw" ["0"; "1"; "five"] "start lw 0 1 five".
Definition jalr_line : Line := mkLine 0 None "jalr" ["4"; "7"] "jalr 4 7".
Definition fill_line : Line := mkLine 0 None ".fill" ["-5"] ".fill -5".

(** The program of the docstring of asemble.py, parsed. *)
Definition count_prog : list Line :=
  [ mkLine 1 None "lw" ["0"; "1"; "five"] "        lw   0 1 five      # R1";
    mkLine 2 None "lw" ["0"; "2"; "neg1"] "        lw   0 2 neg1      # R2";
    mkLine 3 (Some "loop") "add" ["1"; "2"; "1"] "loop    add  1 2 1";
    mkLine 4 None "beq" ["0"; "1"; "done"] "        beq  0 1 done";
    mkLine 5 None "beq" ["0"; "0"; "loop"] "        beq  0 0 loop";
    mkLine 7 (Some "done") "halt" [] "done    halt";
    mkLine 10 (Some "five") ".fill" ["5"] "five    .fill 5";
    mkLine 11 (Some "neg1") ".fill" ["-1"] "neg1    .fill -1" ].

(** One word at address 0 and the registers 1 and 2: [add 1 2 3] is
    655363, [nand 1 2 3] is 4849667, [jalr 1 1] is 21561344, [halt] is
    25165824, [beq 0 0 -1] is 16842751. *)
Definition one_word_state (word r1 r2 steps : Z) : Sim.State :=
  {| Sim.mem := [word]; Sim.log := [];
     Sim.reg := [0; r1; r2; 0; 0; 0; 0; 0]; Sim.pc := 0; Sim.steps := steps |}.

(** [sw 0 0 1] followed by a data word, and [add 1 2 3] alone. *)
Definition sw_mc : string := file_of ["12582913"; "77"].
Definition add_mc : string := file_of ["655363"].

Definition add_state : Sim.State := one_word_state 655363 5 7 0.
Definition jalr_state : Sim.State := one_word_state 21561344 40 0 0.
Definition halt_state : Sim.State := one_word_state 25165824 5 7 3.
Definition loop_state : Sim.State := one_word_state 16842751 0 0 999998.
Definition lw_state : Sim.State := loaded lw_r0_mc.
Definition sw_state : Sim.State := loaded sw_mc.
Definition add_loaded : Sim.State := loaded add_mc.
Definition crash_state : Sim.State := loaded crash_mc.

End Examples.

(** * Properties *)

(** ** Bit fields as arithmetic *)

Module Bits.

Lemma land_low_high (hi lo n : Z) :
  0 <= n -> 0 <= lo < 2 ^ n -> Z.land (hi * 2 ^ n) lo = 0.
Proof.
  intros Hn Hlo. apply Z.bits_inj'. intros m Hm.
  rewrite Z.land_spec, Z.bits_0.
  destruct (Z.lt_ge_cases m n) as [Hlt | Hge].
  - rewrite Z.mul_pow2_bits_low by lia. reflexivity.
  - rewrite <- (Z.mod_small lo (2 ^ n)) by lia.
    rewrite Z.mod_pow2_bits_high by lia. apply andb_false_r.
Qed.

Lemma lor_low (hi lo n : Z) :
  0 <= n -> 0 <= lo < 2 ^ n -> Z.lor (hi * 2 ^ n) lo = hi * 2 ^ n + lo.
Proof.
  intros Hn Hlo. symmetry. apply Z.add_nocarry_lor.
  now apply land_low_high.
Qed.

Lemma land_mod (x n : Z) : 0 <= n -> Z.land x (2 ^ n - 1) = x mod 2 ^ n.
Proof.
  intros Hn. rewrite <- Z.land_ones by lia.
  f_equal. rewrite Z.ones_equiv. lia.
Qed.

(** Bit [n] alone: [x & 2^n] is [2^n] when the bit is set, else [0]. *)
Lemma land_pow2 (x n : Z) :
  0 <= n -> Z.land x (2 ^ n) = (x / 2 ^ n) mod 2 * 2 ^ n.
Proof.
  intros Hn. apply Z.bits_inj'. intros m Hm.
  rewrite Z.land_spec, Z.pow2_bits_eqb, Z.mul_pow2_bits by lia.
  change 2 with (2 ^ 1) at 2.
  destruct (Z.eqb_spec n m) as [-> | Hne].
  - rewrite andb_true_r, Z.mod_pow2_bits_low by lia.
    rewrite Z.div_pow2_bits by lia. f_equal. lia.
  - rewrite andb_false_r.
    destruct (Z.lt_ge_cases m n) as [Hlt | Hge].
    + rewrite Z.testbit_neg_r by lia. reflexivity.
    + rewrite Z.mod_pow2_bits_high by lia. reflexivity.
Qed.

(** The four fields of an instruction word, as a sum. *)
Lemma pack_sum (op a b lo : Z) :
  0 <= a < 8 -> 0 <= b < 8 -> 0 <= lo < 2 ^ 16 ->
  Z.lor (Z.lor (Z.lor (Z.shiftl op 22) (Z.shiftl a 19)) (Z.shiftl b 16)) lo
  = op * 2 ^ 22 + a * 2 ^ 19 + b * 2 ^ 16 + lo.
Proof.
  intros Ha Hb Hlo.
  rewrite !Z.shiftl_mul_pow2 by lia.
  rewrite (lor_low op (a * 2 ^ 19) 22) by lia.
  replace (op * 2 ^ 22 + a * 2 ^ 19) with ((op * 8 + a) * 2 ^ 19) by lia.
  rewrite (lor_low (op * 8 + a) (b * 2 ^ 16) 19) by lia.
  replace ((op * 8 + a) * 2 ^ 19 + b * 2 ^ 16)
    with (((op * 8 + a) * 8 + b) * 2 ^ 16) by lia.
  rewrite lor_low by lia. lia.
Qed.

End Bits.

(** ** The assembler *)

Module AsmSpec.
Import Asm.

Lemma bind_Ok {A B} (f : A -> result B) (a : A) : mbind f (Ok a) = f a.
Proof. reflexivity. Qed.

Lemma bind_Raise {A B} (f : A -> result B) (e : exn) :
  mbind f (Raise e) = Raise e.
Proof. reflexivity. Qed.

(** A register number returned by [int_reg] is in 0..7. *)
Lemma int_reg_range (token : string) (r : Z) :
  int_reg token = Ok r -> 0 <= r < 8.
Proof.
  unfold int_reg. destruct (Py.isdigit token); cbn [negb]; [|discriminate].
  destruct (Py.int token) as [v|]; cbn [of_int]; rewrite ?bind_Ok, ?bind_Raise;
    [|discriminate].
  destruct ((0 <=? v) && (v <? 8)) eqn:Hrange; [|discriminate].
  intros [= <-]. apply andb_true_iff in Hrange as [H1 H2]. lia.
Qed.

Lemma MASK_32_pow : MASK_32 = 2 ^ 32 - 1.
Proof. reflexivity. Qed.

(** Packed fields below 2^25 pass the final mask unchanged and decode
    to themselves. *)
Lemma decode_pack (op a b lo : Z) :
  0 <= op < 8 -> 0 <= a < 8 -> 0 <= b < 8 -> 0 <= lo < 2 ^ 16 ->
  let w := Z.lor (Z.lor (Z.lor (Z.shiftl op 22) (Z.shiftl a 19)) (Z.shiftl b 16)) lo in
  Z.land w MASK_32 = w /\
  Sim.decode w = Sim.mkFields op a b lo (lo mod 8).
Proof.
  intros Hop Ha Hb Hlo w. subst w. rewrite Bits.pack_sum by assumption.
  split.
  - rewrite MASK_32_pow, Bits.land_mod by lia. apply Z.mod_small. lia.
  - unfold Sim.decode. rewrite !Z.shiftr_div_pow2 by lia.
    change 7 with (2 ^ 3 - 1). change 0xFFFF with (2 ^ 16 - 1).
    rewrite !Bits.land_mod by lia.
    f_equal; Z.div_mod_to_equations; lia.
Qed.

(** A run of decimal digits is a run of digit characters. *)
Lemma digits_value_all_digits (s : string) (acc v : Z) :
  Py.digits_value acc s = Some v -> Py.all_chars Py.is_digit_char s = true.
Proof.
  revert acc. induction s as [|c r IH]; intros acc H; [reflexivity|].
  cbn [Py.digits_value] in H. cbn [Py.all_chars].
  destruct (Py.is_ascii_digit c) eqn:Hc; [|discriminate].
  unfold Py.is_digit_char. rewrite Hc. cbn [orb andb]. eauto.
Qed.

(** [int] on the tokens that pass the numeric tests of the assembler. *)
Lemma digit_code (c : ascii) :
  Py.is_ascii_digit c = true -> 48 <= Z.of_N (N_of_ascii c) <= 57.
Proof. unfold Py.is_ascii_digit. cbv zeta. lia. Qed.

Lemma digit_char_code (c : ascii) :
  Py.is_digit_char c = true ->
  Py.is_ascii_digit c = true \/
  (Py.is_ascii_digit c = false /\
   (Z.of_N (N_of_ascii c) = 178 \/ Z.of_N (N_of_ascii c) = 179 \/
    Z.of_N (N_of_ascii c) = 185)).
Proof.
  unfold Py.is_digit_char, Py.is_ascii_digit. cbv zeta.
  destruct ((48 <=? _) && (_ <=? 57)) eqn:H; [now left|].
  cbn [orb]. intros Hc. right. split; [reflexivity|]. lia.
Qed.

(** On a run of digit characters, [scan_digits] reads the decimal digits
    up to the end, or stops at a superscript digit. *)
Lemma scan_digit_chars (r : string) :
  Py.all_chars Py.is_digit_char r = true ->
  forall count acc,
    match Py.digits_value acc r with
    | Some v =>
        Py.scan_digits count acc r
        = Some (count + Z.of_nat (String.length r), v, EmptyString)
    | None =>
        exists k v rest, Py.scan_digits count acc r = Some (k, v, rest) /\
                         Py.all_chars Py.is_int_space rest = false
    end.
Proof.
  induction r as [|c r IH]; intros Hall count acc.
  - cbn. do 2 f_equal. f_equal. lia.
  - cbn [Py.all_chars] in Hall. apply andb_true_iff in Hall as [Hc Hr].
    cbn [Py.digits_value Py.scan_digits].
    destruct (digit_char_code c Hc) as [Hd | [Hd Hcode]]; rewrite Hd.
    + specialize (IH Hr (count + 1) (10 * acc + (Z.of_N (N_of_ascii c) - 48))).
      destruct (Py.digits_value _ r) as [v|].
      * rewrite IH. cbn [String.length]. do 2 f_equal. f_equal. lia.
      * exact IH.
    + assert (Hu : (Z.of_N (N_of_ascii c) =? 95) = false) by lia.
      rewrite Hu. eexists _, _, _. split; [reflexivity|].
      cbn [Py.all_chars]. unfold Py.is_int_space. cbv zeta.
      apply andb_false_iff. left. lia.
Qed.

Lemma int_unsigned_isdigit (s : string) :
  Py.isdigit s = true ->
  Py.int_unsigned s =
    if Z.of_nat (String.length s) <=? Py.MAX_STR_DIGITS
    then Py.digits_value 0 s else None.
Proof.
  destruct s as [|c r]; [discriminate|].
  unfold Py.isdigit. cbn [Py.all_chars]. intros Hall.
  apply andb_true_iff in Hall as [Hc Hr].
  unfold Py.int_unsigned. cbn [Py.digits_value].
  destruct (digit_char_code c Hc) as [Hd | [Hd _]]; rewrite Hd;
    [|now destruct (_ <=? _)].
  pose proof (scan_digit_chars r Hr 1 (Z.of_N (N_of_ascii c) - 48)) as Hscan.
  replace (10 * 0 + (Z.of_N (N_of_ascii c) - 48))
    with (Z.of_N (N_of_ascii c) - 48) by lia.
  destruct (Py.digits_value _ r) as [v|].
  - rewrite Hscan. cbn [Py.all_chars andb String.length].
    replace (Z.of_nat (S (String.length r)))
      with (1 + Z.of_nat (String.length r)) by lia.
    reflexivity.
  - destruct Hscan as (k & v & rest & -> & ->). cbn [andb].
    now destruct (_ <=? _).
Qed.

Lemma lstrip_digit_char (c : ascii) (r : string) :
  Py.is_digit_char c = true ->
  Py.lstrip Py.is_int_space (String c r) = String c r /\
  (Z.of_N (N_of_ascii c) =? 45) = false /\
  (Z.of_N (N_of_ascii c) =? 43) = false.
Proof.
  intros Hc. cbn [Py.lstrip].
  assert (Hs : Py.is_int_space c = false).
  { unfold Py.is_int_space. cbv zeta.
    destruct (digit_char_code c Hc) as [Hd | [_ Hcode]];
      [apply digit_code in Hd|]; lia. }
  rewrite Hs. split; [reflexivity|].
  destruct (digit_char_code c Hc) as [Hd | [_ Hcode]];
    [apply digit_code in Hd|]; lia.
Qed.

(** A token for which [isdigit] holds is read by [int] as its decimal
    value when it is made of the digits 0..9 and has at most 4300 of
    them, and is refused otherwise. *)
Lemma int_isdigit (s : string) :
  Py.isdigit s = true ->
  Py.int s =
    if Z.of_nat (String.length s) <=? Py.MAX_STR_DIGITS
    then Py.digits_value 0 s else None.
Proof.
  intros Hd. rewrite <- (int_unsigned_isdigit s Hd).
  destruct s as [|c r]; [discriminate|].
  unfold Py.isdigit in Hd. cbn [Py.all_chars] in Hd.
  apply andb_true_iff in Hd as [Hc _].
  unfold Py.int.
  destruct (lstrip_digit_char c r Hc) as (-> & -> & ->). reflexivity.
Qed.

(** The same after a minus sign. *)
Lemma int_minus_isdigit (s : string) :
  Py.startswith_minus s = true -> Py.isdigit (Py.tail s) = true ->
  Py.int s =
    Z.opp <$> (if Z.of_nat (String.length (Py.tail s)) <=? Py.MAX_STR_DIGITS
               then Py.digits_value 0 (Py.tail s) else None).
Proof.
  destruct s as [|c r]; [discriminate|].
  cbn [Py.startswith_minus Py.tail]. intros Hm Hd.
  rewrite <- (int_unsigned_isdigit r Hd).
  unfold Py.int. cbn [Py.lstrip].
  assert (Hs : Py.is_int_space c = false).
  { unfold Py.is_int_space. cbv zeta. lia. }
  rewrite Hs, Hm. reflexivity.
Qed.

Lemma in_16_bit_range_spec (offset : Z) :
  in_16_bit_range offset = true <-> -32768 <= offset <= 32767.
Proof.
  unfold in_16_bit_range.
  change (Z.div (- MAX_16) 2) with (-32768). change (Z.div MAX_16 2) with 32768.
  rewrite andb_true_iff, Z.leb_le, Z.ltb_lt. lia.
Qed.

(** [sext16] and [sign_extend_16] read the low 16 bits as a signed
    number. *)
Lemma sext16_spec (x : Z) :
  Sim.sext16 x =
  if x mod 2 ^ 16 <? 2 ^ 15 then x mod 2 ^ 16 else x mod 2 ^ 16 - 2 ^ 16.
Proof.
  unfold Sim.sext16.
  change 0x7FFF with (2 ^ 15 - 1). change 0x8000 with (2 ^ 15).
  rewrite Bits.land_mod, Bits.land_pow2 by lia.
  destruct (Z.ltb_spec (x mod 2 ^ 16) (2 ^ 15));
    Z.div_mod_to_equations; lia.
Qed.

Lemma sign_extend_16_spec (x : Z) :
  sign_extend_16 x =
  if x mod 2 ^ 16 <? 2 ^ 15 then x mod 2 ^ 16 else x mod 2 ^ 16 - 2 ^ 16.
Proof.
  unfold sign_extend_16. change 0xFFFF with (2 ^ 16 - 1).
  rewrite Bits.land_mod by lia. reflexivity.
Qed.

Lemma sext16_of_offset (offset : Z) :
  -32768 <= offset <= 32767 -> Sim.sext16 (offset mod 2 ^ 16) = offset.
Proof.
  intros H. rewrite sext16_spec.
  destruct (Z.ltb_spec (offset mod 2 ^ 16 mod 2 ^ 16) (2 ^ 15));
    Z.div_mod_to_equations; lia.
Qed.

(** *** What [encode_line] computes, format by format *)

Lemma encode_R (pc n : Z) (lb : option string) (op : string) (opc : Z)
    (ta tb td rw : string) (symbols : gmap string Z) :
  (op = "add" /\ opc = 0) \/ (op = "nand" /\ opc = 1) ->
  encode_line pc (mkLine n lb op [ta; tb; td] rw) symbols =
    rA ← int_reg ta; rB ← int_reg tb; rD ← int_reg td;
    Ok (Z.land (Z.lor (Z.lor (Z.lor (Z.shiftl opc 22) (Z.shiftl rA 19))
                             (Z.shiftl rB 16)) rD) MASK_32).
Proof.
  intros [[-> ->] | [-> ->]]; unfold encode_line, check_argc; cbn;
    (destruct (int_reg ta); [|reflexivity]);
    (destruct (int_reg tb); [|reflexivity]);
    (destruct (int_reg td); reflexivity).
Qed.

Lemma encode_beq (pc n : Z) (lb : option string) (ta tb t rw : string)
    (symbols : gmap string Z) :
  encode_line pc (mkLine n lb "beq" [ta; tb; t] rw) symbols =
    rA ← int_reg ta; rB ← int_reg tb;
    offset ← match symbols !! t with
             | Some target => Ok (target - (pc + 1))
             | None => resolve_value t symbols false
             end;
    if in_16_bit_range offset
    then Ok (Z.land (Z.lor (Z.lor (Z.lor (Z.shiftl 4 22) (Z.shiftl rA 19))
                                  (Z.shiftl rB 16)) (Z.land offset 0xFFFF)) MASK_32)
    else Raise (AsmError n BranchOffsetOutOfRange rw).
Proof.
  unfold encode_line, check_argc; cbn.
  destruct (int_reg ta); [|reflexivity].
  destruct (int_reg tb); [|reflexivity].
  cbn.
  destruct (symbols !! t); cbn.
  - destruct (in_16_bit_range _); reflexivity.
  - destruct (resolve_value t symbols false); cbn; [|reflexivity].
    destruct (in_16_bit_range _); reflexivity.
Qed.

Lemma encode_fill (pc n : Z) (lb : option string) (t rw : string)
    (symbols : gmap string Z) :
  encode_line pc (mkLine n lb ".fill" [t] rw) symbols =
    resolve_value t symbols false.
Proof. reflexivity. Qed.

(** *** Pass 1 *)

Lemma defined_at_0 (line : Line) (rest : list Line) (l : string) :
  defined_at (line :: rest) l 0 <-> label line = Some l.
Proof.
  unfold defined_at. cbn. split.
  - intros (x & [= <-] & H). exact H.
  - intros H. eauto.
Qed.

Lemma defined_at_S (line : Line) (rest : list Line) (l : string) (i : nat) :
  defined_at (line :: rest) l (S i) <-> defined_at rest l i.
Proof. reflexivity. Qed.

Lemma defined_somewhere_dec (lines : list Line) (l : string) :
  (exists i, defined_at lines l i) \/ (forall i, ~ defined_at lines l i).
Proof.
  induction lines as [|line rest IH].
  - right. intros i (x & H & _). rewrite lookup_nil in H. discriminate.
  - destruct (decide (label line = Some l)) as [Hl | Hl].
    + left. exists 0%nat. now apply defined_at_0.
    + destruct IH as [[i Hi] | Hno].
      * left. exists (S i). exact Hi.
      * right. intros [|i]; [rewrite defined_at_0 | rewrite defined_at_S]; auto.
Qed.

(** A successful run of the loop from [pc] with the table [symbols]:
    every label of [lines] was free in [symbols], is defined once, and is
    bound to its index; the other keys are those of [symbols]. *)
Lemma build_from_Ok (lines : list Line) :
  forall (pc : Z) (symbols out : gmap string Z),
  build_from pc lines symbols = Ok out ->
  (forall l i, defined_at lines l i ->
     symbols !! l = None /\ out !! l = Some (pc + Z.of_nat i) /\
     forall j, defined_at lines l j -> j = i) /\
  (forall l, (forall i, ~ defined_at lines l i) -> out !! l = symbols !! l).
Proof.
  induction lines as [|line rest IH]; intros pc symbols out Hb.
  - cbn in Hb. injection Hb as <-. split; [|reflexivity].
    intros l i (x & H & _). rewrite lookup_nil in H. discriminate.
  - cbn [build_from] in Hb.
    destruct (label line) as [l0|] eqn:Hl0.
    + destruct (symbols !! l0) eqn:Hfree; [discriminate|].
      destruct (IH _ _ _ Hb) as [IHdef IHrest].
      assert (Hnot : forall i, ~ defined_at rest l0 i).
      { intros i Hi. destruct (IHdef _ _ Hi) as [Hins _].
        rewrite lookup_insert_eq in Hins. discriminate. }
      split.
      * intros l [|i] Hd.
        -- apply defined_at_0 in Hd. rewrite Hl0 in Hd. injection Hd as <-.
           split; [exact Hfree|]. split.
           ++ rewrite (IHrest _ Hnot), lookup_insert_eq. f_equal. lia.
           ++ intros [|j] Hj; [reflexivity|].
              apply defined_at_S in Hj. destruct (Hnot _ Hj).
        -- apply defined_at_S in Hd.
           destruct (IHdef _ _ Hd) as (Hins & Hout & Huniq).
           assert (l0 <> l) by (intros ->; destruct (Hnot _ Hd)).
           rewrite lookup_insert_ne in Hins by assumption.
           split; [exact Hins|]. split.
           ++ rewrite Hout. f_equal. lia.
           ++ intros [|j] Hj.
              ** apply defined_at_0 in Hj. congruence.
              ** apply defined_at_S in Hj. f_equal. auto.
      * intros l Hno.
        assert (l0 <> l).
        { intros ->. apply (Hno 0%nat). now apply defined_at_0. }
        rewrite IHrest, lookup_insert_ne by
          (try assumption; intros i Hi; apply (Hno (S i)); exact Hi).
        reflexivity.
    + destruct (IH _ _ _ Hb) as [IHdef IHrest]. split.
      * intros l [|i] Hd.
        -- apply defined_at_0 in Hd. congruence.
        -- apply defined_at_S in Hd.
           destruct (IHdef _ _ Hd) as (Hins & Hout & Huniq).
           split; [exact Hins|]. split.
           ++ rewrite Hout. f_equal. lia.
           ++ intros [|j] Hj.
              ** apply defined_at_0 in Hj. congruence.
              ** apply defined_at_S in Hj. f_equal. auto.
      * intros l Hno. apply IHrest.
        intros i Hi. apply (Hno (S i)). exact Hi.
Qed.

(** A failing run of the loop stops at a line whose label is already
    bound, by [symbols] or by an earlier line, and reports that line. *)
Lemma build_from_Raise (lines : list Line) :
  forall (pc : Z) (symbols : gmap string Z) (e : exn),
  build_from pc lines symbols = Raise e ->
  exists j lj l,
    lines !! j = Some lj /\ label lj = Some l /\
    e = AsmError (lineno lj) (DuplicateLabel l) (raw lj) /\
    (is_Some (symbols !! l) \/ exists i, (i < j)%nat /\ defined_at lines l i).
Proof.
  induction lines as [|line rest IH]; intros pc symbols e Hb; [discriminate|].
  cbn [build_from] in Hb.
  destruct (label line) as [l0|] eqn:Hl0.
  - destruct (symbols !! l0) as [a|] eqn:Hfree.
    + injection Hb as <-. exists 0%nat, line, l0. eauto.
    + destruct (IH _ _ _ Hb) as (j & lj & l & Hj & Hl & He & Hdup).
      exists (S j), lj, l. repeat split; try assumption.
      destruct Hdup as [[a Ha] | (i & Hi & Hd)].
      * destruct (decide (l0 = l)) as [<- | Hne].
        -- right. exists 0%nat. split; [lia|]. now apply defined_at_0.
        -- rewrite lookup_insert_ne in Ha by assumption. left. eauto.
      * right. exists (S i). split; [lia | exact Hd].
  - destruct (IH _ _ _ Hb) as (j & lj & l & Hj & Hl & He & Hdup).
    exists (S j), lj, l. repeat split; try assumption.
    destruct Hdup as [Hs | (i & Hi & Hd)]; [left; exact Hs|].
    right. exists (S i). split; [lia | exact Hd].
Qed.

(** C8. [build_symbol_table] either returns the table that binds each
    label to the 0-based index of the one line defining it (so forward
    references resolve), or fails with the duplicate-label error of a
    line whose label an earlier line already defines; it fails exactly
    when two different lines define the same label, wherever they are. *)
Theorem build_symbol_table_spec (lines : list Line) :
  match build_symbol_table lines with
  | Ok symbols =>
      (forall l a, symbols !! l = Some a <->
                   exists i, a = Z.of_nat i /\ defined_at lines l i) /\
      (forall l i j, defined_at lines l i -> defined_at lines l j -> i = j)
  | Raise e =>
      exists i j lj l,
        (i < j)%nat /\ defined_at lines l i /\
        lines !! j = Some lj /\ label lj = Some l /\
        e = AsmError (lineno lj) (DuplicateLabel l) (raw lj)
  end.
Proof.
  unfold build_symbol_table.
  destruct (build_from 0 lines ∅) as [symbols | e] eqn:Hb.
  - destruct (build_from_Ok _ _ _ _ Hb) as [Hdef Hrest]. split.
    + intros l a. split.
      * intros Hl. destruct (defined_somewhere_dec lines l) as [[i Hi] | Hno].
        -- exists i. split; [|exact Hi].
           destruct (Hdef _ _ Hi) as (_ & Hout & _). rewrite Hout in Hl.
           injection Hl as <-. lia.
        -- rewrite (Hrest _ Hno), lookup_empty in Hl. discriminate.
      * intros (i & -> & Hi). destruct (Hdef _ _ Hi) as (_ & Hout & _).
        rewrite Hout. f_equal.
    + intros l i j Hi Hj. destruct (Hdef _ _ Hi) as (_ & _ & Huniq).
      symmetry. auto.
  - destruct (build_from_Raise _ _ _ _ Hb) as (j & lj & l & Hj & Hl & He & Hdup).
    destruct Hdup as [[a Ha] | (i & Hi & Hd)].
    + rewrite lookup_empty in Ha. discriminate.
    + exists i, j, lj, l. auto.
Qed.

(** *** Pass 2 *)

(** C1. An [add] or [nand] line whose three operands are registers in
    0..7 is packed as [(opcode<<22) | (rA<<19) | (rB<<16) | rD], with the
    destination in bits 0-2 and nothing in bits 3-15; the loader keeps
    the word as it is, and [decode] of the simulator reads back the same
    opcode, rA, rB and destination. *)
Theorem R_format_roundtrip (pc : Z) (line : Line) (symbols : gmap string Z)
    (opc : Z) (ta tb td : string) (rA rB rD : Z) :
  (opcode line = "add" /\ opc = 0) \/ (opcode line = "nand" /\ opc = 1) ->
  args line = [ta; tb; td] ->
  int_reg ta = Ok rA -> int_reg tb = Ok rB -> int_reg td = Ok rD ->
  OPCODES (opcode line) = Some opc /\
  (0 <= rA < 8 /\ 0 <= rB < 8 /\ 0 <= rD < 8) /\
  exists word,
    encode_line pc line symbols = Ok word /\
    word = Z.lor (Z.lor (Z.lor (Z.shiftl opc 22) (Z.shiftl rA 19))
                        (Z.shiftl rB 16)) rD /\
    Z.land word 7 = rD /\
    Z.land word Sim.MASK_32 = word /\
    Sim.decode word =
      {| Sim.f_op := opc; Sim.f_a := rA; Sim.f_b := rB;
         Sim.f_imm := rD; Sim.f_dst := rD |}.
Proof.
  intros Hop Hargs HA HB HD.
  pose proof (int_reg_range _ _ HA) as HrA.
  pose proof (int_reg_range _ _ HB) as HrB.
  pose proof (int_reg_range _ _ HD) as HrD.
  split; [destruct Hop as [[-> ->] | [-> ->]]; reflexivity|].
  split; [auto|].
  assert (Hopc : 0 <= opc < 8) by (destruct Hop as [[_ ->] | [_ ->]]; lia).
  destruct (decode_pack opc rA rB rD) as [Hmask Hdec]; try lia.
  cbv zeta in Hmask, Hdec.
  rewrite (Z.mod_small rD 8) in Hdec by lia.
  eexists. split; [|split; [reflexivity|]].
  - destruct line as [n lb op ar rw]. cbn [opcode args] in *. subst ar.
    rewrite (encode_R pc n lb op opc) by exact Hop.
    rewrite HA, HB, HD. cbn. f_equal. exact Hmask.
  - split; [|split; [exact Hmask | exact Hdec]].
    change (Z.land ?w 7) with (Sim.f_dst (Sim.decode w)).
    rewrite Hdec. reflexivity.
Qed.

(** C4. For a [beq] line with two register operands, the offset is
    [target - (pc + 1)] when the third operand is a key of the symbol
    table ([pc] the index of the line), and otherwise the value of the
    literal, an operand that passes the numeric test and that [int]
    reads.  The line is encoded exactly when the offset lies in
    -32768..32767: then the low 16 bits of the word hold the offset (its
    sign extension gives the offset back); outside the range the line
    fails with the branch-offset range error. *)
Theorem beq_offset (pc : Z) (line : Line) (symbols : gmap string Z)
    (ta tb t : string) (rA rB offset : Z) :
  opcode line = "beq" ->
  args line = [ta; tb; t] ->
  int_reg ta = Ok rA -> int_reg tb = Ok rB ->
  (exists target, symbols !! t = Some target /\ offset = target - (pc + 1)) \/
  (symbols !! t = None /\ is_numeric t = true /\ Py.int t = Some offset) ->
  (-32768 <= offset <= 32767 ->
     exists word,
       encode_line pc line symbols = Ok word /\
       Z.land word 0xFFFF = Z.land offset 0xFFFF /\
       sign_extend_16 (Z.land word 0xFFFF) = offset /\
       Sim.sext16 (Sim.f_imm (Sim.decode word)) = offset /\
       Sim.f_op (Sim.decode word) = Sim.OP_BEQ /\
       Sim.f_a (Sim.decode word) = rA /\ Sim.f_b (Sim.decode word) = rB) /\
  (~ (-32768 <= offset <= 32767) ->
     encode_line pc line symbols =
       Raise (AsmError (lineno line) BranchOffsetOutOfRange (raw line))).
Proof.
  intros Hop Hargs HA HB Hoff.
  destruct line as [n lb op ar rw]. cbn [opcode args lineno raw] in *.
  subst op ar. rewrite encode_beq, HA, HB. cbn.
  assert (Hres : match symbols !! t with
                 | Some target => Ok (target - (pc + 1))
                 | None => resolve_value t symbols false
                 end = Ok offset).
  { destruct Hoff as [(target & -> & ->) | (-> & Hnum & Hint)]; [reflexivity|].
    unfold resolve_value. rewrite Hnum, Hint. reflexivity. }
  rewrite Hres. cbn.
  pose proof (int_reg_range _ _ HA) as HrA.
  pose proof (int_reg_range _ _ HB) as HrB.
  pose proof (in_16_bit_range_spec offset) as Hrange.
  split; intros Hin.
  - destruct (in_16_bit_range offset); [|apply Hrange in Hin; discriminate || tauto].
    eexists. split; [reflexivity|].
    change 0xFFFF with (2 ^ 16 - 1). rewrite (Bits.land_mod offset) by lia.
    destruct (decode_pack 4 rA rB (offset mod 2 ^ 16)) as [Hmask Hdec];
      try lia; [apply Z.mod_pos_bound; lia|].
    cbv zeta in Hmask, Hdec. rewrite Hmask.
    set (W := Z.lor _ _) in *.
    pose proof (f_equal Sim.f_imm Hdec) as Himm.
    change (Z.land W (2 ^ 16 - 1) = offset mod 2 ^ 16) in Himm.
    rewrite Himm, sign_extend_16_spec, <- sext16_spec, sext16_of_offset by lia.
    split; [reflexivity|]. split; [reflexivity|]. split; [reflexivity|].
    split; [exact (f_equal Sim.f_op Hdec)|].
    split; [exact (f_equal Sim.f_a Hdec) | exact (f_equal Sim.f_b Hdec)].
  - destruct (in_16_bit_range offset); [|reflexivity].
    destruct Hin. now apply Hrange.
Qed.

Lemma R_format_roundtrip_witness :
  OPCODES (opcode Examples.add_line) = Some 0 /\
  (0 <= 1 < 8 /\ 0 <= 2 < 8 /\ 0 <= 3 < 8) /\
  exists word,
    encode_line 0 Examples.add_line ∅ = Ok word /\
    word = Z.lor (Z.lor (Z.lor (Z.shiftl 0 22) (Z.shiftl 1 19))
                        (Z.shiftl 2 16)) 3 /\
    Z.land word 7 = 3 /\
    Z.land word Sim.MASK_32 = word /\
    Sim.decode word =
      {| Sim.f_op := 0; Sim.f_a := 1; Sim.f_b := 2;
         Sim.f_imm := 3; Sim.f_dst := 3 |}.
Proof.
  apply (R_format_roundtrip 0 Examples.add_line ∅ 0 "1" "2" "3" 1 2 3).
  - left. split; reflexivity.
  - reflexivity.
  - reflexivity.
  - reflexivity.
  - reflexivity.
Defined.

(** The boundary of the range: the literal 32767 is encoded, the
    literal 32768 is refused. *)
Lemma beq_offset_witness :
  (exists word, encode_line 0 Examples.beq_max ∅ = Ok word /\
                Sim.sext16 (Sim.f_imm (Sim.decode word)) = 32767) /\
  encode_line 0 Examples.beq_over ∅ =
    Raise (AsmError 0 BranchOffsetOutOfRange "beq 0 0 32768") /\
  (exists word, encode_line 0 Examples.beq_self {["loop" := 0]} = Ok word /\
                Sim.sext16 (Sim.f_imm (Sim.decode word)) = -1).
Proof.
  split; [|split].
  - destruct (beq_offset 0 Examples.beq_max ∅ "0" "0" "32767" 0 0 32767)
      as [Hin _].
    + reflexivity.
    + reflexivity.
    + reflexivity.
    + reflexivity.
    + right. split; [reflexivity | split; reflexivity].
    + destruct Hin as (word & Hw & _ & _ & Hs & _); [lia|].
      exists word. split; assumption.
  - destruct (beq_offset 0 Examples.beq_over ∅ "0" "0" "32768" 0 0 32768)
      as [_ Hout].
    + reflexivity.
    + reflexivity.
    + reflexivity.
    + reflexivity.
    + right. split; [reflexivity | split; reflexivity].
    + apply Hout. lia.
  - destruct (beq_offset 0 Examples.beq_self {["loop" := 0]} "0" "0" "loop" 0 0 (-1))
      as [Hin _].
    + reflexivity.
    + reflexivity.
    + reflexivity.
    + reflexivity.
    + left. exists 0. split; reflexivity.
    + destruct Hin as (word & Hw & _ & _ & Hs & _); [lia|].
      exists word. split; assumption.
Defined.

(** *** The data directive *)

(** A [.fill] operand that is not numeric is refused whatever the symbol
    table holds: [resolve_value] is called without [allow_label]. *)
Lemma fill_symbol_rejected (pc : Z) (line : Line) (t : string)
    (symbols : gmap string Z) :
  opcode line = ".fill" -> args line = [t] -> is_numeric t = false ->
  encode_line pc line symbols = Raise (AsmError (-1) (UndefinedSymbol t) "").
Proof.
  intros Hop Hargs Hnum. destruct line as [n lb op ar rw].
  cbn [opcode args] in *. subst op ar.
  rewrite encode_fill. unfold resolve_value. rewrite Hnum. reflexivity.
Qed.

(** A [.fill] literal is emitted as it is, without the final mask. *)
Lemma fill_literal_raw (pc : Z) (line : Line) (t : string) (v : Z)
    (symbols : gmap string Z) :
  opcode line = ".fill" -> args line = [t] ->
  is_numeric t = true -> Py.int t = Some v ->
  encode_line pc line symbols = Ok v.
Proof.
  intros Hop Hargs Hnum Hint. destruct line as [n lb op ar rw].
  cbn [opcode args] in *. subst op ar.
  rewrite encode_fill. unfold resolve_value.
  rewrite Hnum, Hint. reflexivity.
Qed.

(** The word of every line other than [.fill] is below 2^32. *)
Lemma instruction_word_range (pc : Z) (line : Line) (symbols : gmap string Z)
    (w : Z) :
  opcode line <> ".fill" -> encode_line pc line symbols = Ok w ->
  0 <= w < 2 ^ 32.
Proof.
  intros Hop. unfold encode_line.
  destruct (String.eqb_spec (opcode line) ".fill") as [|_]; [contradiction|].
  destruct (OPCODES (opcode line)); [|discriminate].
  match goal with |- mbind _ ?m = _ -> _ => destruct m as [instr|] end;
    [|discriminate].
  cbn. intros [= <-]. rewrite MASK_32_pow, Bits.land_mod by lia.
  apply Z.mod_pos_bound. lia.
Qed.

(** C2. The program [five .fill 5 / ptr .fill five]: pass 1 binds
    [five] to address 0, and pass 2 still fails on the second line with
    the undefined-symbol error for [five]. *)
Theorem fill_label_is_rejected :
  exists symbols,
    build_symbol_table Examples.fill_label_prog = Ok symbols /\
    symbols !! "five" = Some 0 /\
    encode Examples.fill_label_prog symbols =
      Raise (AsmError (-1) (UndefinedSymbol "five") "") /\
    assemble Examples.fill_label_prog =
      Raise (AsmError (-1) (UndefinedSymbol "five") "").
Proof.
  eexists. split; [reflexivity|].
  split; [vm_compute; reflexivity|].
  split; vm_compute; reflexivity.
Qed.

(** C3. The program [neg1 .fill -1] assembles to the one word [-1],
    which is not in [0, 2^32), and [.fill 4294967296] to the word
    4294967296; it is the loader of the simulator that reduces them to
    4294967295 and 0 when it reads the files with the lines [-1] and
    [4294967296]. *)
Theorem fill_word_is_not_masked :
  assemble Examples.fill_neg_prog = Ok [-1] /\
  ~ (0 <= -1 < 2 ^ 32) /\
  assemble Examples.fill_big_prog = Ok [4294967296] /\
  ~ (0 <= 4294967296 < 2 ^ 32) /\
  (exists memory, Sim.load_mc (Examples.file_of ["-1"]) = Sim.Loaded memory /\
                  take 1 memory = [4294967295]) /\
  (exists memory,
     Sim.load_mc (Examples.file_of ["4294967296"]) = Sim.Loaded memory /\
     take 1 memory = [0]).
Proof.
  split; [vm_compute; reflexivity|].
  split; [lia|].
  split; [vm_compute; reflexivity|].
  split; [lia|].
  split; (eexists; split; [reflexivity | vm_compute; reflexivity]).
Qed.

(** *** Error reports *)

(** The errors of [int_reg] and of [resolve_value] are built with line
    number -1 and no text: they print as line 0 with an empty source
    line. *)
Lemma int_reg_error (token : string) (e : exn) :
  int_reg token = Raise e ->
  e = ValueError \/ (reported_line e = Some 0 /\ reported_text e = Some "").
Proof.
  unfold int_reg. destruct (Py.isdigit token); cbn [negb].
  - destruct (Py.int token) as [v|]; cbn.
    + destruct ((0 <=? v) && (v <? 8)); [discriminate|].
      intros [= <-]. right. split; reflexivity.
    + intros [= <-]. left. reflexivity.
  - intros [= <-]. right. split; reflexivity.
Qed.

Lemma resolve_value_error (token : string) (symbols : gmap string Z)
    (allow_label : bool) (e : exn) :
  resolve_value token symbols allow_label = Raise e ->
  e = ValueError \/ (reported_line e = Some 0 /\ reported_text e = Some "").
Proof.
  unfold resolve_value. destruct (is_numeric token).
  - destruct (Py.int token); cbn; [discriminate|].
    intros [= <-]. left. reflexivity.
  - destruct (if allow_label then symbols !! token else None); [discriminate|].
    intros [= <-]. right. split; reflexivity.
Qed.

(** The errors raised by pass 1 and by [check_argc] carry the line. *)
Lemma check_argc_error (line : Line) (expected : Z) (e : exn) :
  check_argc line expected = Raise e ->
  reported_line e = Some (lineno line + 1) /\ reported_text e = Some (raw line).
Proof.
  unfold check_argc. destruct (_ =? _); [discriminate|].
  intros [= <-]. split; reflexivity.
Qed.

Lemma map_int_reg_error (tokens : list string) (e : exn) :
  map_int_reg tokens = Raise e ->
  e = ValueError \/ (reported_line e = Some 0 /\ reported_text e = Some "").
Proof.
  induction tokens as [|t ts IH]; [discriminate|].
  cbn [map_int_reg]. destruct (int_reg t) as [r|e1] eqn:Ht; cbn.
  - destruct (map_int_reg ts) as [rs|e2]; cbn; [discriminate|].
    intros [= <-]. now apply IH.
  - intros [= <-]. eapply int_reg_error. exact Ht.
Qed.

(** Every AsmError of pass 2 either comes from [int_reg] or
    [resolve_value], and then prints as line 0 with no text, or is raised
    with the line at hand, and then prints its 1-based number and its
    text. *)
Lemma encode_line_error (pc : Z) (line : Line) (symbols : gmap string Z)
    (e : exn) :
  encode_line pc line symbols = Raise e ->
  e = ValueError \/
  (reported_line e = Some 0 /\ reported_text e = Some "") \/
  (reported_line e = Some (lineno line + 1) /\
   reported_text e = Some (raw line)).
Proof.
  unfold encode_line, mbind, result_bind.
  repeat case_match; intros; simplify_eq;
    try (left; reflexivity);
    try (right; right; split; reflexivity);
    try (right; right; eapply check_argc_error; eassumption);
    try (match goal with
         | H : map_int_reg _ = Raise _ |- _ =>
             destruct (map_int_reg_error _ _ H); auto
         | H : resolve_value _ _ _ = Raise _ |- _ =>
             destruct (resolve_value_error _ _ _ _ H); auto
         end).
Qed.

(** C9. On the second source line, a register out of range and an
    undefined symbol are both reported as line 0 with no source text,
    not as line 2 with the text of the line. *)
Theorem operand_errors_lose_the_line :
  assemble Examples.bad_reg_prog =
    Raise (AsmError (-1) (RegisterOutOfRange 9) "") /\
  reported_line (AsmError (-1) (RegisterOutOfRange 9) "") = Some 0 /\
  reported_text (AsmError (-1) (RegisterOutOfRange 9) "") = Some "" /\
  assemble Examples.undefined_prog =
    Raise (AsmError (-1) (UndefinedSymbol "nosuch") "") /\
  reported_line (AsmError (-1) (UndefinedSymbol "nosuch") "") = Some 0 /\
  reported_text (AsmError (-1) (UndefinedSymbol "nosuch") "") = Some "".
Proof.
  split; [vm_compute; reflexivity|].
  split; [reflexivity|]. split; [reflexivity|].
  split; [vm_compute; reflexivity|].
  split; reflexivity.
Qed.

End AsmSpec.

(** ** The simulator *)

Module SimSpec.
Import Sim.

(** *** Python list access *)

Lemma py_get_elem (l : list Z) (i v : Z) :
  Py.py_get l i = Some v -> exists n : nat, l !! n = Some v.
Proof.
  unfold Py.py_get. repeat case_match; try discriminate; eauto.
Qed.

Lemma py_get_Forall (P : Z -> Prop) (l : list Z) (i v : Z) :
  Forall P l -> Py.py_get l i = Some v -> P v.
Proof.
  intros HP Hget. destruct (py_get_elem _ _ _ Hget) as [n Hn].
  exact (Forall_lookup_1 _ _ _ _ HP Hn).
Qed.

Lemma py_set_length (l l' : list Z) (i v : Z) :
  Py.py_set l i v = Some l' -> length l' = length l.
Proof.
  unfold Py.py_set. repeat case_match; try discriminate;
    intros [= <-]; apply length_insert.
Qed.

Lemma py_set_Forall (P : Z -> Prop) (l l' : list Z) (i v : Z) :
  Forall P l -> P v -> Py.py_set l i v = Some l' -> Forall P l'.
Proof.
  unfold Py.py_set. intros HP Hv.
  repeat case_match; try discriminate; intros [= <-];
    apply Forall_insert; assumption.
Qed.

Lemma py_get_in_range (l : list Z) (i : Z) :
  0 <= i < Z.of_nat (length l) -> is_Some (Py.py_get l i).
Proof.
  intros Hi. unfold Py.py_get.
  replace ((0 <=? i) && (i <? Z.of_nat (length l))) with true
    by (symmetry; apply andb_true_iff; lia).
  apply lookup_lt_is_Some. lia.
Qed.

Lemma py_set_in_range (l : list Z) (i v : Z) :
  0 <= i < Z.of_nat (length l) -> is_Some (Py.py_set l i v).
Proof.
  intros Hi. unfold Py.py_set.
  replace ((0 <=? i) && (i <? Z.of_nat (length l))) with true
    by (symmetry; apply andb_true_iff; lia).
  eauto.
Qed.

Lemma py_set_out_of_range (l : list Z) (i v : Z) :
  Z.of_nat (length l) <= i -> Py.py_set l i v = None.
Proof.
  intros Hi. unfold Py.py_set.
  replace ((0 <=? i) && (i <? Z.of_nat (length l))) with false
    by (symmetry; apply andb_false_iff; lia).
  replace ((- Z.of_nat (length l) <=? i) && (i <? 0)) with false
    by (symmetry; apply andb_false_iff; lia).
  reflexivity.
Qed.

Lemma py_set_0 (l l' : list Z) (v : Z) :
  Py.py_set l 0 v = Some l' -> l' = <[0%nat := v]> l /\ Py.py_get l' 0 = Some v.
Proof.
  unfold Py.py_set, Py.py_get. cbn [Z.leb Z.compare andb].
  destruct (0 <? Z.of_nat (length l)) eqn:Hlen.
  - intros [= <-]. split; [reflexivity|].
    rewrite length_insert, Hlen. change (Z.to_nat 0) with 0%nat.
    apply list_lookup_insert_eq. apply Z.ltb_lt in Hlen. lia.
  - replace ((- Z.of_nat (length l) <=? 0) && (0 <? 0)) with false
      by (symmetry; apply andb_false_r).
    discriminate.
Qed.

Lemma py_get_0 (l : list Z) (v : Z) :
  Py.py_get l 0 = Some v -> l !! 0%nat = Some v.
Proof.
  unfold Py.py_get. cbn [Z.leb Z.compare andb].
  destruct (0 <? Z.of_nat (length l)); [auto|].
  replace ((- Z.of_nat (length l) <=? 0) && (0 <? 0)) with false
    by (symmetry; apply andb_false_r).
  discriminate.
Qed.

(** *** Field ranges *)

Lemma land_range (x n : Z) : 0 <= n -> 0 <= Z.land x (2 ^ n - 1) < 2 ^ n.
Proof.
  intros Hn. rewrite Bits.land_mod by lia. apply Z.mod_pos_bound. lia.
Qed.

Lemma decode_ranges (word : Z) :
  0 <= f_op (decode word) < 8 /\ 0 <= f_a (decode word) < 8 /\
  0 <= f_b (decode word) < 8 /\ 0 <= f_imm (decode word) < 2 ^ 16 /\
  0 <= f_dst (decode word) < 8.
Proof.
  unfold decode. cbn [f_op f_a f_b f_imm f_dst].
  change 7 with (2 ^ 3 - 1). change 0xFFFF with (2 ^ 16 - 1).
  repeat split; apply land_range; lia.
Qed.

Lemma mask32_ok (x : Z) : word_ok (Z.land x MASK_32).
Proof. unfold word_ok. change MASK_32 with (2 ^ 32 - 1). apply land_range. lia. Qed.

Lemma mask16_range (x : Z) : 0 <= Z.land x (MEM_SIZE - 1) < MEM_SIZE.
Proof. change MEM_SIZE with (2 ^ 16). apply land_range. lia. Qed.

Lemma py_get_word_ok (l : list Z) (i v : Z) :
  Forall word_ok l -> Py.py_get l i = Some v -> word_ok v.
Proof. apply py_get_Forall. Qed.

Lemma py_set_word_ok (l l' : list Z) (i v : Z) :
  Forall word_ok l -> word_ok v -> Py.py_set l i v = Some l' -> Forall word_ok l'.
Proof. apply py_set_Forall. Qed.

Ltac exec :=
  unfold op_add, op_nand, op_lw, op_sw, op_beq, op_jalr, op_halt, op_noop,
    dump, dump_memory, reg_get, reg_set, mem_get, mem_set, pc_get, pc_set,
    steps_get, steps_set, out, sys_exit, mbind, M_bind, mret, M_ret in *.

Lemma handlers_total (op : Z) :
  0 <= op < 8 -> is_Some (HANDLERS op).
Proof.
  intros H. unfold HANDLERS, OP_ADD, OP_NAND, OP_LW, OP_SW, OP_BEQ, OP_JALR, OP_HALT, OP_NOOP.
  repeat case_match; eauto. lia.
Qed.

Lemma handler_steps (op : Z) h (a b imm dst : Z) (s : State) :
  HANDLERS op = Some h -> steps (state_of (h a b imm dst s)) = steps s.
Proof.
  unfold HANDLERS. repeat case_match; intros [= <-]; exec;
    repeat case_match; simplify_eq; reflexivity.
Qed.

Lemma handler_wf (op : Z) h (a b imm dst : Z) (s : State) :
  HANDLERS op = Some h -> wf s -> wf (state_of (h a b imm dst s)).
Proof.
  intros Hh [Hpc Hrl Hr Hml Hm]. revert Hh.
  unfold HANDLERS. repeat case_match; intros [= <-]; exec;
    repeat case_match; simplify_eq; cbn [state_of];
    try (constructor; assumption);
    constructor; cbn [pc reg mem]; 
    eauto using mask16_range, py_set_word_ok, py_get_word_ok, mask32_ok;
    try (erewrite py_set_length by eassumption; assumption).
Qed.

Ltac prims :=
  unfold dump, dump_memory, reg_get, reg_set, mem_get, mem_set, pc_get,
    pc_set, steps_get, steps_set, out, sys_exit, mbind, M_bind, mret, M_ret in *.

(** *** The shape of [step] *)

Lemma step_unfold (s : State) :
  step s =
  match Py.py_get (mem s) (pc s) with
  | None => Fault IndexError s
  | Some word =>
      if (8 <=? length (reg s))%nat then
        let f := decode word in
        match HANDLERS (f_op f) with
        | None => Fault KeyError (logged s (Dump (pc s) (take 8 (reg s))))
        | Some handler =>
            match handler (f_a f) (f_b f) (f_imm f) (f_dst f)
                    (logged s (Dump (pc s) (take 8 (reg s)))) with
            | Val advance s2 => after_handler advance s2
            | Exit c s2 => Exit c s2
            | Fault e s2 => Fault e s2
            end
        end
      else Fault IndexError s
  end.
Proof.
  unfold step, after_handler. prims.
  destruct (Py.py_get (mem s) (pc s)); [|reflexivity].
  destruct (8 <=? length (reg s))%nat; [|reflexivity].
  cbv zeta. destruct (HANDLERS _); [|reflexivity].
  destruct (m _ _ _ _ _); reflexivity.
Qed.

Lemma after_handler_unfold (advance : bool) (s : State) :
  after_handler advance s =
  let p := if advance then Z.land (pc s + 1) (MEM_SIZE - 1) else pc s in
  match Py.py_set (reg s) 0 0 with
  | None => Fault IndexError (mkState (mem s) (log s) (reg s) p (steps s))
  | Some r =>
      let s' := mkState (mem s) (log s) r p (steps s + 1) in
      if steps s + 1 >? STEP_LIMIT
      then Exit 1 (logged s' (StepLimitExceeded STEP_LIMIT))
      else Val tt s'
  end.
Proof.
  unfold after_handler. prims. destruct s as [m l r p n].
  destruct advance; cbn; destruct (Py.py_set r 0 0); cbn;
    try reflexivity; destruct (n + 1 >? STEP_LIMIT); reflexivity.
Qed.

(** *** What a handler can do *)

(** Only [op_halt] leaves through [sys.exit], with status 0, after
    writing the final report and touching nothing else. *)
Lemma handler_exit (op : Z) h (a b imm dst c : Z) (s s' : State) :
  HANDLERS op = Some h -> h a b imm dst s = Exit c s' ->
  c = 0 /\ op = OP_HALT /\ reg s' = reg s /\ mem s' = mem s /\
  pc s' = pc s /\ steps s' = steps s /\
  log s' = log s ++ [MachineHalted; InstructionsExecuted (steps s);
                     Dump (pc s) (take 8 (reg s)); MemoryHeader]
                 ++ nonzero_cells 0 (mem s).
Proof.
  unfold HANDLERS. repeat case_match; intros [= <-]; exec;
    repeat case_match; simplify_eq; intros [= <- <-].
  cbn. rewrite <- !app_assoc. cbn.
  repeat split; try reflexivity. now apply Z.eqb_eq.
Qed.

Lemma handler_val_log (op : Z) h (a b imm dst : Z) (adv : bool) (s s' : State) :
  HANDLERS op = Some h -> h a b imm dst s = Val adv s' -> log s' = log s.
Proof.
  unfold HANDLERS. repeat case_match; intros [= <-]; exec;
    repeat case_match; simplify_eq; intros [= <- <-]; reflexivity.
Qed.

(** A handler raises nothing but IndexError.  On a machine with 8
    registers and 65536 memory words, and register fields in 0..7, the
    only failing access is the register write of [op_add] and [op_nand],
    whose index is the 16-bit field: it fails when that field is 8 or
    more. *)
Lemma handler_fault (op : Z) h (a b imm dst : Z) (e : pyexn) (s s' : State) :
  HANDLERS op = Some h -> h a b imm dst s = Fault e s' -> e = IndexError.
Proof.
  unfold HANDLERS. repeat case_match; intros [= <-]; exec;
    repeat case_match; simplify_eq; intros [= <- <-]; reflexivity.
Qed.

Lemma handler_fault_cause (op : Z) h (a b imm dst : Z) (e : pyexn)
    (s s' : State) :
  HANDLERS op = Some h ->
  length (reg s) = 8%nat -> Z.of_nat (length (mem s)) = MEM_SIZE ->
  0 <= a < 8 -> 0 <= b < 8 -> 0 <= imm ->
  h a b imm dst s = Fault e s' ->
  (op = OP_ADD \/ op = OP_NAND) /\ 8 <= imm.
Proof.
  intros Hh Hrl Hml Ha Hb Himm.
  assert (Hra : is_Some (Py.py_get (reg s) a))
    by (apply py_get_in_range; lia).
  assert (Hrb : is_Some (Py.py_get (reg s) b))
    by (apply py_get_in_range; lia).
  assert (Hsb : forall v, is_Some (Py.py_set (reg s) b v))
    by (intros v; apply py_set_in_range; lia).
  assert (Hmem : forall x, is_Some (Py.py_get (mem s) (Z.land x (MEM_SIZE - 1)))).
  { intros x. apply py_get_in_range. rewrite Hml. apply mask16_range. }
  assert (Hmset : forall x v, is_Some (Py.py_set (mem s) (Z.land x (MEM_SIZE - 1)) v)).
  { intros x v. apply py_set_in_range. rewrite Hml. apply mask16_range. }
  destruct Hra as [va Hva], Hrb as [vb Hvb].
  revert Hh. unfold HANDLERS.
  repeat case_match; intros [= <-]; exec;
    repeat (first [rewrite Hva | rewrite Hvb | rewrite Hrl]; cbn beta iota).
  - (* op_add *)
    destruct (Py.py_set (reg s) imm _) eqn:Hset; [discriminate|]. intros _.
    split; [left; now apply Z.eqb_eq|].
    destruct (Z.lt_ge_cases imm 8) as [Hlt|]; [|assumption].
    destruct (py_set_in_range (reg s) imm (Z.land (va + vb) MASK_32)) as [? Hs];
      [lia | congruence].
  - (* op_nand *)
    destruct (Py.py_set (reg s) imm _) eqn:Hset; [discriminate|]. intros _.
    split; [right; now apply Z.eqb_eq|].
    destruct (Z.lt_ge_cases imm 8) as [Hlt|]; [|assumption].
    destruct (py_set_in_range (reg s) imm (Z.land (Z.lnot (Z.land va vb)) MASK_32))
      as [? Hs]; [lia | congruence].
  - (* op_lw *)
    destruct (Hmem (va + sext16 imm)) as [v ->].
    destruct (Hsb v) as [r ->]. discriminate.
  - (* op_sw *)
    destruct (Hmset (va + sext16 imm) (Z.land vb MASK_32)) as [m ->].
    discriminate.
  - (* op_beq *)
    destruct (va =? vb); discriminate.
  - (* op_jalr *)
    destruct (Hsb (Z.land (pc s + 1) MASK_32)) as [r Hr]. rewrite Hr. cbn.
    destruct (py_get_in_range r a) as [v ->];
      [rewrite (py_set_length _ _ _ _ Hr); lia | discriminate].
  - (* op_halt *)
    cbn [logged reg]. rewrite Hrl. cbn. discriminate.
  - (* op_noop *)
    discriminate.
Qed.

(** *** Well-formedness *)

Lemma logged_wf (s : State) (e : event) : wf s -> wf (logged s e).
Proof. intros [? ? ? ? ?]. constructor; assumption. Qed.

Lemma after_handler_wf (advance : bool) (s : State) :
  wf s -> wf (state_of (after_handler advance s)).
Proof.
  intros [Hpc Hrl Hr Hml Hm]. rewrite after_handler_unfold. cbv zeta.
  assert (Hp : 0 <= (if advance then Z.land (pc s + 1) (MEM_SIZE - 1) else pc s)
               < MEM_SIZE)
    by (destruct advance; [apply mask16_range | assumption]).
  destruct (Py.py_set (reg s) 0 0) as [r|] eqn:Hset.
  - assert (wf_r : Forall word_ok r)
      by (apply (py_set_word_ok (reg s) r 0 0);
          [assumption | unfold word_ok; lia | assumption]).
    apply py_set_length in Hset.
    destruct (steps s + 1 >? STEP_LIMIT); constructor; cbn; congruence || assumption.
  - constructor; assumption.
Qed.

Lemma step_wf (s : State) : wf s -> wf (state_of (step s)).
Proof.
  intros Hwf. rewrite step_unfold.
  destruct (Py.py_get (mem s) (pc s)) as [word|]; [|exact Hwf].
  destruct (8 <=? length (reg s))%nat; [|exact Hwf].
  cbv zeta. destruct (HANDLERS _) as [h|] eqn:Hh; [|now apply logged_wf].
  pose proof (handler_wf _ _ (f_a (decode word)) (f_b (decode word))
                (f_imm (decode word)) (f_dst (decode word)) _ Hh
                (logged_wf s (Dump (pc s) (take 8 (reg s))) Hwf)) as Hafter.
  destruct (h _ _ _ _ _) as [adv s2 | c s2 | e s2]; cbn [state_of] in *;
    [now apply after_handler_wf | assumption | assumption].
Qed.

(** The words read from the lines of a file: one word for each line,
    the integer of the line reduced to 32 bits. *)
Lemma read_words_inl (lines : list string) (words : list Z) :
  read_words lines = inl words ->
  Forall2 (fun line w => exists v, Py.int line = Some v /\ w = Z.land v MASK_32)
          lines words.
Proof.
  revert words. induction lines as [|line rest IH]; intros words; cbn [read_words].
  - intros [= <-]. constructor.
  - destruct (Py.int line) as [v|] eqn:Hint; [|discriminate].
    destruct (read_words rest) as [ws|bad]; [|discriminate].
    intros [= <-]. constructor; [|now apply IH].
    exists v. split; [exact Hint | reflexivity].
Qed.

Lemma read_words_ok (lines : list string) (words : list Z) :
  read_words lines = inl words ->
  length words = length lines /\ Forall word_ok words.
Proof.
  intros H. apply read_words_inl in H.
  induction H as [|line w lines words (v & _ & ->) _ [IHl IHf]];
    [split; [reflexivity | constructor]|].
  split; [cbn [length]; lia|]. constructor; [apply mask32_ok | exact IHf].
Qed.

Lemma load_mc_wf (text : string) (memory : list Z) :
  load_mc text = Loaded memory -> wf (init_state memory).
Proof.
  unfold load_mc.
  destruct (read_words (Py.file_lines text)) as [words|bad] eqn:Hread;
    [|discriminate].
  apply read_words_ok in Hread as [_ Hwords].
  destruct (_ >? _) eqn:Hlen; [discriminate|].
  intros [= <-].
  change MEM_SIZE with 65536 in *.
  assert (Z.of_nat (length words) <= 65536) by lia.
  constructor; cbn [init_state pc reg mem].
  - change MEM_SIZE with 65536. lia.
  - reflexivity.
  - repeat constructor; unfold word_ok; lia.
  - change MEM_SIZE with 65536.
    rewrite length_app, length_replicate. lia.
  - apply Forall_app. split; [exact Hwords|].
    apply Forall_replicate. unfold word_ok. lia.
Qed.

Lemma fetch_in_bounds (s : State) : wf s -> is_Some (Py.py_get (mem s) (pc s)).
Proof.
  intros [Hpc _ _ Hml _]. apply py_get_in_range. rewrite Hml. exact Hpc.
Qed.

(** *** What a call of [step] leaves *)

Lemma step_Val (s s' : State) :
  step s = Val tt s' ->
  steps s' = steps s + 1 /\ steps s' <= STEP_LIMIT /\
  Py.py_get (reg s') 0 = Some 0.
Proof.
  rewrite step_unfold.
  destruct (Py.py_get (mem s) (pc s)) as [word|]; [|discriminate].
  destruct (8 <=? length (reg s))%nat; [|discriminate].
  cbv zeta. destruct (HANDLERS _) as [h|] eqn:Hh; [|discriminate].
  pose proof (handler_steps _ _ (f_a (decode word)) (f_b (decode word))
                (f_imm (decode word)) (f_dst (decode word))
                (logged s (Dump (pc s) (take 8 (reg s)))) Hh) as Hsteps.
  destruct (h _ _ _ _ _) as [adv s2 | c s2 | e s2]; [|discriminate..].
  cbn [state_of logged steps] in Hsteps.
  rewrite after_handler_unfold. cbv zeta.
  destruct (Py.py_set (reg s2) 0 0) as [r|] eqn:Hset; [|discriminate].
  destruct (steps s2 + 1 >? STEP_LIMIT) eqn:Hlim; [discriminate|].
  intros [= <-]. cbn. apply py_set_0 in Hset as [_ Hget].
  repeat split; [lia | lia | exact Hget].
Qed.

Lemma step_Exit (s s' : State) (c : Z) :
  step s = Exit c s' ->
  (c = 0 /\ reg s' = reg s /\ mem s' = mem s /\ pc s' = pc s /\
   steps s' = steps s /\
   exists word, Py.py_get (mem s) (pc s) = Some word /\
                f_op (decode word) = OP_HALT) \/
  (c = 1 /\ steps s' = steps s + 1 /\ STEP_LIMIT < steps s' /\
   Py.py_get (reg s') 0 = Some 0 /\
   last (log s') = Some (StepLimitExceeded STEP_LIMIT)).
Proof.
  rewrite step_unfold.
  destruct (Py.py_get (mem s) (pc s)) as [word|]; [|discriminate].
  destruct (8 <=? length (reg s))%nat; [|discriminate].
  cbv zeta. destruct (HANDLERS _) as [h|] eqn:Hh; [|discriminate].
  pose proof (handler_steps _ _ (f_a (decode word)) (f_b (decode word))
                (f_imm (decode word)) (f_dst (decode word))
                (logged s (Dump (pc s) (take 8 (reg s)))) Hh) as Hsteps.
  destruct (h _ _ _ _ _) as [adv s2 | c2 s2 | e s2] eqn:Hrun; [| |discriminate].
  - cbn [state_of logged steps] in Hsteps.
    rewrite after_handler_unfold. cbv zeta.
    destruct (Py.py_set (reg s2) 0 0) as [r|] eqn:Hset; [|discriminate].
    destruct (steps s2 + 1 >? STEP_LIMIT) eqn:Hlim; [|discriminate].
    intros [= <- <-]. right. cbn. apply py_set_0 in Hset as [_ Hget].
    repeat split; [lia | lia | exact Hget | apply last_snoc].
  - intros [= <- <-]. left.
    destruct (handler_exit _ _ _ _ _ _ _ _ _ Hh Hrun)
      as (-> & Hop & Hr & Hm & Hp & Hs & _).
    cbn in Hr, Hm, Hp, Hs. eauto 10.
Qed.

Lemma step_Fault (s s' : State) (e : pyexn) :
  step s = Fault e s' -> e = IndexError.
Proof.
  rewrite step_unfold.
  destruct (Py.py_get (mem s) (pc s)) as [word|]; [|now intros [= <- _]].
  destruct (8 <=? length (reg s))%nat; [|now intros [= <- _]].
  cbv zeta. destruct (HANDLERS _) as [h|] eqn:Hh.
  - destruct (h _ _ _ _ _) as [adv s2 | c2 s2 | e2 s2] eqn:Hrun.
    + rewrite after_handler_unfold. cbv zeta.
      destruct (Py.py_set (reg s2) 0 0); [|now intros [= <- _]].
      destruct (_ >? _); discriminate.
    + discriminate.
    + intros [= <- <-]. eapply handler_fault; eassumption.
  - destruct (handlers_total (f_op (decode word))) as [h Hsome];
      [apply decode_ranges | congruence].
Qed.

(** On a well-formed state the only exception of [step] is the one of
    the register write of [op_add] and [op_nand]. *)
Lemma step_fault_cause (s s' : State) (e : pyexn) :
  wf s -> step s = Fault e s' ->
  exists word,
    Py.py_get (mem s) (pc s) = Some word /\
    (f_op (decode word) = OP_ADD \/ f_op (decode word) = OP_NAND) /\
    8 <= f_imm (decode word).
Proof.
  intros Hwf. pose proof Hwf as [Hpc Hrl Hr Hml Hm].
  destruct (fetch_in_bounds s Hwf) as [word Hfetch].
  rewrite step_unfold, Hfetch, Hrl. cbv zeta.
  change ((8 <=? 8)%nat) with true. cbv iota.
  destruct (decode_ranges word) as (Hop & Ha & Hb & Himm & _).
  destruct (handlers_total _ Hop) as [h Hh]. rewrite Hh.
  pose proof (handler_wf _ _ (f_a (decode word)) (f_b (decode word))
                (f_imm (decode word)) (f_dst (decode word)) _ Hh
                (logged_wf s (Dump (pc s) (take 8 (reg s))) Hwf)) as Hafter.
  destruct (h _ _ _ _ _) as [adv s2 | c s2 | e2 s2] eqn:Hrun.
  - cbn [state_of] in Hafter. destruct Hafter as [_ Hrl2 _ _ _].
    rewrite after_handler_unfold. cbv zeta.
    destruct (py_set_in_range (reg s2) 0 0) as [r ->]; [lia|].
    destruct (_ >? _); discriminate.
  - discriminate.
  - intros _. exists word. split; [reflexivity|].
    eapply (handler_fault_cause _ _ _ _ _ _ _ _ _ Hh);
      [| | | | | exact Hrun]; cbn [logged reg mem]; assumption || lia.
Qed.

(** A result that is a return is the return of its state. *)
Lemma returned_eq (r : res unit) :
  (if r is Val _ _ then true else false) = true -> r = Val tt (state_of r).
Proof. destruct r as [[] s| |]; [reflexivity | discriminate..]. Qed.

(** *** The run *)

(** The loop ends within [STEP_LIMIT + 1 - steps] calls of [step]: by
    [sys.exit(0)] of [op_halt], by [sys.exit(1)] at the step limit with
    its line written, or by an uncaught IndexError. *)
Lemma run_terminates (n : nat) :
  forall s, steps s <= STEP_LIMIT -> STEP_LIMIT + 1 - steps s <= Z.of_nat n ->
  exists r, run n s = Some r /\
    match r with
    | Val _ _ => False
    | Exit c s' =>
        c = 0 \/
        (c = 1 /\ steps s' = STEP_LIMIT + 1 /\
         last (log s') = Some (StepLimitExceeded STEP_LIMIT))
    | Fault e _ => e = IndexError
    end.
Proof.
  induction n as [|n IH]; intros s Hle Hfuel; [lia|].
  cbn [run]. destruct (step s) as [[] s1 | c s1 | e s1] eqn:Hstep.
  - apply step_Val in Hstep as (Hs & Hlim & _). apply IH; lia.
  - eexists. split; [reflexivity|].
    apply step_Exit in Hstep as [(-> & _) | (-> & Hs & Hlim & _ & Hlast)];
      [left; reflexivity | right].
    repeat split; [lia | exact Hlast].
  - eexists. split; [reflexivity|]. eapply step_Fault. exact Hstep.
Qed.

Lemma loaded_run_terminates (text : string) (memory : list Z) :
  load_mc text = Loaded memory ->
  exists r, run (Z.to_nat (STEP_LIMIT + 1)) (init_state memory) = Some r /\
    match r with
    | Val _ _ => False
    | Exit c s' =>
        c = 0 \/
        (c = 1 /\ steps s' = STEP_LIMIT + 1 /\
         last (log s') = Some (StepLimitExceeded STEP_LIMIT))
    | Fault e _ => e = IndexError
    end.
Proof.
  intros _. apply run_terminates; cbn [init_state steps];
    unfold STEP_LIMIT; lia.
Qed.

Lemma reachable_wf (s : State) : reachable s -> wf s.
Proof.
  induction 1 as [text memory Hload | s s' _ IH Hstep].
  - eapply load_mc_wf. exact Hload.
  - apply step_wf in IH. rewrite Hstep in IH. exact IH.
Qed.

Lemma reachable_reg0 (s : State) : reachable s -> Py.py_get (reg s) 0 = Some 0.
Proof.
  induction 1 as [text memory Hload | s s' _ IH Hstep].
  - reflexivity.
  - now apply step_Val in Hstep.
Qed.

(** The register write of [op_add] and [op_nand] uses the 16-bit field
    as its index: on a word whose field is 8 or more, [step] raises
    IndexError after writing its trace line, and changes nothing else. *)
Lemma wide_field_faults (s : State) (word : Z) :
  Py.py_get (mem s) (pc s) = Some word ->
  f_op (decode word) = OP_ADD \/ f_op (decode word) = OP_NAND ->
  8 <= f_imm (decode word) ->
  length (reg s) = 8%nat ->
  step s = Fault IndexError (logged s (Dump (pc s) (take 8 (reg s)))).
Proof.
  intros Hfetch Hop Himm Hlen.
  destruct (decode_ranges word) as (_ & Ha & Hb & _).
  destruct (py_get_in_range (reg s) (f_a (decode word))) as [va Hva]; [lia|].
  destruct (py_get_in_range (reg s) (f_b (decode word))) as [vb Hvb]; [lia|].
  rewrite step_unfold, Hfetch, Hlen. cbv zeta.
  change ((8 <=? 8)%nat) with true. cbv iota.
  destruct Hop as [-> | ->].
  - change (HANDLERS OP_ADD) with (Some op_add). cbv iota.
    unfold op_add. prims. cbn [logged reg].
    rewrite Hva. cbn [logged reg]. rewrite Hvb. cbn [logged reg].
    rewrite py_set_out_of_range by lia. reflexivity.
  - change (HANDLERS OP_NAND) with (Some op_nand). cbv iota.
    unfold op_nand. prims. cbn [logged reg].
    rewrite Hva. cbn [logged reg]. rewrite Hvb. cbn [logged reg].
    rewrite py_set_out_of_range by lia. reflexivity.
Qed.

(** C7. The machine-code file with the one line [8] loads; the word
    decodes as opcode 0 ([add]) with 16-bit field 8, and the run ends in
    its first call of [step] with an uncaught IndexError: neither the
    halt exit nor the step-limit exit. *)
Theorem run_ends_by_index_error :
  exists memory,
    load_mc Examples.crash_mc = Loaded memory /\
    decode 8 = {| f_op := OP_ADD; f_a := 0; f_b := 0; f_imm := 8; f_dst := 0 |} /\
    forall fuel,
      run (S fuel) (init_state memory) =
      Some (Fault IndexError
              (logged (init_state memory) (Dump 0 [0; 0; 0; 0; 0; 0; 0; 0]))).
Proof.
  eexists. split; [reflexivity|]. split; [reflexivity|].
  intros fuel. cbn [run].
  rewrite (wide_field_faults _ 8);
    [reflexivity | vm_compute; reflexivity | left; reflexivity
    | vm_compute; discriminate | reflexivity].
Qed.

(** *** Register 0 *)

(** A [halt] word ends the run with status 0. *)
Lemma halt_exits (s : State) (word : Z) :
  Py.py_get (mem s) (pc s) = Some word ->
  f_op (decode word) = OP_HALT ->
  length (reg s) = 8%nat ->
  exists s', step s = Exit 0 s'.
Proof.
  intros Hfetch Hop Hlen.
  rewrite step_unfold, Hfetch, Hlen. cbv zeta. rewrite Hop.
  change ((8 <=? 8)%nat) with true.
  change (HANDLERS OP_HALT) with (Some op_halt). cbv iota.
  unfold op_halt. prims. cbn [logged reg]. rewrite Hlen.
  change ((8 <=? 8)%nat) with true. cbv iota. eexists. reflexivity.
Qed.

(** The two ways a call of [step] completes, by instruction. *)
Lemma step_completes (s : State) (word : Z) :
  wf s ->
  Py.py_get (mem s) (pc s) = Some word ->
  (f_op (decode word) = OP_ADD \/ f_op (decode word) = OP_NAND ->
   f_imm (decode word) < 8) ->
  exists s',
    (f_op (decode word) <> OP_HALT ->
     (step s = Val tt s' \/ step s = Exit 1 s') /\
     Py.py_get (reg s') 0 = Some 0) /\
    (f_op (decode word) = OP_HALT ->
     step s = Exit 0 s' /\ reg s' = reg s).
Proof.
  intros Hwf Hfetch Hfield.
  destruct (step s) as [[] s1 | c s1 | e s1] eqn:Hstep.
  - exists s1. pose proof Hstep as Hv. apply step_Val in Hv as (_ & _ & H0).
    split.
    + intros _. split; [now left | exact H0].
    + intros Hop. exfalso.
      destruct (halt_exits s word Hfetch Hop (wf_reg_len s Hwf)) as [s2 Hx].
      congruence.
  - exists s1.
    pose proof Hstep as Hx. apply step_Exit in Hx
      as [(-> & Hreg & _ & _ & _ & word' & Hfetch' & Hop') |
          (-> & _ & _ & H0 & _)].
    + rewrite Hfetch in Hfetch'. injection Hfetch' as <-.
      split; [intros Hop; contradiction | intros _; split; [reflexivity | exact Hreg]].
    + split.
      * intros _. split; [now right | exact H0].
      * intros Hop. exfalso.
        destruct (halt_exits s word Hfetch Hop (wf_reg_len s Hwf)) as [s2 Hx].
        congruence.
  - exfalso. apply (step_fault_cause s s1 e Hwf) in Hstep
      as (word' & Hfetch' & Hop' & Himm).
    rewrite Hfetch in Hfetch'. injection Hfetch' as <-.
    specialize (Hfield Hop'). lia.
Qed.

(** C5. On a well-formed state whose current word is not an [add] or
    [nand] with a 16-bit field of 8 or more (the words on which the
    register write of the handler raises IndexError), the call of [step]
    completes: for every instruction but [halt] it returns, or ends the
    run at the step limit, and register 0 holds 0 in the state it leaves,
    whatever the state held there and whatever the instruction wrote
    there; on [halt] it exits with status 0 and leaves every register as
    it was.  So a state with 0 in register 0, as every state of a run is,
    is left with 0 in register 0 by every instruction. *)
Theorem register_zero_after_step (s : State) (word : Z) :
  wf s ->
  Py.py_get (mem s) (pc s) = Some word ->
  (f_op (decode word) = OP_ADD \/ f_op (decode word) = OP_NAND ->
   f_imm (decode word) < 8) ->
  exists s',
    (f_op (decode word) <> OP_HALT ->
     (step s = Val tt s' \/ step s = Exit 1 s') /\
     Py.py_get (reg s') 0 = Some 0) /\
    (f_op (decode word) = OP_HALT ->
     step s = Exit 0 s' /\ reg s' = reg s) /\
    (Py.py_get (reg s) 0 = Some 0 -> Py.py_get (reg s') 0 = Some 0).
Proof.
  intros Hwf Hfetch Hfield.
  destruct (step_completes s word Hwf Hfetch Hfield) as (s' & Hnon & Hhalt).
  exists s'. split; [exact Hnon|]. split; [exact Hhalt|].
  intros H0. destruct (Z.eq_dec (f_op (decode word)) OP_HALT) as [Hop | Hop].
  - destruct (Hhalt Hop) as [_ ->]. exact H0.
  - now destruct (Hnon Hop).
Qed.

(** [lw 0 0 1] loads the word 77 into register 0; the step returns with
    0 in register 0. *)
Lemma register_zero_after_step_witness :
  Py.py_get (mem Examples.lw_state) 1 = Some 77 /\
  exists s', step Examples.lw_state = Val tt s' /\
             Py.py_get (reg s') 0 = Some 0.
Proof.
  split; [vm_compute; reflexivity|].
  destruct (register_zero_after_step Examples.lw_state 8388609)
    as (s' & Hnon & _ & _).
  - apply (load_mc_wf Examples.lw_r0_mc). reflexivity.
  - vm_compute. reflexivity.
  - intros [H | H]; vm_compute in H; discriminate.
  - destruct Hnon as [[Hv | Hx] H0]; [vm_compute; discriminate | |].
    + exists s'. split; assumption.
    + exfalso. revert Hx. rewrite (returned_eq (step Examples.lw_state));
        [discriminate | vm_compute; reflexivity].
Defined.

(** *** beq *)

(** The result of [step] on a [beq] word, on a machine with 8 registers
    and 0 in register 0. *)
Lemma beq_step_result (s : State) (word va vb : Z) :
  Py.py_get (mem s) (pc s) = Some word ->
  f_op (decode word) = OP_BEQ ->
  length (reg s) = 8%nat ->
  Py.py_get (reg s) 0 = Some 0 ->
  Py.py_get (reg s) (f_a (decode word)) = Some va ->
  Py.py_get (reg s) (f_b (decode word)) = Some vb ->
  step s =
  let p := if va =? vb
           then Z.land (pc s + 1 + sext16 (f_imm (decode word))) (MEM_SIZE - 1)
           else Z.land (pc s + 1) (MEM_SIZE - 1) in
  let s1 := mkState (mem s) (log s ++ [Dump (pc s) (take 8 (reg s))])
                    (reg s) p (steps s + 1) in
  if steps s + 1 >? STEP_LIMIT
  then Exit 1 (logged s1 (StepLimitExceeded STEP_LIMIT))
  else Val tt s1.
Proof.
  intros Hfetch Hop Hlen H0 Hva Hvb.
  assert (Hset : Py.py_set (reg s) 0 0 = Some (reg s)).
  { destruct (py_set_in_range (reg s) 0 0) as [r Hr]; [lia|].
    rewrite Hr. f_equal. apply py_set_0 in Hr as [-> _].
    apply list_insert_id. now apply py_get_0. }
  rewrite step_unfold, Hfetch, Hlen. cbv zeta. rewrite Hop.
  change (HANDLERS OP_BEQ) with (Some op_beq).
  change ((8 <=? 8)%nat) with true. cbv iota.
  unfold op_beq. prims. cbn [logged reg pc].
  rewrite Hva. cbn [logged reg]. rewrite Hvb. cbn [logged reg].
  destruct (va =? vb); rewrite after_handler_unfold; cbv zeta;
    cbn [logged reg mem pc steps log]; rewrite Hset; reflexivity.
Qed.

(** C6. A call of [step] on a [beq] word, on a machine with 8 registers
    and 0 in register 0: when the two registers are equal the program
    counter becomes [(pc + 1 + sext16 offset) mod 65536], with no further
    advance; otherwise it becomes [(pc + 1) mod 65536], which is [pc + 1]
    below the last address.  Registers and memory are unchanged, and the
    call returns (or ends the run at the step limit). *)
Theorem beq_step (s : State) (word : Z) :
  Py.py_get (mem s) (pc s) = Some word ->
  f_op (decode word) = OP_BEQ ->
  length (reg s) = 8%nat ->
  Py.py_get (reg s) 0 = Some 0 ->
  exists va vb s',
    Py.py_get (reg s) (f_a (decode word)) = Some va /\
    Py.py_get (reg s) (f_b (decode word)) = Some vb /\
    (step s = Val tt s' \/ step s = Exit 1 s') /\
    reg s' = reg s /\ mem s' = mem s /\ steps s' = steps s + 1 /\
    pc s' = (if va =? vb
             then (pc s + 1 + sext16 (f_imm (decode word))) mod 65536
             else (pc s + 1) mod 65536) /\
    (va <> vb -> 0 <= pc s < 65535 -> pc s' = pc s + 1).
Proof.
  intros Hfetch Hop Hlen H0.
  destruct (decode_ranges word) as (_ & Ha & Hb & _).
  destruct (py_get_in_range (reg s) (f_a (decode word))) as [va Hva]; [lia|].
  destruct (py_get_in_range (reg s) (f_b (decode word))) as [vb Hvb]; [lia|].
  pose proof (beq_step_result s word va vb Hfetch Hop Hlen H0 Hva Hvb) as Hstep.
  cbv zeta in Hstep.
  assert (Hpc : (if va =? vb
                 then Z.land (pc s + 1 + sext16 (f_imm (decode word))) (MEM_SIZE - 1)
                 else Z.land (pc s + 1) (MEM_SIZE - 1))
                = if va =? vb
                  then (pc s + 1 + sext16 (f_imm (decode word))) mod 65536
                  else (pc s + 1) mod 65536).
  { change (MEM_SIZE - 1) with (2 ^ 16 - 1). change 65536 with (2 ^ 16).
    rewrite !Bits.land_mod by lia. reflexivity. }
  rewrite Hpc in Hstep.
  assert (Hnowrap : va <> vb -> 0 <= pc s < 65535 ->
                    (if va =? vb
                     then (pc s + 1 + sext16 (f_imm (decode word))) mod 65536
                     else (pc s + 1) mod 65536) = pc s + 1).
  { intros Hne Hrange. destruct (Z.eqb_spec va vb); [contradiction|].
    apply Z.mod_small. lia. }
  exists va, vb.
  destruct (steps s + 1 >? STEP_LIMIT); eexists;
    (split; [exact Hva|]); (split; [exact Hvb|]);
    (split; [first [left; exact Hstep | right; exact Hstep]|]);
    cbn [logged reg mem pc steps]; auto 10.
Qed.

(** The branch taken from address 0 with offset 3 (registers 1 and 2 both
    5), and not taken (5 and 6). *)
Lemma beq_step_witness :
  (exists s', step (Examples.beq_state 5 5) = Val tt s' /\ pc s' = 4 /\
              reg s' = [0; 5; 5; 0; 0; 0; 0; 0] /\ mem s' = [17432579]) /\
  (exists s', step (Examples.beq_state 5 6) = Val tt s' /\ pc s' = 1 /\
              reg s' = [0; 5; 6; 0; 0; 0; 0; 0] /\ mem s' = [17432579]).
Proof.
  split.
  - destruct (beq_step (Examples.beq_state 5 5) 17432579)
      as (va & vb & s' & Hva & Hvb & Hstep & Hreg & Hmem & _ & Hpc & _).
    + reflexivity.
    + reflexivity.
    + reflexivity.
    + reflexivity.
    + injection Hva as <-. injection Hvb as <-.
      exists s'. destruct Hstep as [Hstep | Hstep];
        [|vm_compute in Hstep; discriminate].
      repeat split; assumption.
  - destruct (beq_step (Examples.beq_state 5 6) 17432579)
      as (va & vb & s' & Hva & Hvb & Hstep & Hreg & Hmem & _ & Hpc & _).
    + reflexivity.
    + reflexivity.
    + reflexivity.
    + reflexivity.
    + injection Hva as <-. injection Hvb as <-.
      exists s'. destruct Hstep as [Hstep | Hstep];
        [|vm_compute in Hstep; discriminate].
      repeat split; assumption.
Defined.

(** *** Well-formed states *)

(** C10. The state made from a loaded program is well formed, and a
    call of [step] on a well-formed state fetches inside the memory and
    leaves a well-formed state, however it ends: program counter in
    [0, 65536), 8 registers and 65536 memory words, each in [0, 2^32). *)
Theorem machine_state_wf :
  (forall text memory, load_mc text = Loaded memory -> wf (init_state memory)) /\
  (forall s, wf s ->
     is_Some (Py.py_get (mem s) (pc s)) /\ wf (state_of (step s))).
Proof.
  split.
  - apply load_mc_wf.
  - intros s Hwf. split; [now apply fetch_in_bounds | now apply step_wf].
Qed.

Lemma machine_state_wf_witness :
  wf (Examples.loaded Examples.lw_r0_mc) /\
  is_Some (Py.py_get (mem (Examples.loaded Examples.lw_r0_mc))
                     (pc (Examples.loaded Examples.lw_r0_mc))) /\
  wf (state_of (step (Examples.loaded Examples.lw_r0_mc))).
Proof.
  assert (Hwf : wf (Examples.loaded Examples.lw_r0_mc)).
  { apply (proj1 machine_state_wf Examples.lw_r0_mc). reflexivity. }
  split; [exact Hwf|].
  apply (proj2 machine_state_wf). exact Hwf.
Defined.

End SimSpec.

(** ** The parser *)

Module ParseSpec.
Import Asm.

(** *** Characters and tokens *)

Lemma all_chars_andb (p q : ascii -> bool) (s : string) :
  Py.all_chars (fun c => p c && q c) s = Py.all_chars p s && Py.all_chars q s.
Proof.
  induction s as [|c r IH]; [reflexivity|]. cbn [Py.all_chars]. rewrite IH.
  destruct (p c), (q c), (Py.all_chars p r), (Py.all_chars q r); reflexivity.
Qed.

Lemma append_cons (c : ascii) (r t : string) :
  String c r +:+ t = String c (r +:+ t).
Proof. reflexivity. Qed.

Lemma all_chars_append (p : ascii -> bool) (s t : string) :
  Py.all_chars p (s +:+ t) = Py.all_chars p s && Py.all_chars p t.
Proof.
  induction s as [|c r IH]; [reflexivity|].
  rewrite append_cons. cbn [Py.all_chars]. rewrite IH. apply andb_assoc.
Qed.

Lemma append_empty_r (s : string) : s +:+ "" = s.
Proof.
  induction s as [|c r IH]; [reflexivity|]. now rewrite append_cons, IH.
Qed.

Lemma before_hash_no_hash (raw : string) :
  Py.all_chars (fun c => negb (Z.of_N (N_of_ascii c) =? 35)) (Py.before_hash raw) = true.
Proof.
  induction raw as [|c r IH]; [reflexivity|]. cbn [Py.before_hash].
  destruct (Z.of_N (N_of_ascii c) =? 35) eqn:Hc; [reflexivity|].
  cbn [Py.all_chars]. now rewrite Hc, IH.
Qed.

Lemma before_hash_id (s : string) :
  Py.all_chars (fun c => negb (Z.of_N (N_of_ascii c) =? 35)) s = true ->
  Py.before_hash s = s.
Proof.
  induction s as [|c r IH]; [reflexivity|]. cbn [Py.all_chars Py.before_hash].
  destruct (Z.of_N (N_of_ascii c) =? 35); [discriminate|].
  cbn [negb andb]. intros H. now rewrite IH.
Qed.

Lemma findall_tokens_nil (s : string) :
  Py.findall_tokens s = [] <-> Py.blank s = true.
Proof.
  unfold Py.blank. induction s as [|c r IH]; [easy|].
  cbn [Py.findall_tokens Py.all_chars].
  destruct (Py.is_space c); cbn [andb]; [exact IH|].
  destruct (Py.starts_with_nonspace r); [destruct (Py.findall_tokens r)|]; easy.
Qed.

Lemma findall_tokens_chars (p : ascii -> bool) (s : string) :
  Py.all_chars p s = true ->
  Forall (fun t => Py.all_chars p t = true) (Py.findall_tokens s).
Proof.
  induction s as [|c r IH]; [constructor|].
  cbn [Py.findall_tokens Py.all_chars]. intros H.
  apply andb_true_iff in H as [Hc Hr]. specialize (IH Hr).
  destruct (Py.is_space c); [exact IH|].
  destruct (Py.starts_with_nonspace r).
  - destruct (Py.findall_tokens r) as [|t ts].
    + constructor; [cbn; now rewrite Hc | constructor].
    + inversion IH; subst. constructor; [cbn; now rewrite Hc | assumption].
  - constructor; [cbn; now rewrite Hc | assumption].
Qed.

Lemma findall_tokens_nonspace (s : string) :
  Forall (fun t => t <> "" /\ Py.all_chars (fun c => negb (Py.is_space c)) t = true)
         (Py.findall_tokens s).
Proof.
  induction s as [|c r IH]; [constructor|].
  cbn [Py.findall_tokens].
  destruct (Py.is_space c) eqn:Hc; [exact IH|].
  destruct (Py.starts_with_nonspace r).
  - destruct (Py.findall_tokens r) as [|t ts].
    + constructor; [|constructor]. split; [discriminate|]. cbn. now rewrite Hc.
    + inversion IH as [|? ? [_ Ht] Hts]; subst. constructor; [|assumption].
      split; [discriminate|]. cbn. now rewrite Hc.
  - constructor; [|assumption]. split; [discriminate|]. cbn. now rewrite Hc.
Qed.

(** The tokens of the code of a line are not empty and hold no blank and
    no [#]. *)
Lemma code_tokens_ok (raw : string) :
  Forall token_ok (Py.findall_tokens (Py.before_hash raw)).
Proof.
  pose proof (findall_tokens_nonspace (Py.before_hash raw)) as Hns.
  pose proof (findall_tokens_chars _ _ (before_hash_no_hash raw)) as Hnh.
  rewrite Forall_forall in *. intros t Ht.
  destruct (Hns t Ht) as [Hne Hsp]. specialize (Hnh t Ht). cbv beta in Hnh.
  split; [exact Hne|]. unfold token_char. now rewrite all_chars_andb, Hsp, Hnh.
Qed.

(** A label begins with a letter, so it is neither a number for
    [resolve_value] nor a register for [int_reg]. *)
Lemma alpha_not_digit (c : ascii) :
  Py.is_ascii_alpha c = true ->
  Py.is_digit_char c = false /\ (Z.of_N (N_of_ascii c) =? 45) = false.
Proof.
  unfold Py.is_ascii_alpha, Py.is_digit_char, Py.is_ascii_digit. cbv zeta.
  generalize (Z.of_N (N_of_ascii c)). intros n H.
  split; [|lia]. lia.
Qed.

Lemma label_not_numeric (l : string) :
  LABEL_RE_match l = true -> is_numeric l = false /\ Py.isdigit l = false.
Proof.
  destruct l as [|c r]; [discriminate|]. cbn [LABEL_RE_match].
  intros H. apply andb_true_iff in H as [Hc _].
  destruct (alpha_not_digit c Hc) as [Hd Hm].
  unfold is_numeric. cbn [Py.isdigit Py.all_chars Py.startswith_minus].
  rewrite Hd, Hm. split; reflexivity.
Qed.

(** *** One line *)

Lemma is_opcode_spec (t : string) :
  (is_opcode t = true <-> is_Some (OPCODES t)) /\
  (is_opcode t = false <-> OPCODES t = None).
Proof.
  unfold is_opcode. destruct (OPCODES t); split; split;
    try easy; try (intros [? ?]; easy); eauto.
Qed.

Lemma has_code_tokens (raw : string) :
  has_code raw = true <-> Py.findall_tokens (Py.before_hash raw) <> [].
Proof.
  unfold has_code. rewrite findall_tokens_nil.
  destruct (Py.blank _); cbn; split; congruence.
Qed.

(** The three outcomes of the loop body on one line; [tokens[0]] never
    fails. *)
Lemma parse_line_cases (idx : Z) (raw : string) :
  (has_code raw = false /\ parse_line idx raw = Some (Ok None)) \/
  (has_code raw = true /\ ~ lone_label raw /\
   exists line,
     parse_line idx raw = Some (Ok (Some line)) /\
     lineno line = idx /\ Asm.raw line = raw /\ line_ok line /\
     line_tokens line = Py.findall_tokens (Py.before_hash raw)) \/
  (has_code raw = true /\ lone_label raw /\
   parse_line idx raw = Some (Raise (AsmError idx MissingOpcode raw))).
Proof.
  pose proof (code_tokens_ok raw) as Hok.
  pose proof (has_code_tokens raw) as Hcode.
  unfold parse_line, lone_label. unfold has_code in *.
  destruct (Py.blank (Py.before_hash raw)); cbn [negb] in *; [left; easy|].
  right.
  destruct (Py.findall_tokens (Py.before_hash raw)) as [|t0 rest] eqn:Htok.
  { destruct Hcode as [Hcode _]. now destruct Hcode. }
  inversion Hok as [|? ? Ht0 Hrest]; subst.
  destruct (LABEL_RE_match t0) eqn:Hlab; cbn [andb].
  - destruct (is_opcode t0) eqn:Hop; cbn [andb negb].
    + left. split; [reflexivity|]. split.
      { intros (t & [= <- _] & _ & Hnone).
        apply is_opcode_spec in Hop as [? Hs]. congruence. }
      eexists. split; [reflexivity|]. split; [reflexivity|].
      split; [reflexivity|]. split; [|reflexivity].
      unfold line_ok. cbn. repeat split; try assumption; try apply Ht0.
      right. now apply is_opcode_spec.
    + assert (Hfill : (t0 =? ".fill")%string = false).
      { destruct (String.eqb_spec t0 ".fill") as [-> |]; [discriminate | reflexivity]. }
      rewrite Hfill. cbn [negb]. apply is_opcode_spec in Hop.
      destruct rest as [|op args].
      * right. split; [reflexivity|]. split; [|reflexivity]. eauto.
      * left. split; [reflexivity|]. split.
        { intros (t & [=] & _). }
        inversion Hrest as [|? ? Hop' Hargs]; subst.
        eexists. split; [reflexivity|]. split; [reflexivity|].
        split; [reflexivity|]. split; [|reflexivity].
        unfold line_ok. cbn. auto.
  - left. split; [reflexivity|]. split.
    { intros (t & [= <- _] & Hl & _). congruence. }
    eexists. split; [reflexivity|]. split; [reflexivity|].
    split; [reflexivity|]. split; [|reflexivity].
    unfold line_ok. cbn. auto.
Qed.

(** *** The loop *)

Lemma parse_from_outcome (raws : list string) :
  forall idx : Z,
  match parse_from idx raws with
  | None => False
  | Some (Ok lines) =>
      map raw lines = List.filter has_code raws /\
      Forall (fun line =>
                line_ok line /\
                line_tokens line = Py.findall_tokens (Py.before_hash (raw line)) /\
                exists k : nat, lineno line = idx + Z.of_nat k /\
                                raws !! k = Some (raw line)) lines /\
      StronglySorted (fun a b => lineno a < lineno b) lines /\
      Forall (fun raw => ~ lone_label raw) raws
  | Some (Raise e) =>
      exists (k : nat) (raw : string),
        e = AsmError (idx + Z.of_nat k) MissingOpcode raw /\
        raws !! k = Some raw /\ lone_label raw /\
        forall (j : nat) (raw' : string),
          (j < k)%nat -> raws !! j = Some raw' -> ~ lone_label raw'
  end.
Proof.
  induction raws as [|raw rest IH]; intros idx.
  - cbn. repeat split; constructor.
  - cbn [parse_from]. specialize (IH (idx + 1)).
    destruct (parse_line_cases idx raw)
      as [[Hc ->] | [(Hc & Hnl & line & -> & Hno & Hraw & Hok & Htok) | (Hc & Hl & ->)]].
    + (* blank line *)
      assert (Hnl : ~ lone_label raw).
      { intros (t & Ht & _).
        assert (Hne : has_code raw = true)
          by (apply has_code_tokens; congruence).
        congruence. }
      destruct (parse_from (idx + 1) rest) as [[lines | e]|]; [| |exact IH].
      * destruct IH as (Hmap & Hall & Hsort & Hnone).
        cbn [List.filter]. rewrite Hc. split; [exact Hmap|]. split.
        { eapply Forall_impl; [exact Hall|]. cbv beta.
          intros l (? & ? & k & Hk & Hlook).
          split; [assumption|]. split; [assumption|].
          exists (S k). split; [lia | exact Hlook]. }
        split; [exact Hsort|]. constructor; assumption.
      * destruct IH as (k & raw' & -> & Hlook & Hlone & Hfirst).
        exists (S k), raw'. split; [f_equal; lia|]. split; [exact Hlook|].
        split; [exact Hlone|]. intros [|j] r Hj Hr.
        -- cbn in Hr. injection Hr as <-. exact Hnl.
        -- apply (Hfirst j); [lia | exact Hr].
    + (* a line *)
      destruct (parse_from (idx + 1) rest) as [[lines | e]|]; [| |exact IH].
      * destruct IH as (Hmap & Hall & Hsort & Hnone).
        cbn [List.filter map]. rewrite Hc, Hmap, Hraw. split; [reflexivity|].
        split.
        { constructor.
          - split; [assumption|]. split; [now rewrite Hraw|].
            exists 0%nat. split; [lia | now rewrite Hraw].
          - eapply Forall_impl; [exact Hall|]. cbv beta.
            intros l (? & ? & k & Hk & Hlook).
          split; [assumption|]. split; [assumption|].
            exists (S k). split; [lia | exact Hlook]. }
        split; [|constructor; assumption].
        constructor; [exact Hsort|].
        eapply Forall_impl; [exact Hall|]. cbv beta.
        intros l (_ & _ & k & Hk & _). lia.
      * destruct IH as (k & raw' & -> & Hlook & Hlone & Hfirst).
        exists (S k), raw'. split; [f_equal; lia|]. split; [exact Hlook|].
        split; [exact Hlone|]. intros [|j] r Hj Hr.
        -- cbn in Hr. injection Hr as <-. exact Hnl.
        -- apply (Hfirst j); [lia | exact Hr].
    + (* a lone label *)
      exists 0%nat, raw. split; [f_equal; lia|]. split; [reflexivity|].
      split; [exact Hl|]. intros j r Hj. lia.
Qed.

(** X1. [parse_lines] never fails on [tokens[0]].  When it returns, the
    lines are those of the text that have code, in order, each with its
    0-based index in the text, its full text and the tokens of its code,
    and no line of the text is a lone label.  When it fails, it is with the
    missing-opcode error of the first lone label, carrying its index and
    text. *)
Theorem parse_lines_outcome (text : string) :
  match parse_lines text with
  | None => False
  | Some (Ok lines) =>
      map raw lines = List.filter has_code (Py.splitlines text) /\
      Forall (fun line =>
                line_ok line /\
                line_tokens line = Py.findall_tokens (Py.before_hash (raw line)) /\
                exists k : nat, lineno line = Z.of_nat k /\
                                Py.splitlines text !! k = Some (raw line)) lines /\
      StronglySorted (fun a b => lineno a < lineno b) lines /\
      Forall (fun raw => ~ lone_label raw) (Py.splitlines text)
  | Some (Raise e) =>
      exists (k : nat) (raw : string),
        e = AsmError (Z.of_nat k) MissingOpcode raw /\
        reported_line e = Some (Z.of_nat k + 1) /\
        Py.splitlines text !! k = Some raw /\ lone_label raw /\
        forall (j : nat) (raw' : string),
          (j < k)%nat -> Py.splitlines text !! j = Some raw' -> ~ lone_label raw'
  end.
Proof.
  unfold parse_lines.
  pose proof (parse_from_outcome (Py.splitlines text) 0) as H.
  destruct (parse_from 0 (Py.splitlines text)) as [[lines | e]|]; [| |exact H].
  - destruct H as (Hmap & Hall & Hsort & Hnone). repeat split; try assumption.
  - destruct H as (k & raw & -> & Hlook & Hlone & Hfirst).
    exists k, raw. repeat split; try assumption.
Qed.

(** *** Writing a line out and parsing it again *)

Lemma findall_tokens_token (t rest : string) :
  t <> "" -> Py.all_chars (fun c => negb (Py.is_space c)) t = true ->
  Py.starts_with_nonspace rest = false ->
  Py.findall_tokens (t +:+ rest) = t :: Py.findall_tokens rest.
Proof.
  induction t as [|c t' IH]; [congruence|]. intros _ Hns Hrest.
  cbn [Py.all_chars] in Hns. apply andb_true_iff in Hns as [Hc Ht'].
  apply negb_true_iff in Hc.
  rewrite append_cons. cbn [Py.findall_tokens]. rewrite Hc.
  destruct t' as [|c' t''].
  - change ("" +:+ rest) with rest. now rewrite Hrest.
  - rewrite IH by (congruence || assumption).
    rewrite append_cons. cbn [Py.starts_with_nonspace].
    cbn [Py.all_chars] in Ht'. apply andb_true_iff in Ht' as [Hc' _].
    now rewrite Hc'.
Qed.

Lemma findall_tokens_unwords (tokens : list string) :
  Forall token_ok tokens -> Py.findall_tokens (unwords tokens) = tokens.
Proof.
  induction 1 as [|t ts [Hne Hch] Hts IH]; [reflexivity|].
  unfold token_char in Hch. rewrite all_chars_andb in Hch.
  apply andb_true_iff in Hch as [Hsp _].
  destruct ts as [|t2 ts'].
  - cbn [unwords]. rewrite <- (append_empty_r t) at 1.
    now rewrite findall_tokens_token.
  - change (unwords (t :: t2 :: ts')) with (t +:+ String " " (unwords (t2 :: ts'))).
    rewrite findall_tokens_token by (assumption || reflexivity).
    cbn [Py.findall_tokens]. change (Py.is_space " ") with true. cbv iota.
    now rewrite IH.
Qed.

Lemma unwords_no_hash (tokens : list string) :
  Forall token_ok tokens ->
  Py.all_chars (fun c => negb (Z.of_N (N_of_ascii c) =? 35)) (unwords tokens) = true.
Proof.
  induction 1 as [|t ts [Hne Hch] Hts IH]; [reflexivity|].
  unfold token_char in Hch. rewrite all_chars_andb in Hch.
  apply andb_true_iff in Hch as [_ Hnh].
  destruct ts as [|t2 ts']; [exact Hnh|].
  change (unwords (t :: t2 :: ts')) with (t +:+ String " " (unwords (t2 :: ts'))).
  rewrite all_chars_append, Hnh. cbn [Py.all_chars andb].
  change (negb (Z.of_N (N_of_ascii " ") =? 35)) with true. exact IH.
Qed.

Lemma line_tokens_ok (line : Line) : line_ok line -> Forall token_ok (line_tokens line).
Proof.
  unfold line_ok, line_tokens. intros (Hop & Hargs & Hlab).
  destruct (label line); [destruct Hlab as (? & _)|];
    repeat (constructor; [assumption|]); assumption.
Qed.

(** X2. A line of the shape [parse_lines] returns, written out as its
    tokens with one space between them, parses to itself. *)
Theorem parse_unwords_roundtrip (line : Line) :
  line_ok line -> raw line = unwords (line_tokens line) ->
  parse_line (lineno line) (raw line) = Some (Ok (Some line)).
Proof.
  intros Hok Hraw. pose proof (line_tokens_ok line Hok) as Htok.
  destruct line as [n lb op ar rw]. cbn [raw lineno] in *.
  unfold line_tokens in Hraw, Htok. cbn [label opcode args] in Hraw, Htok.
  set (toks := match lb with Some l => l :: op :: ar | None => op :: ar end) in *.
  rewrite Hraw at 1.
  unfold parse_line.
  rewrite before_hash_id by now apply unwords_no_hash.
  rewrite findall_tokens_unwords by assumption.
  assert (Hblank : Py.blank (unwords toks) = false).
  { destruct (Py.blank _) eqn:Hb; [|reflexivity].
    apply findall_tokens_nil in Hb.
    rewrite findall_tokens_unwords in Hb by assumption.
    subst toks. destruct lb; discriminate. }
  rewrite Hblank. subst toks.
  unfold line_ok in *. cbn [label opcode args] in *.
  destruct Hok as (_ & _ & Hlab). destruct lb as [l|].
  - destruct Hlab as (_ & Hl & Hnone). rewrite Hl.
    assert (Hop : is_opcode l = false) by now apply is_opcode_spec.
    assert (Hfill : (l =? ".fill")%string = false).
    { destruct (String.eqb_spec l ".fill") as [-> |]; [discriminate | reflexivity]. }
    rewrite Hop, Hfill. subst rw. reflexivity.
  - assert (Hcond : LABEL_RE_match op && negb (is_opcode op) = false).
    { destruct Hlab as [-> | Hsome]; [reflexivity|].
      apply is_opcode_spec in Hsome. rewrite Hsome. apply andb_false_r. }
    rewrite Hcond. subst rw. reflexivity.
Qed.

(** X3. A label is never read as a number: where an offset is expected it
    is looked up in the symbol table, and where a register is expected it
    is refused as not numeric. *)
Theorem label_is_not_a_number (l : string) (symbols : gmap string Z) :
  LABEL_RE_match l = true ->
  resolve_value l symbols true =
    match symbols !! l with
    | Some a => Ok a
    | None => Raise (AsmError (-1) (UndefinedSymbol l) "")
    end /\
  int_reg l = Raise (AsmError (-1) (RegisterNotNumeric l) "").
Proof.
  intros Hl. destruct (label_not_numeric l Hl) as [Hnum Hdig].
  unfold resolve_value, int_reg. rewrite Hnum, Hdig. split; reflexivity.
Qed.

Lemma parse_unwords_roundtrip_witness :
  parse_line 3 "start lw 0 1 five" = Some (Ok (Some Examples.lw_label_line)).
Proof.
  apply (parse_unwords_roundtrip Examples.lw_label_line).
  - unfold line_ok, token_ok. cbn.
    repeat split; try discriminate; try reflexivity.
    repeat constructor; discriminate.
  - reflexivity.
Defined.

Lemma label_is_not_a_number_witness :
  resolve_value "five" {["five" := 6]} true = Ok 6 /\
  int_reg "five" = Raise (AsmError (-1) (RegisterNotNumeric "five") "").
Proof.
  destruct (label_is_not_a_number "five" {["five" := 6]}) as [H1 H2];
    [reflexivity|].
  split; [|exact H2]. rewrite H1. vm_compute. reflexivity.
Defined.

End ParseSpec.

(** ** The encoder, format by format *)

Module EncodeSpec.
Import Asm AsmSpec.

(** *** The other instruction formats *)

Lemma encode_lw_sw (pc n : Z) (lb : option string) (op : string) (opc : Z)
    (ta tb t rw : string) (symbols : gmap string Z) :
  (op = "lw" /\ opc = 2) \/ (op = "sw" /\ opc = 3) ->
  encode_line pc (mkLine n lb op [ta; tb; t] rw) symbols =
    rA ← int_reg ta; rB ← int_reg tb;
    offset ← resolve_value t symbols true;
    if in_16_bit_range offset
    then Ok (Z.land (Z.lor (Z.lor (Z.lor (Z.shiftl opc 22) (Z.shiftl rA 19))
                                  (Z.shiftl rB 16)) (Z.land offset 0xFFFF)) MASK_32)
    else Raise (AsmError n OffsetOutOfRange rw).
Proof.
  intros [[-> ->] | [-> ->]]; unfold encode_line, check_argc; cbn;
    (destruct (int_reg ta); [|reflexivity]);
    (destruct (int_reg tb); [|reflexivity]); cbn;
    (destruct (resolve_value t symbols true); cbn; [|reflexivity]);
    destruct (in_16_bit_range _); reflexivity.
Qed.

(** X4. For an [lw] or [sw] line with two register operands, the offset
    is the value of the third operand when it passes the numeric test and
    [int] reads it, and its entry in the symbol table when it does not
    pass the test: the address itself, whatever the address of the line.  The line is encoded exactly when the offset lies
    in -32768..32767, and the word then decodes to the opcode, the two
    registers and the offset; outside the range the line fails with the
    offset range error, which carries the line. *)
Theorem lw_sw_offset (pc : Z) (line : Line) (symbols : gmap string Z)
    (opc : Z) (ta tb t : string) (rA rB offset : Z) :
  (opcode line = "lw" /\ opc = 2) \/ (opcode line = "sw" /\ opc = 3) ->
  args line = [ta; tb; t] ->
  int_reg ta = Ok rA -> int_reg tb = Ok rB ->
  (is_numeric t = true /\ Py.int t = Some offset) \/
  (is_numeric t = false /\ symbols !! t = Some offset) ->
  (-32768 <= offset <= 32767 ->
     exists word,
       encode_line pc line symbols = Ok word /\
       Sim.decode word =
         {| Sim.f_op := opc; Sim.f_a := rA; Sim.f_b := rB;
            Sim.f_imm := offset mod 65536; Sim.f_dst := offset mod 8 |} /\
       Sim.sext16 (Sim.f_imm (Sim.decode word)) = offset) /\
  (~ (-32768 <= offset <= 32767) ->
     encode_line pc line symbols =
       Raise (AsmError (lineno line) OffsetOutOfRange (raw line))).
Proof.
  intros Hop Hargs HA HB Hoff.
  destruct line as [n lb op ar rw]. cbn [opcode args lineno raw] in *. subst ar.
  rewrite (encode_lw_sw pc n lb op opc) by exact Hop. rewrite HA, HB. cbn.
  assert (Hres : resolve_value t symbols true = Ok offset).
  { unfold resolve_value. destruct Hoff as [[Hnum Hint] | [Hnum Hsym]].
    - now rewrite Hnum, Hint.
    - now rewrite Hnum, Hsym. }
  rewrite Hres. cbn.
  pose proof (int_reg_range _ _ HA) as HrA.
  pose proof (int_reg_range _ _ HB) as HrB.
  pose proof (in_16_bit_range_spec offset) as Hrange.
  assert (Hopc : 0 <= opc < 8) by (destruct Hop as [[_ ->] | [_ ->]]; lia).
  split; intros Hin.
  - destruct (in_16_bit_range offset); [|apply Hrange in Hin; discriminate || tauto].
    eexists. split; [reflexivity|].
    change 0xFFFF with (2 ^ 16 - 1). rewrite (Bits.land_mod offset) by lia.
    destruct (decode_pack opc rA rB (offset mod 2 ^ 16)) as [Hmask Hdec];
      try lia; [apply Z.mod_pos_bound; lia|].
    cbv zeta in Hmask, Hdec. rewrite Hmask.
    set (W := Z.lor _ _) in *.
    change (Z.land W (2 ^ 16 - 1)) with (Sim.f_imm (Sim.decode W)).
    rewrite Hdec. cbn [Sim.f_imm].
    split; [|now apply sext16_of_offset].
    change 65536 with (2 ^ 16). f_equal. Z.div_mod_to_equations. lia.
  - destruct (in_16_bit_range offset); [|reflexivity].
    destruct Hin. now apply Hrange.
Qed.

Lemma lw_sw_offset_witness :
  exists word,
    encode_line 0 Examples.lw_label_line {["five" := 6]} = Ok word /\
    Sim.decode word =
      {| Sim.f_op := 2; Sim.f_a := 0; Sim.f_b := 1;
         Sim.f_imm := 6 mod 65536; Sim.f_dst := 6 mod 8 |} /\
    Sim.sext16 (Sim.f_imm (Sim.decode word)) = 6.
Proof.
  apply (lw_sw_offset 0 Examples.lw_label_line {["five" := 6]} 2 "0" "1" "five" 0 1 6).
  - left. split; reflexivity.
  - reflexivity.
  - reflexivity.
  - reflexivity.
  - right. split; vm_compute; reflexivity.
  - lia.
Defined.

Lemma encode_jalr (pc n : Z) (lb : option string) (ta tb rw : string)
    (symbols : gmap string Z) :
  encode_line pc (mkLine n lb "jalr" [ta; tb] rw) symbols =
    rA ← int_reg ta; rB ← int_reg tb;
    Ok (Z.land (Z.lor (Z.lor (Z.shiftl 5 22) (Z.shiftl rA 19)) (Z.shiftl rB 16))
               MASK_32).
Proof.
  unfold encode_line, check_argc; cbn.
  destruct (int_reg ta); [|reflexivity].
  destruct (int_reg tb); reflexivity.
Qed.

(** X5. A [jalr] line with two register operands is packed as
    [(5<<22) | (rA<<19) | (rB<<16)]: the low 16 bits are 0, and the word
    decodes to the opcode and the two registers. *)
Theorem jalr_roundtrip (pc : Z) (line : Line) (symbols : gmap string Z)
    (ta tb : string) (rA rB : Z) :
  opcode line = "jalr" -> args line = [ta; tb] ->
  int_reg ta = Ok rA -> int_reg tb = Ok rB ->
  exists word,
    encode_line pc line symbols = Ok word /\
    word = Z.lor (Z.lor (Z.shiftl 5 22) (Z.shiftl rA 19)) (Z.shiftl rB 16) /\
    Sim.decode word =
      {| Sim.f_op := Sim.OP_JALR; Sim.f_a := rA; Sim.f_b := rB;
         Sim.f_imm := 0; Sim.f_dst := 0 |}.
Proof.
  intros Hop Hargs HA HB.
  destruct line as [n lb op ar rw]. cbn [opcode args] in *. subst op ar.
  rewrite encode_jalr, HA, HB. cbn.
  pose proof (int_reg_range _ _ HA) as HrA.
  pose proof (int_reg_range _ _ HB) as HrB.
  destruct (decode_pack 5 rA rB 0) as [Hmask Hdec]; try lia.
  cbv zeta in Hmask, Hdec. rewrite Z.lor_0_r in Hmask, Hdec.
  eexists. split; [reflexivity|]. rewrite Hmask. split; [reflexivity|].
  exact Hdec.
Qed.

Lemma jalr_roundtrip_witness :
  exists word,
    encode_line 0 Examples.jalr_line ∅ = Ok word /\
    word = Z.lor (Z.lor (Z.shiftl 5 22) (Z.shiftl 4 19)) (Z.shiftl 7 16) /\
    Sim.decode word =
      {| Sim.f_op := Sim.OP_JALR; Sim.f_a := 4; Sim.f_b := 7;
         Sim.f_imm := 0; Sim.f_dst := 0 |}.
Proof.
  apply (jalr_roundtrip 0 Examples.jalr_line ∅ "4" "7" 4 7); reflexivity.
Defined.

(** X6. For each mnemonic [encode] first checks the number of operands:
    a mnemonic that is neither [.fill] nor in the opcode table fails with
    the unknown-opcode error, and a known one with another number of
    operands than its format takes fails with the operand-count error,
    before any operand is read; both errors carry the line. *)
Theorem mnemonic_and_count_checked_first (pc : Z) (line : Line)
    (symbols : gmap string Z) :
  match expected_argc (opcode line) with
  | None =>
      encode_line pc line symbols =
        Raise (AsmError (lineno line) (UnknownOpcode (opcode line)) (raw line))
  | Some n =>
      Z.of_nat (length (args line)) <> n ->
      encode_line pc line symbols =
        Raise (AsmError (lineno line)
                 (ExpectedArguments n (Z.of_nat (length (args line)))) (raw line))
  end.
Proof.
  destruct line as [n lb op ar rw]. cbn [opcode args lineno raw].
  unfold expected_argc, encode_line, OPCODES, check_argc. cbn [opcode args lineno raw].
  destruct (op =? ".fill")%string.
  { intros Hne. apply Z.eqb_neq in Hne. now rewrite Hne. }
  destruct (op =? "add")%string; cbn [orb].
  { intros Hne. apply Z.eqb_neq in Hne. now rewrite Hne. }
  destruct (op =? "nand")%string; cbn [orb].
  { intros Hne. apply Z.eqb_neq in Hne. now rewrite Hne. }
  destruct (op =? "lw")%string; cbn [orb].
  { intros Hne. apply Z.eqb_neq in Hne. now rewrite Hne. }
  destruct (op =? "sw")%string; cbn [orb].
  { intros Hne. apply Z.eqb_neq in Hne. now rewrite Hne. }
  destruct (op =? "beq")%string; cbn [orb].
  { intros Hne. apply Z.eqb_neq in Hne. now rewrite Hne. }
  destruct (op =? "jalr")%string.
  { intros Hne. apply Z.eqb_neq in Hne. now rewrite Hne. }
  destruct (op =? "halt")%string; cbn [orb].
  { intros Hne. apply Z.eqb_neq in Hne. now rewrite Hne. }
  destruct (op =? "noop")%string.
  { intros Hne. apply Z.eqb_neq in Hne. now rewrite Hne. }
  reflexivity.
Qed.

(** [halt] and [noop] without operands are the words [6<<22] and
    [7<<22], which decode to their opcode with every other field 0. *)
Lemma halt_noop_words (pc : Z) (line : Line) (symbols : gmap string Z) (opc : Z) :
  (opcode line = "halt" /\ opc = 6) \/ (opcode line = "noop" /\ opc = 7) ->
  args line = [] ->
  encode_line pc line symbols = Ok (opc * 4194304) /\
  Sim.decode (opc * 4194304) =
    {| Sim.f_op := opc; Sim.f_a := 0; Sim.f_b := 0; Sim.f_imm := 0; Sim.f_dst := 0 |}.
Proof.
  intros Hop Hargs. destruct line as [n lb op ar rw].
  cbn [opcode args] in *. subst ar.
  destruct Hop as [[-> ->] | [-> ->]]; split; reflexivity.
Qed.

(** *** Every instruction word *)

Lemma map_int_reg_range (tokens : list string) (regs : list Z) :
  map_int_reg tokens = Ok regs -> Forall (fun r => 0 <= r < 8) regs.
Proof.
  revert regs. induction tokens as [|t ts IH]; intros regs.
  - intros [= <-]. constructor.
  - cbn [map_int_reg]. destruct (int_reg t) as [r|] eqn:Hr; [|discriminate].
    cbn. destruct (map_int_reg ts) as [rs|]; [|discriminate].
    cbn. intros [= <-]. constructor; [eapply int_reg_range; eassumption | auto].
Qed.

Lemma packed_word_facts (opc a b lo : Z) :
  0 <= opc < 8 -> 0 <= a < 8 -> 0 <= b < 8 -> 0 <= lo < 2 ^ 16 ->
  let w := Z.land (Z.lor (Z.lor (Z.lor (Z.shiftl opc 22) (Z.shiftl a 19))
                                (Z.shiftl b 16)) lo) MASK_32 in
  0 <= w < 2 ^ 25 /\
  Sim.decode w = Sim.mkFields opc a b lo (lo mod 8).
Proof.
  intros Hopc Ha Hb Hlo.
  destruct (decode_pack opc a b lo Hopc Ha Hb Hlo) as [Hmask Hdec].
  cbv zeta in *. rewrite Hmask. split; [|exact Hdec].
  rewrite Bits.pack_sum by assumption. lia.
Qed.

Lemma OPCODES_range (op : string) (opc : Z) : OPCODES op = Some opc -> 0 <= opc < 8.
Proof. unfold OPCODES. repeat case_match; intros [= <-]; lia. Qed.

Lemma instruction_word (pc : Z) (line : Line) (symbols : gmap string Z)
    (w : Z) :
  opcode line <> ".fill" -> encode_line pc line symbols = Ok w ->
  0 <= w < 2 ^ 25 /\
  OPCODES (opcode line) = Some (Sim.f_op (Sim.decode w)) /\
  (Sim.f_op (Sim.decode w) = Sim.OP_ADD \/ Sim.f_op (Sim.decode w) = Sim.OP_NAND ->
   Sim.f_imm (Sim.decode w) = Sim.f_dst (Sim.decode w) /\
   Sim.f_imm (Sim.decode w) < 8).
Proof.
  intros Hfill. destruct line as [n lb op ar rw]. cbn [opcode] in *.
  unfold encode_line. cbn [opcode args lineno raw].
  destruct (String.eqb_spec op ".fill") as [|_]; [contradiction|].
  destruct (OPCODES op) as [opc|] eqn:Hopc; [|discriminate].
  pose proof (OPCODES_range _ _ Hopc) as Hrange.
  assert (Hlo0 : 0 <= 0 < 2 ^ 16) by lia.
  assert (H0 : 0 <= 0 < 8) by lia.
  unfold check_argc, mbind, result_bind. cbn [args].
  repeat case_match; try discriminate; simplify_eq; intros [= <-];
    repeat match goal with
           | H : map_int_reg _ = Ok _ |- _ =>
               apply map_int_reg_range in H;
               repeat match type of H with
                      | Forall _ (_ :: _) =>
                          let Hr := fresh "Hr" in
                          apply Forall_cons_1 in H as [Hr H]
                      end
           end.
  all: try match goal with
       | |- context [Z.land (Z.lor (Z.lor (Z.lor _ _) _) ?lo) MASK_32] =>
           idtac
       | |- context [Z.land (Z.lor (Z.lor (Z.shiftl ?o 22) (Z.shiftl ?a 19)) (Z.shiftl ?b 16)) MASK_32] =>
           rewrite <- (Z.lor_0_r (Z.lor (Z.lor (Z.shiftl o 22) (Z.shiftl a 19)) (Z.shiftl b 16)))
       | |- context [Z.land (Z.shiftl ?o 22) MASK_32] =>
           replace (Z.shiftl o 22)
             with (Z.lor (Z.lor (Z.lor (Z.shiftl o 22) (Z.shiftl 0 19)) (Z.shiftl 0 16)) 0)
             by (now rewrite !Z.shiftl_0_l, !Z.lor_0_r)
       end.
  all: match goal with
       | |- context [Z.land (Z.lor (Z.lor (Z.lor (Z.shiftl ?o 22) (Z.shiftl ?a 19)) (Z.shiftl ?b 16)) ?lo) MASK_32] =>
           destruct (packed_word_facts o a b lo) as [Hw Hdec];
             [first [assumption | lia
                    | change 65535 with (2 ^ 16 - 1); apply SimSpec.land_range; lia] ..| ]
       end.
  all: rewrite Hdec; cbn [Sim.f_op Sim.f_imm Sim.f_dst];
    (split; [exact Hw|]); (split; [reflexivity|]); intros Hor.
  all: first
    [ rewrite Z.mod_small by lia; split; [reflexivity | lia]
    | exfalso; unfold OPCODES in Hopc;
      destruct (op =? "add")%string; [discriminate|];
      destruct (op =? "nand")%string; [discriminate|];
      repeat case_match; simplify_eq; destruct Hor; discriminate ].
Qed.

(** X7. The word of every instruction line is below 2^25 and decodes to
    the opcode of its mnemonic; in the word of an [add] or [nand] line the
    16-bit field is the destination register, below 8. *)
Theorem instruction_word_fields (pc : Z) (line : Line) (symbols : gmap string Z)
    (w : Z) :
  opcode line <> ".fill" -> encode_line pc line symbols = Ok w ->
  0 <= w < 2 ^ 25 /\
  OPCODES (opcode line) = Some (Sim.f_op (Sim.decode w)) /\
  (Sim.f_op (Sim.decode w) = Sim.OP_ADD \/ Sim.f_op (Sim.decode w) = Sim.OP_NAND ->
   Sim.f_imm (Sim.decode w) = Sim.f_dst (Sim.decode w) /\
   Sim.f_imm (Sim.decode w) < 8).
Proof. apply instruction_word. Qed.

Lemma instruction_word_fields_witness :
  0 <= 655363 < 2 ^ 25 /\
  OPCODES "add" = Some (Sim.f_op (Sim.decode 655363)) /\
  (Sim.f_op (Sim.decode 655363) = Sim.OP_ADD \/
   Sim.f_op (Sim.decode 655363) = Sim.OP_NAND ->
   Sim.f_imm (Sim.decode 655363) = Sim.f_dst (Sim.decode 655363) /\
   Sim.f_imm (Sim.decode 655363) < 8).
Proof.
  apply (instruction_word_fields 0 Examples.add_line ∅ 655363).
  - discriminate.
  - reflexivity.
Defined.

(** *** The loop of pass 2 *)

Lemma encode_from_outcome (lines : list Line) (symbols : gmap string Z) :
  forall pc : Z,
  match encode_from pc lines symbols with
  | Ok ws =>
      length ws = length lines /\
      forall (i : nat) (line : Line), lines !! i = Some line ->
        exists w, ws !! i = Some w /\
                  encode_line (pc + Z.of_nat i) line symbols = Ok w
  | Raise e =>
      exists (i : nat) (line : Line),
        lines !! i = Some line /\
        encode_line (pc + Z.of_nat i) line symbols = Raise e /\
        forall (j : nat) (lj : Line), (j < i)%nat -> lines !! j = Some lj ->
          exists w, encode_line (pc + Z.of_nat j) lj symbols = Ok w
  end.
Proof.
  induction lines as [|line rest IH]; intros pc.
  - cbn. split; [reflexivity|]. intros i l H. rewrite lookup_nil in H. discriminate.
  - cbn [encode_from]. specialize (IH (pc + 1)).
    destruct (encode_line pc line symbols) as [w|e] eqn:Hline; cbn.
    + destruct (encode_from (pc + 1) rest symbols) as [ws|e]; cbn.
      * destruct IH as [Hlen Hws]. split; [cbn; now rewrite Hlen|].
        intros [|i] l Hl.
        -- injection Hl as <-. exists w. split; [reflexivity|].
           now rewrite Z.add_0_r.
        -- destruct (Hws i l Hl) as (w' & Hw' & Henc). exists w'.
           split; [exact Hw'|]. rewrite <- Henc. f_equal. lia.
      * destruct IH as (i & l & Hl & Henc & Hbefore).
        exists (S i), l. split; [exact Hl|]. split.
        { rewrite <- Henc. f_equal. lia. }
        intros [|j] lj Hj Hlj.
        -- injection Hlj as <-. exists w. now rewrite Z.add_0_r.
        -- destruct (Hbefore j lj) as [w' Hw']; [lia | exact Hlj |].
           exists w'. rewrite <- Hw'. f_equal. lia.
    + exists 0%nat, line. split; [reflexivity|]. split.
      { now rewrite Z.add_0_r. }
      intros j lj Hj. lia.
Qed.

(** X8. [encode] returns one word for each line, in order, the word of
    the line at index [i] being encoded with address [i]; or it fails with
    the error of the first line that does not encode, and returns no
    word. *)
Theorem encode_one_word_per_line (lines : list Line) (symbols : gmap string Z) :
  match encode lines symbols with
  | Ok ws =>
      length ws = length lines /\
      forall (i : nat) (line : Line), lines !! i = Some line ->
        exists w, ws !! i = Some w /\
                  encode_line (Z.of_nat i) line symbols = Ok w
  | Raise e =>
      exists (i : nat) (line : Line),
        lines !! i = Some line /\
        encode_line (Z.of_nat i) line symbols = Raise e /\
        forall (j : nat) (lj : Line), (j < i)%nat -> lines !! j = Some lj ->
          exists w, encode_line (Z.of_nat j) lj symbols = Ok w
  end.
Proof. exact (encode_from_outcome lines symbols 0). Qed.

(** *** Operands *)

Lemma digits_value_isdigit (s : string) (acc v : Z) :
  s <> "" -> Py.digits_value acc s = Some v -> Py.isdigit s = true.
Proof.
  intros Hne Hv. apply digits_value_all_digits in Hv.
  destruct s; [congruence | exact Hv].
Qed.


(** X10. A [.fill] line with one operand: an operand that passes the
    numeric test is handed to [int], and what [int] returns is the word,
    without the 32-bit mask; so a decimal numeral of at most 4300 digits
    is emitted as its value, and after a minus sign as the opposite of its
    value, whatever its size, and a longer one ends the assembly with the
    ValueError of [int].  An operand that does not pass the numeric test
    is refused as an undefined symbol, whatever the symbol table holds. *)
Theorem fill_outcome (pc : Z) (line : Line) (t : string) (symbols : gmap string Z) :
  opcode line = ".fill" -> args line = [t] ->
  (is_numeric t = true -> encode_line pc line symbols = of_int (Py.int t)) /\
  (is_numeric t = false ->
   encode_line pc line symbols = Raise (AsmError (-1) (UndefinedSymbol t) "")) /\
  (forall (d : string) (n : Z),
     d <> "" -> Py.digits_value 0 d = Some n ->
     (t = d ->
      encode_line pc line symbols =
        if Z.of_nat (String.length d) <=? 4300 then Ok n else Raise ValueError) /\
     (t = String "-"%char d ->
      encode_line pc line symbols =
        if Z.of_nat (String.length d) <=? 4300 then Ok (- n) else Raise ValueError)).
Proof.
  intros Hop Hargs.
  assert (Hnum : is_numeric t = true ->
                 encode_line pc line symbols = of_int (Py.int t)).
  { intros Hnum. destruct line as [n lb op ar rw].
    cbn [opcode args] in *. subst op ar.
    rewrite encode_fill. unfold resolve_value. now rewrite Hnum. }
  split; [exact Hnum|].
  split; [intros Hn; now apply fill_symbol_rejected|].
  intros d n Hne Hv.
  pose proof (digits_value_isdigit d 0 n Hne Hv) as Hd.
  split; intros ->.
  - rewrite Hnum by (unfold is_numeric; now rewrite Hd).
    rewrite (int_isdigit d Hd), Hv. unfold Py.MAX_STR_DIGITS.
    now destruct (_ <=? _).
  - rewrite Hnum
      by (unfold is_numeric; cbn [Py.startswith_minus Py.tail];
          rewrite Hd; apply orb_true_r).
    rewrite (int_minus_isdigit (String "-"%char d)) by (reflexivity || exact Hd).
    cbn [Py.tail]. rewrite Hv. unfold Py.MAX_STR_DIGITS.
    now destruct (_ <=? _).
Qed.

(** [.fill -5] emits -5. *)
Lemma fill_outcome_witness :
  encode_line 0 Examples.fill_line ∅ = Ok (-5).
Proof.
  destruct (fill_outcome 0 Examples.fill_line "-5" ∅) as (_ & _ & H).
  - reflexivity.
  - reflexivity.
  - destruct (H "5" 5) as [_ Hminus]; [discriminate | reflexivity |].
    exact (Hminus eq_refl).
Defined.

(** X11. [sign_extend_16] of the assembler and [sext16] of the simulator
    are the same function: the value in -32768..32767 that has the low 16
    bits of the argument; on the 16-bit field of an offset in that range
    they give the offset back. *)
Theorem sign_extension (x : Z) :
  sign_extend_16 x = Sim.sext16 x /\
  -32768 <= Sim.sext16 x <= 32767 /\
  Sim.sext16 x mod 65536 = x mod 65536 /\
  (-32768 <= x <= 32767 -> Sim.sext16 (Z.land x 0xFFFF) = x).
Proof.
  rewrite sign_extend_16_spec, sext16_spec.
  change 65536 with (2 ^ 16). split; [reflexivity|].
  split; [|split].
  - destruct (Z.ltb_spec (x mod 2 ^ 16) (2 ^ 15));
      Z.div_mod_to_equations; lia.
  - destruct (Z.ltb_spec (x mod 2 ^ 16) (2 ^ 15));
      Z.div_mod_to_equations; lia.
  - intros Hx. change 0xFFFF with (2 ^ 16 - 1).
    rewrite Bits.land_mod by lia. now apply sext16_of_offset.
Qed.

(** *** The two passes together *)

Lemma symbol_lookup_defined (lines : list Line) (symbols : gmap string Z)
    (l : string) (a : Z) :
  build_symbol_table lines = Ok symbols -> symbols !! l = Some a ->
  exists j : nat, a = Z.of_nat j /\ defined_at lines l j.
Proof.
  unfold build_symbol_table. intros Hb Hl.
  destruct (build_from_Ok _ _ _ _ Hb) as [Hdef Hrest].
  destruct (defined_somewhere_dec lines l) as [[j Hj] | Hno].
  - exists j. split; [|exact Hj]. destruct (Hdef _ _ Hj) as (_ & Hout & _).
    rewrite Hout in Hl. injection Hl as <-. lia.
  - rewrite (Hrest _ Hno), lookup_empty in Hl. discriminate.
Qed.

(** X12. In a program that assembles, an [lw], [sw] or [beq] line whose
    third operand is not numeric refers to a label that some line of the
    program defines, before or after it: the 16-bit field of an [lw] or
    [sw] word is the index of that line, and the field of a [beq] word,
    sign-extended, is that index minus the index after the branch. *)
Theorem assemble_resolves_labels (lines : list Line) (ws : list Z)
    (i : nat) (line : Line) (ta tb l : string) :
  assemble lines = Ok ws ->
  lines !! i = Some line ->
  opcode line = "lw" \/ opcode line = "sw" \/ opcode line = "beq" ->
  args line = [ta; tb; l] ->
  is_numeric l = false ->
  exists (j : nat) (w : Z),
    defined_at lines l j /\ ws !! i = Some w /\
    (opcode line = "beq" ->
     Sim.sext16 (Sim.f_imm (Sim.decode w)) = Z.of_nat j - (Z.of_nat i + 1)) /\
    (opcode line <> "beq" -> Sim.f_imm (Sim.decode w) = Z.of_nat j).
Proof.
  unfold assemble. intros Hasm Hi Hop Hargs Hnum.
  destruct (build_symbol_table lines) as [symbols|] eqn:Hb; [|discriminate].
  cbn in Hasm. pose proof (encode_from_outcome lines symbols 0) as Henc.
  unfold encode in Hasm. rewrite Hasm in Henc. destruct Henc as [_ Hws].
  destruct (Hws i line Hi) as (w & Hw & Hline). clear Hws.
  rewrite Z.add_0_l in Hline.
  destruct line as [n lb op ar rw]. cbn [opcode args] in *. subst ar.
  assert (Hres : forall b, resolve_value l symbols b =
                   match (if b then symbols !! l else None) with
                   | Some a => Ok a
                   | None => Raise (AsmError (-1) (UndefinedSymbol l) "")
                   end).
  { intros b. unfold resolve_value. now rewrite Hnum. }
  destruct Hop as [-> | [-> | ->]].
  1, 2: (rewrite (encode_lw_sw (Z.of_nat i) n lb _ _ ta tb l rw symbols) in Hline
           by (first [left; split; reflexivity | right; split; reflexivity]);
         destruct (int_reg ta) as [rA|] eqn:HA; [|discriminate];
         destruct (int_reg tb) as [rB|] eqn:HB; [|discriminate];
         cbn in Hline; rewrite Hres in Hline;
         destruct (symbols !! l) as [a|] eqn:Hl; [|discriminate];
         cbn in Hline;
         destruct (in_16_bit_range a) eqn:Hin; [|discriminate];
         injection Hline as <-;
         destruct (symbol_lookup_defined _ _ _ _ Hb Hl) as (j & -> & Hj);
         apply in_16_bit_range_spec in Hin;
         exists j; eexists; split; [exact Hj|]; split; [exact Hw|];
         split; [discriminate|]; intros _;
         pose proof (int_reg_range _ _ HA); pose proof (int_reg_range _ _ HB);
         change 0xFFFF with (2 ^ 16 - 1); rewrite (Bits.land_mod (Z.of_nat j)) by lia;
         match goal with
         | |- context [Z.land (Z.lor (Z.lor (Z.lor (Z.shiftl ?o 22) _) _) _) MASK_32] =>
             destruct (packed_word_facts o rA rB (Z.of_nat j mod 2 ^ 16)) as [_ Hdec];
               try lia; [apply Z.mod_pos_bound; lia|]
         end;
         cbv zeta in Hdec; rewrite Hdec; cbn [Sim.f_imm];
         apply Z.mod_small; lia).
  rewrite encode_beq in Hline.
  destruct (int_reg ta) as [rA|] eqn:HA; [|discriminate].
  destruct (int_reg tb) as [rB|] eqn:HB; [|discriminate].
  cbn in Hline.
  destruct (symbols !! l) as [a|] eqn:Hl.
  - cbn in Hline.
    destruct (in_16_bit_range (a - (Z.of_nat i + 1))) eqn:Hin; [|discriminate].
    injection Hline as <-.
    destruct (symbol_lookup_defined _ _ _ _ Hb Hl) as (j & -> & Hj).
    apply in_16_bit_range_spec in Hin.
    exists j. eexists. split; [exact Hj|]. split; [exact Hw|].
    split; [intros _ | congruence].
    pose proof (int_reg_range _ _ HA). pose proof (int_reg_range _ _ HB).
    change 0xFFFF with (2 ^ 16 - 1).
    rewrite (Bits.land_mod (Z.of_nat j - (Z.of_nat i + 1))) by lia.
    destruct (packed_word_facts 4 rA rB ((Z.of_nat j - (Z.of_nat i + 1)) mod 2 ^ 16))
      as [_ Hdec]; try lia; [apply Z.mod_pos_bound; lia|].
    cbv zeta in Hdec. rewrite Hdec. cbn [Sim.f_imm].
    now apply sext16_of_offset.
  - rewrite (Hres false) in Hline. discriminate.
Qed.

Lemma assemble_resolves_labels_witness :
  exists (j : nat) (w : Z),
    defined_at Examples.count_prog "done" j /\
    (default [] (if assemble Examples.count_prog is Ok ws then Some ws else None))
      !! 3%nat = Some w /\
    ("beq" = "beq" ->
     Sim.sext16 (Sim.f_imm (Sim.decode w)) = Z.of_nat j - (Z.of_nat 3 + 1)) /\
    ("beq" <> "beq" -> Sim.f_imm (Sim.decode w) = Z.of_nat j).
Proof.
  apply (assemble_resolves_labels Examples.count_prog _ 3
           (mkLine 4 None "beq" ["0"; "1"; "done"] "        beq  0 1 done")
           "0" "1" "done").
  - vm_compute. reflexivity.
  - reflexivity.
  - right. right. reflexivity.
  - reflexivity.
  - reflexivity.
Defined.

(** *** Error reports of the two passes *)

(** X13. An error of [assemble] is a ValueError of [int], or an AsmError
    of [int_reg] or [resolve_value], which prints as line 0 with no source
    text, or an AsmError that prints the 1-based number and the text of a
    line of the program. *)
Theorem assemble_error_reports (lines : list Line) (e : exn) :
  assemble lines = Raise e ->
  e = ValueError \/
  (reported_line e = Some 0 /\ reported_text e = Some "") \/
  exists line, line ∈ lines /\
               reported_line e = Some (lineno line + 1) /\
               reported_text e = Some (raw line).
Proof.
  unfold assemble, build_symbol_table.
  destruct (build_from 0 lines ∅) as [symbols | e1] eqn:Hb; cbn.
  - intros Henc. pose proof (encode_from_outcome lines symbols 0) as H.
    unfold encode in Henc. rewrite Henc in H.
    destruct H as (i & line & Hi & Hline & _).
    destruct (encode_line_error _ _ _ _ Hline) as [? | [? | ?]]; auto.
    right. right. exists line. split; [|assumption].
    eapply list_elem_of_lookup_2. exact Hi.
  - intros [= <-].
    destruct (build_from_Raise _ _ _ _ Hb) as (j & lj & l & Hj & _ & -> & _).
    right. right. exists lj. split; [eapply list_elem_of_lookup_2; exact Hj|].
    split; reflexivity.
Qed.

Lemma assemble_error_reports_witness :
  AsmError (-1) (RegisterOutOfRange 9) "" = ValueError \/
  (reported_line (AsmError (-1) (RegisterOutOfRange 9) "") = Some 0 /\
   reported_text (AsmError (-1) (RegisterOutOfRange 9) "") = Some "") \/
  exists line, line ∈ Examples.bad_reg_prog /\
               reported_line (AsmError (-1) (RegisterOutOfRange 9) "")
               = Some (lineno line + 1) /\
               reported_text (AsmError (-1) (RegisterOutOfRange 9) "")
               = Some (raw line).
Proof.
  apply (assemble_error_reports Examples.bad_reg_prog).
  vm_compute. reflexivity.
Defined.

End EncodeSpec.

(** ** The instructions, one by one, and the run *)

Module ExecSpec.
Import Sim SimSpec.

(** *** List access inside the bounds *)

Lemma py_get_nonneg (l : list Z) (i : Z) :
  0 <= i < Z.of_nat (length l) -> Py.py_get l i = l !! Z.to_nat i.
Proof.
  intros Hi. unfold Py.py_get.
  replace ((0 <=? i) && (i <? Z.of_nat (length l))) with true
    by (symmetry; apply andb_true_iff; lia).
  reflexivity.
Qed.

Lemma py_set_nonneg (l : list Z) (i v : Z) :
  0 <= i < Z.of_nat (length l) -> Py.py_set l i v = Some (<[Z.to_nat i := v]> l).
Proof.
  intros Hi. unfold Py.py_set.
  replace ((0 <=? i) && (i <? Z.of_nat (length l))) with true
    by (symmetry; apply andb_true_iff; lia).
  reflexivity.
Qed.

Lemma land_upper (a b n : Z) :
  0 <= n -> 0 <= a < 2 ^ n -> 0 <= Z.land a b < 2 ^ n.
Proof.
  intros Hn Ha. rewrite <- (Z.mod_small a (2 ^ n)) by lia.
  rewrite <- Z.land_ones by lia.
  rewrite <- Z.land_assoc, (Z.land_comm (Z.ones n) b), Z.land_assoc.
  rewrite Z.land_ones by lia. apply Z.mod_pos_bound. lia.
Qed.

Lemma step_with (s : State) (word : Z) h (adv : bool) (m r : list Z) (p : Z) :
  Py.py_get (mem s) (pc s) = Some word ->
  length (reg s) = 8%nat ->
  HANDLERS (f_op (decode word)) = Some h ->
  h (f_a (decode word)) (f_b (decode word)) (f_imm (decode word))
    (f_dst (decode word)) (logged s (Dump (pc s) (take 8 (reg s))))
  = Val adv (mkState m (log s ++ [Dump (pc s) (take 8 (reg s))]) r p (steps s)) ->
  length r = 8%nat ->
  step s = finished s m (<[0%nat := 0]> r)
             (if adv then Z.land (p + 1) (MEM_SIZE - 1) else p).
Proof.
  intros Hfetch Hlen Hh Hrun Hr.
  rewrite step_unfold, Hfetch, Hlen. cbv zeta. rewrite Hh.
  change ((8 <=? 8)%nat) with true. cbv iota. rewrite Hrun.
  rewrite after_handler_unfold. cbv zeta. cbn [reg mem pc steps log].
  rewrite py_set_nonneg by lia. reflexivity.
Qed.

Ltac run_handler Hva Hvb :=
  prims; cbn [logged reg mem pc steps log];
  try (rewrite Hva; cbn [logged reg mem pc steps log]);
  try (rewrite Hvb; cbn [logged reg mem pc steps log]);
  try (rewrite Hva; cbn [logged reg mem pc steps log]).

(** X15. [add] and [nand] on a word whose 16-bit field is below 8: the
    register whose number is that field receives the sum modulo 2^32,
    resp. the complement of the bitwise and within 32 bits; then register
    0 is cleared and the program counter advances.  Memory is
    unchanged. *)
Theorem add_nand_step (s : State) (word va vb : Z) :
  Py.py_get (mem s) (pc s) = Some word ->
  f_op (decode word) = OP_ADD \/ f_op (decode word) = OP_NAND ->
  f_imm (decode word) < 8 ->
  length (reg s) = 8%nat ->
  Py.py_get (reg s) (f_a (decode word)) = Some va ->
  Py.py_get (reg s) (f_b (decode word)) = Some vb ->
  let v := if f_op (decode word) =? OP_ADD
           then (va + vb) mod 2 ^ 32
           else Z.lnot (Z.land va vb) mod 2 ^ 32 in
  step s = finished s (mem s)
             (<[0%nat := 0]> (<[Z.to_nat (f_imm (decode word)) := v]> (reg s)))
             ((pc s + 1) mod 65536) /\
  (0 <= va < 2 ^ 32 ->
   Z.lnot (Z.land va vb) mod 2 ^ 32 = 2 ^ 32 - 1 - Z.land va vb).
Proof.
  intros Hfetch Hop Himm Hlen Hva Hvb v.
  destruct (decode_ranges word) as (_ & _ & _ & Hi & _).
  split.
  - change 65536 with (2 ^ 16). rewrite <- Bits.land_mod by lia.
    change (2 ^ 16 - 1) with (MEM_SIZE - 1). subst v.
    rewrite <- !Bits.land_mod by lia. change (2 ^ 32 - 1) with MASK_32.
    destruct Hop as [Hop | Hop]; rewrite Hop.
    + apply (step_with s word op_add true); try assumption.
      * now rewrite Hop.
      * unfold op_add. run_handler Hva Hvb.
        rewrite py_set_nonneg by lia. reflexivity.
      * now rewrite length_insert.
    + apply (step_with s word op_nand true); try assumption.
      * now rewrite Hop.
      * unfold op_nand. run_handler Hva Hvb.
        rewrite py_set_nonneg by lia. reflexivity.
      * now rewrite length_insert.
  - intros Hrange. pose proof (land_upper va vb 32 ltac:(lia) Hrange) as Hland.
    unfold Z.lnot. Z.div_mod_to_equations. lia.
Qed.

Lemma add_nand_step_witness :
  step Examples.add_state =
    finished Examples.add_state [655363] [0; 5; 7; 12; 0; 0; 0; 0] 1.
Proof.
  destruct (add_nand_step Examples.add_state 655363 5 7) as [H _].
  - reflexivity.
  - left. reflexivity.
  - vm_compute. reflexivity.
  - reflexivity.
  - reflexivity.
  - reflexivity.
  - exact H.
Defined.

(** X16. [lw]: register [b] receives the memory word at address
    [(reg[a] + sext16 offset) mod 65536]; then register 0 is cleared and
    the program counter advances.  Memory is unchanged. *)
Theorem lw_step (s : State) (word va : Z) :
  Py.py_get (mem s) (pc s) = Some word ->
  f_op (decode word) = OP_LW ->
  length (reg s) = 8%nat -> Z.of_nat (length (mem s)) = MEM_SIZE ->
  Py.py_get (reg s) (f_a (decode word)) = Some va ->
  exists v,
    mem s !! Z.to_nat ((va + sext16 (f_imm (decode word))) mod 65536) = Some v /\
    step s = finished s (mem s)
               (<[0%nat := 0]> (<[Z.to_nat (f_b (decode word)) := v]> (reg s)))
               ((pc s + 1) mod 65536).
Proof.
  intros Hfetch Hop Hlen Hmlen Hva.
  destruct (decode_ranges word) as (_ & _ & Hb & _).
  change 65536 with (2 ^ 16). rewrite <- !Bits.land_mod by lia.
  change (2 ^ 16 - 1) with (MEM_SIZE - 1).
  pose proof (mask16_range (va + sext16 (f_imm (decode word)))) as Haddr.
  destruct (lookup_lt_is_Some_2 (mem s)
              (Z.to_nat (Z.land (va + sext16 (f_imm (decode word))) (MEM_SIZE - 1))))
    as [v Hv]; [lia|].
  exists v. split; [exact Hv|].
  apply (step_with s word op_lw true); try assumption.
  - now rewrite Hop.
  - unfold op_lw. run_handler Hva Hva.
    rewrite py_get_nonneg by lia. rewrite Hv. cbn [logged reg mem pc steps log].
    rewrite py_set_nonneg by lia. reflexivity.
  - now rewrite length_insert.
Qed.

Lemma lw_step_witness :
  exists v,
    mem Examples.lw_state
      !! Z.to_nat ((0 + sext16 (f_imm (decode 8388609))) mod 65536) = Some v /\
    step Examples.lw_state =
      finished Examples.lw_state (mem Examples.lw_state)
        (<[0%nat := 0]> (<[Z.to_nat (f_b (decode 8388609)) := v]>
                           (reg Examples.lw_state)))
        ((pc Examples.lw_state + 1) mod 65536).
Proof.
  apply (lw_step Examples.lw_state 8388609 0).
  - vm_compute. reflexivity.
  - reflexivity.
  - reflexivity.
  - vm_compute. reflexivity.
  - reflexivity.
Defined.

(** X17. [sw]: the memory word at address
    [(reg[a] + sext16 offset) mod 65536] receives register [b] modulo
    2^32; no register changes but register 0, which is cleared, and the
    program counter advances. *)
Theorem sw_step (s : State) (word va vb : Z) :
  Py.py_get (mem s) (pc s) = Some word ->
  f_op (decode word) = OP_SW ->
  length (reg s) = 8%nat -> Z.of_nat (length (mem s)) = MEM_SIZE ->
  Py.py_get (reg s) (f_a (decode word)) = Some va ->
  Py.py_get (reg s) (f_b (decode word)) = Some vb ->
  step s = finished s
             (<[Z.to_nat ((va + sext16 (f_imm (decode word))) mod 65536)
                := vb mod 2 ^ 32]> (mem s))
             (<[0%nat := 0]> (reg s))
             ((pc s + 1) mod 65536).
Proof.
  intros Hfetch Hop Hlen Hmlen Hva Hvb.
  change 65536 with (2 ^ 16). rewrite <- !Bits.land_mod by lia.
  change (2 ^ 16 - 1) with (MEM_SIZE - 1). change (2 ^ 32 - 1) with MASK_32.
  pose proof (mask16_range (va + sext16 (f_imm (decode word)))) as Haddr.
  apply (step_with s word op_sw true); try assumption.
  - now rewrite Hop.
  - unfold op_sw. run_handler Hvb Hva.
    rewrite py_set_nonneg by lia. reflexivity.
Qed.

Lemma sw_step_witness :
  step Examples.sw_state =
    finished Examples.sw_state
      (<[Z.to_nat ((0 + sext16 (f_imm (decode 12582913))) mod 65536)
         := 0 mod 2 ^ 32]> (mem Examples.sw_state))
      (<[0%nat := 0]> (reg Examples.sw_state))
      ((pc Examples.sw_state + 1) mod 65536).
Proof.
  apply (sw_step Examples.sw_state 12582913 0 0).
  - vm_compute. reflexivity.
  - reflexivity.
  - reflexivity.
  - vm_compute. reflexivity.
  - reflexivity.
  - reflexivity.
Defined.

(** X18. [jalr]: register [b] receives [(pc + 1) mod 2^32], then the
    program counter becomes register [a] modulo 65536, read after that
    write: with [a = b] the jump goes to the next instruction.  Register 0
    is cleared afterwards, so a link written to it is lost. *)
Theorem jalr_step (s : State) (word va : Z) :
  Py.py_get (mem s) (pc s) = Some word ->
  f_op (decode word) = OP_JALR ->
  length (reg s) = 8%nat ->
  Py.py_get (reg s) (f_a (decode word)) = Some va ->
  step s = finished s (mem s)
             (<[0%nat := 0]>
                (<[Z.to_nat (f_b (decode word)) := (pc s + 1) mod 2 ^ 32]> (reg s)))
             ((if f_a (decode word) =? f_b (decode word)
               then (pc s + 1) mod 2 ^ 32 else va) mod 65536).
Proof.
  intros Hfetch Hop Hlen Hva.
  destruct (decode_ranges word) as (_ & Ha & Hb & _).
  change 65536 with (2 ^ 16). rewrite <- !Bits.land_mod by lia.
  change (2 ^ 16 - 1) with (MEM_SIZE - 1). change (2 ^ 32 - 1) with MASK_32.
  apply (step_with s word op_jalr false); try assumption.
  - now rewrite Hop.
  - unfold op_jalr. prims. cbn [logged reg mem pc steps log].
    rewrite py_set_nonneg by lia. cbn [logged reg mem pc steps log].
    rewrite py_get_nonneg by (rewrite length_insert; lia).
    rewrite py_get_nonneg in Hva by lia.
    destruct (Z.eqb_spec (f_a (decode word)) (f_b (decode word))) as [Heq | Hne].
    + rewrite Heq, list_lookup_insert_eq by lia. reflexivity.
    + rewrite list_lookup_insert_ne by lia. rewrite Hva. reflexivity.
  - now rewrite length_insert.
Qed.

Lemma jalr_step_witness :
  step Examples.jalr_state =
    finished Examples.jalr_state [21561344] [0; 1; 0; 0; 0; 0; 0; 0] 1.
Proof.
  rewrite (jalr_step Examples.jalr_state 21561344 40).
  - reflexivity.
  - reflexivity.
  - reflexivity.
  - reflexivity.
  - reflexivity.
Defined.

(** X19. [halt] ends the run with status 0 and changes nothing but the
    log: after the trace line of the step it writes the halt notice, the
    number of steps counted so far (the halting step is not counted), the
    registers, and the memory cells that are not 0. *)
Theorem halt_step (s : State) (word : Z) :
  Py.py_get (mem s) (pc s) = Some word ->
  f_op (decode word) = OP_HALT ->
  length (reg s) = 8%nat ->
  step s = Exit 0
    (mkState (mem s)
       (log s ++ [Dump (pc s) (take 8 (reg s)); MachineHalted;
                  InstructionsExecuted (steps s);
                  Dump (pc s) (take 8 (reg s)); MemoryHeader]
              ++ nonzero_cells 0 (mem s))
       (reg s) (pc s) (steps s)).
Proof.
  intros Hfetch Hop Hlen.
  rewrite step_unfold, Hfetch, Hlen. cbv zeta. rewrite Hop.
  change (HANDLERS OP_HALT) with (Some op_halt).
  change ((8 <=? 8)%nat) with true. cbv iota.
  unfold op_halt. prims. cbn [logged reg mem pc steps log]. rewrite Hlen.
  change ((8 <=? 8)%nat) with true. cbv iota. cbn [logged reg mem pc steps log].
  rewrite <- !app_assoc. reflexivity.
Qed.

Lemma halt_step_witness :
  step Examples.halt_state =
    Exit 0 (mkState [25165824]
              [Dump 0 [0; 5; 7; 0; 0; 0; 0; 0]; MachineHalted;
               InstructionsExecuted 3; Dump 0 [0; 5; 7; 0; 0; 0; 0; 0];
               MemoryHeader; MemCell 0 25165824]
              [0; 5; 7; 0; 0; 0; 0; 0] 0 3).
Proof.
  rewrite (halt_step Examples.halt_state 25165824).
  - reflexivity.
  - reflexivity.
  - reflexivity.
  - reflexivity.
Defined.

(** *** The report of the memory *)

Lemma nonzero_cells_elem (cells : list Z) :
  forall (addr : Z) (e : event),
  e ∈ nonzero_cells addr cells <->
  exists (i : nat) (v : Z),
    cells !! i = Some v /\ v <> 0 /\ e = MemCell (addr + Z.of_nat i) v.
Proof.
  induction cells as [|val rest IH]; intros addr e; cbn [nonzero_cells].
  - split; [intros H; inversion H | intros (i & v & H & _); now rewrite lookup_nil in H].
  - rewrite elem_of_app, IH. split.
    + intros [He | (i & v & Hl & Hv & ->)].
      * destruct (Z.eqb_spec val 0) as [|Hnz]; [inversion He|].
        apply list_elem_of_singleton in He as ->.
        exists 0%nat, val. repeat split; [assumption | f_equal; lia].
      * exists (S i), v. repeat split; [assumption.. | f_equal; lia].
    + intros ([|i] & v & Hl & Hv & ->).
      * injection Hl as ->. left.
        destruct (Z.eqb_spec v 0) as [|_]; [contradiction|].
        rewrite Z.add_0_r. apply list_elem_of_singleton. reflexivity.
      * right. exists i, v. repeat split; [assumption.. | f_equal; lia].
Qed.

Lemma nonzero_cells_sorted (cells : list Z) :
  forall addr : Z, StronglySorted cell_before (nonzero_cells addr cells).
Proof.
  induction cells as [|val rest IH]; intros addr; cbn [nonzero_cells].
  - constructor.
  - destruct (val =? 0); cbn [app]; [apply IH|].
    constructor; [apply IH|].
    apply Forall_forall. intros e He.
    apply nonzero_cells_elem in He as (i & v & _ & _ & ->). cbn. lia.
Qed.

(** X20. The memory report of [halt] lists exactly the cells that are
    not 0, each with its address and value, in the order of the
    addresses. *)
Theorem memory_report (cells : list Z) :
  (forall e : event,
     e ∈ nonzero_cells 0 cells <->
     exists (i : nat) (v : Z),
       cells !! i = Some v /\ v <> 0 /\ e = MemCell (Z.of_nat i) v) /\
  StronglySorted cell_before (nonzero_cells 0 cells).
Proof.
  split; [|apply nonzero_cells_sorted].
  intros e. rewrite nonzero_cells_elem. reflexivity.
Qed.

(** *** What a step leaves alone *)

Lemma handler_mem (op : Z) h (a b imm dst : Z) (s : State) :
  HANDLERS op = Some h -> op <> OP_SW ->
  mem (state_of (h a b imm dst s)) = mem s.
Proof.
  unfold HANDLERS. repeat case_match; intros [= <-] Hne; exec;
    repeat case_match; simplify_eq; try reflexivity.
  exfalso. apply Hne. now apply Z.eqb_eq.
Qed.

Lemma after_handler_mem (adv : bool) (s : State) :
  mem (state_of (after_handler adv s)) = mem s.
Proof.
  rewrite after_handler_unfold. cbv zeta.
  destruct (Py.py_set (reg s) 0 0); [destruct (_ >? _)|]; reflexivity.
Qed.

(** X21. Only [sw] writes to memory: a call of [step] on a word of any
    other opcode leaves the memory as it was, however the call ends. *)
Theorem memory_changed_only_by_sw (s : State) :
  (forall word, Py.py_get (mem s) (pc s) = Some word ->
                f_op (decode word) <> OP_SW) ->
  mem (state_of (step s)) = mem s.
Proof.
  intros Hop. rewrite step_unfold.
  destruct (Py.py_get (mem s) (pc s)) as [word|]; [|reflexivity].
  specialize (Hop word eq_refl).
  destruct (8 <=? length (reg s))%nat; [|reflexivity].
  cbv zeta. destruct (HANDLERS _) as [h|] eqn:Hh; [|reflexivity].
  pose proof (handler_mem _ _ (f_a (decode word)) (f_b (decode word))
                (f_imm (decode word)) (f_dst (decode word))
                (logged s (Dump (pc s) (take 8 (reg s)))) Hh Hop) as Hmem.
  destruct (h _ _ _ _ _) as [adv s2 | c s2 | e s2]; cbn [state_of] in *;
    [rewrite after_handler_mem|..]; exact Hmem.
Qed.

Lemma memory_changed_only_by_sw_witness :
  mem (state_of (step Examples.add_state)) = mem Examples.add_state.
Proof.
  apply (memory_changed_only_by_sw Examples.add_state).
  intros word H. vm_compute in H. injection H as <-. vm_compute. discriminate.
Defined.

(** *** Loading *)

(** The line on which the reading of the words stops is the first one
    that [int] refuses. *)
Lemma read_words_inr (lines : list string) (bad : string) :
  read_words lines = inr bad ->
  exists k : nat,
    lines !! k = Some bad /\ Py.int bad = None /\
    forall (j : nat) (l : string),
      (j < k)%nat -> lines !! j = Some l -> is_Some (Py.int l).
Proof.
  induction lines as [|line rest IH]; cbn [read_words]; [discriminate|].
  destruct (Py.int line) as [v|] eqn:Hint.
  - destruct (read_words rest) as [ws|bad']; [discriminate|].
    intros [= <-]. destruct (IH eq_refl) as (k & Hk & Hbad & Hbefore).
    exists (S k). split; [exact Hk|]. split; [exact Hbad|].
    intros [|j] l Hj Hl.
    + injection Hl as <-. rewrite Hint. eauto.
    + apply (Hbefore j); [lia | exact Hl].
  - intros [= <-]. exists 0%nat. split; [reflexivity|].
    split; [exact Hint|]. intros j l Hj. lia.
Qed.

(** [int] refuses a line of blanks. *)
Lemma int_blank (l : string) : Py.blank l = true -> Py.int l = None.
Proof.
  unfold Py.blank. induction l as [|c r IH]; [reflexivity|].
  cbn [Py.all_chars]. intros H. apply andb_true_iff in H as [Hc Hr].
  unfold Py.int in *. cbn [Py.lstrip].
  destruct (Py.is_int_space c) eqn:Hs; [now apply IH|].
  unfold Py.is_space, Py.is_int_space in Hc, Hs. cbv zeta in Hc, Hs.
  assert (Hcode : 28 <= Z.of_N (N_of_ascii c) <= 31) by lia.
  replace (Z.of_N (N_of_ascii c) =? 45) with false by lia.
  replace (Z.of_N (N_of_ascii c) =? 43) with false by lia.
  unfold Py.int_unsigned, Py.is_ascii_digit. cbv zeta.
  replace ((48 <=? Z.of_N (N_of_ascii c)) && (Z.of_N (N_of_ascii c) <=? 57))
    with false by lia.
  reflexivity.
Qed.

(** X14. [load_mc] on the text of a file, line by line as the iteration
    over the file yields them.  It raises the ValueError of [int] on the
    first line that [int] refuses, if there is one; otherwise it exits
    with "Program too big" when there are more than 65536 lines;
    otherwise the memory has 65536 words, the word at the index of a line
    being the integer of that line modulo 2^32, and every other word 0.
    A file with a blank line, as the file of one line feed that
    asemble.py writes for a program without words, is refused with the
    ValueError. *)
Theorem load_mc_image (text : string) :
  (forall l : string,
     l ∈ Py.file_lines text -> Py.blank l = true ->
     exists bad, load_mc text = NotAnInt bad) /\
  match load_mc text with
  | NotAnInt line =>
      exists k : nat,
        Py.file_lines text !! k = Some line /\ Py.int line = None /\
        forall (j : nat) (l : string),
          (j < k)%nat -> Py.file_lines text !! j = Some l -> is_Some (Py.int l)
  | ProgramTooBig n =>
      n = Z.of_nat (length (Py.file_lines text)) /\ 65536 < n /\
      Forall (fun l => is_Some (Py.int l)) (Py.file_lines text)
  | Loaded memory =>
      Z.of_nat (length (Py.file_lines text)) <= 65536 /\
      Z.of_nat (length memory) = 65536 /\
      (forall (i : nat) (l : string),
         Py.file_lines text !! i = Some l ->
         exists v, Py.int l = Some v /\ memory !! i = Some (v mod 2 ^ 32)) /\
      (forall i : nat,
         (length (Py.file_lines text) <= i)%nat -> Z.of_nat i < 65536 ->
         memory !! i = Some 0)
  end.
Proof.
  unfold load_mc.
  destruct (read_words (Py.file_lines text)) as [words|bad] eqn:Hread;
    [|split; [eauto | now apply read_words_inr]].
  split.
  { intros l Hl Hblank. exfalso. apply int_blank in Hblank.
    apply read_words_inl in Hread.
    apply list_elem_of_lookup in Hl as [i Hi].
    destruct (Forall2_lookup_l _ _ _ _ _ Hread Hi) as (w & _ & v & Hv & _).
    congruence. }
  pose proof (read_words_ok _ _ Hread) as [Hlen _].
  apply read_words_inl in Hread.
  assert (Hall : Forall (fun l => is_Some (Py.int l)) (Py.file_lines text)).
  { clear Hlen. induction Hread as [|l w ls ws (v & Hv & _) _ IH]; constructor;
      [rewrite Hv; eauto | exact IH]. }
  rewrite Hlen. change MEM_SIZE with 65536.
  destruct (Z.gtb_spec (Z.of_nat (length (Py.file_lines text))) 65536)
    as [Hgt | Hle].
  - split; [reflexivity|]. split; [lia | exact Hall].
  - split; [lia|]. split; [|split].
    + rewrite length_app, length_replicate. lia.
    + intros i l Hl.
      destruct (Forall2_lookup_l _ _ _ _ _ Hread Hl) as (w & Hw & v & Hv & ->).
      exists v. split; [exact Hv|].
      rewrite lookup_app_l by (now apply lookup_lt_Some in Hw).
      rewrite Hw. f_equal.
      change MASK_32 with (2 ^ 32 - 1). apply Bits.land_mod. lia.
    + intros i Hi Hlt.
      rewrite lookup_app_r by lia.
      apply lookup_replicate_2. lia.
Qed.

(** *** The run *)

(** X22. Counted from any state whose step count is within the limit,
    the loop of [main] ends within [STEP_LIMIT + 1 - steps] calls of
    [step] (1,000,001 from a loaded program): by the exit of [halt] with
    status 0, by the exit at the step limit with status 1, its notice
    being the last line of the log, or by an IndexError. *)
Theorem run_ends (s : State) :
  steps s <= STEP_LIMIT ->
  exists r, run (Z.to_nat (STEP_LIMIT + 1 - steps s)) s = Some r /\
    match r with
    | Val _ _ => False
    | Exit c s' =>
        c = 0 \/
        (c = 1 /\ steps s' = STEP_LIMIT + 1 /\
         last (log s') = Some (StepLimitExceeded STEP_LIMIT))
    | Fault e _ => e = IndexError
    end.
Proof. intros H. apply run_terminates; lia. Qed.

Lemma run_ends_witness :
  exists r,
    run (Z.to_nat (STEP_LIMIT + 1 - steps Examples.loop_state)) Examples.loop_state
    = Some r /\
    match r with
    | Val _ _ => False
    | Exit c s' =>
        c = 0 \/
        (c = 1 /\ steps s' = STEP_LIMIT + 1 /\
         last (log s') = Some (StepLimitExceeded STEP_LIMIT))
    | Fault e _ => e = IndexError
    end.
Proof.
  apply (run_ends Examples.loop_state). vm_compute. discriminate.
Defined.

Lemma self_loop_step (s : State) (word : Z) :
  self_loop s word ->
  step s =
    let s1 := mkState (mem s) (log s ++ [Dump (pc s) (take 8 (reg s))])
                      (reg s) (pc s) (steps s + 1) in
    if steps s + 1 >? STEP_LIMIT
    then Exit 1 (logged s1 (StepLimitExceeded STEP_LIMIT))
    else Val tt s1.
Proof.
  intros [Hfetch Hop Himm Hlen H0 Heq Hpc].
  destruct (decode_ranges word) as (_ & Ha & _).
  destruct (py_get_in_range (reg s) (f_a (decode word))) as [va Hva]; [lia|].
  rewrite Hva in Heq. symmetry in Heq.
  rewrite (beq_step_result s word va va Hfetch Hop Hlen H0 Hva Heq).
  rewrite Z.eqb_refl, Himm. cbv zeta.
  change (sext16 65535) with (-1).
  replace (pc s + 1 + -1) with (pc s) by lia.
  change (MEM_SIZE - 1) with (2 ^ 16 - 1).
  rewrite Bits.land_mod, Z.mod_small by lia. reflexivity.
Qed.

Lemma self_loop_next (s : State) (word : Z) (l : list event) (n : Z) :
  self_loop s word ->
  self_loop (mkState (mem s) l (reg s) (pc s) n) word.
Proof. intros [? ? ? ? ? ? ?]. constructor; assumption. Qed.

Lemma self_loop_runs (n : nat) :
  forall s word, self_loop s word ->
  steps s + Z.of_nat n <= STEP_LIMIT -> run n s = None.
Proof.
  induction n as [|n IH]; intros s word Hs Hle; [reflexivity|].
  cbn [run]. rewrite (self_loop_step s word Hs). cbv zeta.
  replace (steps s + 1 >? STEP_LIMIT) with false by (symmetry; lia).
  apply (IH _ word); [now apply self_loop_next | cbn [steps]; lia].
Qed.

Lemma self_loop_aborts (n : nat) :
  forall s word, self_loop s word ->
  steps s + Z.of_nat n = STEP_LIMIT ->
  exists s', run (S n) s = Some (Exit 1 s') /\
             steps s' = STEP_LIMIT + 1 /\ pc s' = pc s /\
             reg s' = reg s /\ mem s' = mem s /\
             last (log s') = Some (StepLimitExceeded STEP_LIMIT).
Proof.
  induction n as [|n IH]; intros s word Hs Hle.
  - cbn [run]. rewrite (self_loop_step s word Hs). cbv zeta.
    replace (steps s + 1 >? STEP_LIMIT) with true by (symmetry; lia).
    eexists. split; [reflexivity|]. cbn [logged steps pc reg mem log].
    repeat split; [lia | apply last_snoc].
  - cbn [run]. rewrite (self_loop_step s word Hs). cbv zeta.
    replace (steps s + 1 >? STEP_LIMIT) with false by (symmetry; lia).
    destruct (IH (mkState (mem s) (log s ++ [Dump (pc s) (take 8 (reg s))])
                          (reg s) (pc s) (steps s + 1)) word)
      as (s' & Hrun & H); [now apply self_loop_next | cbn [steps]; lia |].
    exists s'. split; [exact Hrun | exact H].
Qed.

(** X23. The bound of the step limit is reached: from a state that loops
    on itself, with [k] steps left up to the limit, the run makes exactly
    [k + 1] calls of [step] and then exits with status 1, the step counter
    being 1,000,001 and registers, memory and program counter as they
    were. *)
Theorem self_loop_hits_limit (s : State) (word : Z) (k : nat) :
  self_loop s word ->
  steps s + Z.of_nat k = STEP_LIMIT ->
  (forall n : nat, (n <= k)%nat -> run n s = None) /\
  exists s', run (S k) s = Some (Exit 1 s') /\
             steps s' = STEP_LIMIT + 1 /\ pc s' = pc s /\
             reg s' = reg s /\ mem s' = mem s /\
             last (log s') = Some (StepLimitExceeded STEP_LIMIT).
Proof.
  intros Hs Hk. split.
  - intros n Hn. apply (self_loop_runs n s word Hs). lia.
  - now apply (self_loop_aborts k s word).
Qed.

Lemma self_loop_hits_limit_witness :
  (forall n : nat, (n <= 2)%nat -> run n Examples.loop_state = None) /\
  exists s', run 3 Examples.loop_state = Some (Exit 1 s') /\
             steps s' = STEP_LIMIT + 1 /\ pc s' = pc Examples.loop_state /\
             reg s' = reg Examples.loop_state /\
             mem s' = mem Examples.loop_state /\
             last (log s') = Some (StepLimitExceeded STEP_LIMIT).
Proof.
  apply (self_loop_hits_limit Examples.loop_state 16842751 2).
  - constructor; try reflexivity. vm_compute. split; [discriminate | reflexivity].
  - reflexivity.
Defined.

(** *** Exceptions *)

(** X24. On a well-formed state the only exception of [step] is the
    IndexError of the register write of [add] and [nand], on a word whose
    16-bit field is 8 or more. *)
Theorem fault_only_from_wide_field (s s' : State) (e : pyexn) :
  wf s -> step s = Fault e s' ->
  e = IndexError /\
  exists word,
    Py.py_get (mem s) (pc s) = Some word /\
    (f_op (decode word) = OP_ADD \/ f_op (decode word) = OP_NAND) /\
    8 <= f_imm (decode word).
Proof.
  intros Hwf Hstep. split; [eapply step_Fault; eassumption|].
  eapply step_fault_cause; eassumption.
Qed.

Lemma fault_only_from_wide_field_witness :
  IndexError = IndexError /\
  exists word,
    Py.py_get (mem Examples.crash_state) (pc Examples.crash_state) = Some word /\
    (f_op (decode word) = OP_ADD \/ f_op (decode word) = OP_NAND) /\
    8 <= f_imm (decode word).
Proof.
  apply (fault_only_from_wide_field Examples.crash_state
           (logged Examples.crash_state
              (Dump (pc Examples.crash_state) (take 8 (reg Examples.crash_state))))).
  - apply (load_mc_wf Examples.crash_mc). reflexivity.
  - apply (wide_field_faults Examples.crash_state 8).
    + vm_compute. reflexivity.
    + left. reflexivity.
    + vm_compute. discriminate.
    + reflexivity.
Defined.

(** X25. The simulator raises no exception on an instruction the
    assembler emitted: on a well-formed state whose current word is the
    word of an instruction line, [step] returns or exits. *)
Theorem assembled_word_never_faults (s : State) (pc0 : Z) (line : Asm.Line)
    (symbols : gmap string Z) (w : Z) :
  wf s ->
  Asm.opcode line <> ".fill" ->
  Asm.encode_line pc0 line symbols = Asm.Ok w ->
  Py.py_get (mem s) (pc s) = Some w ->
  exists s', step s = Val tt s' \/ exists c, step s = Exit c s'.
Proof.
  intros Hwf Hop Henc Hfetch.
  destruct (step s) as [[] s1 | c s1 | e s1] eqn:Hstep.
  - exists s1. left. reflexivity.
  - exists s1. right. exists c. reflexivity.
  - exfalso.
    destruct (step_fault_cause _ _ _ Hwf Hstep) as (word & Hw & Hor & Himm).
    rewrite Hfetch in Hw. injection Hw as <-.
    destruct (EncodeSpec.instruction_word _ _ _ _ Hop Henc) as (_ & _ & Hsmall).
    destruct (Hsmall Hor) as [_ Hlt]. lia.
Qed.

Lemma assembled_word_never_faults_witness :
  exists s', step Examples.add_loaded = Val tt s' \/
             exists c, step Examples.add_loaded = Exit c s'.
Proof.
  apply (assembled_word_never_faults Examples.add_loaded 0 Examples.add_line ∅ 655363).
  - apply (load_mc_wf Examples.add_mc). reflexivity.
  - discriminate.
  - reflexivity.
  - vm_compute. reflexivity.
Defined.

(** *** The states of a run *)

Lemma step_Val_log (s s' : State) :
  step s = Val tt s' -> log s' = log s ++ [Dump (pc s) (take 8 (reg s))].
Proof.
  rewrite step_unfold.
  destruct (Py.py_get (mem s) (pc s)) as [word|]; [|discriminate].
  destruct (8 <=? length (reg s))%nat; [|discriminate].
  cbv zeta. destruct (HANDLERS _) as [h|] eqn:Hh; [|discriminate].
  destruct (h _ _ _ _ _) as [adv s2 | c s2 | e s2] eqn:Hrun; [|discriminate..].
  apply (handler_val_log _ _ _ _ _ _ _ _ _ Hh) in Hrun. cbn in Hrun.
  rewrite after_handler_unfold. cbv zeta.
  destruct (Py.py_set (reg s2) 0 0); [|discriminate].
  destruct (_ >? _); [discriminate|]. intros [= <-]. exact Hrun.
Qed.

(** X26. Every state a run goes through is well formed, has 0 in
    register 0, a step count from 0 to the limit, and a log of one trace
    line for each step counted. *)
Theorem reachable_invariant (s : State) :
  reachable s ->
  wf s /\ Py.py_get (reg s) 0 = Some 0 /\
  0 <= steps s <= STEP_LIMIT /\
  Z.of_nat (length (log s)) = steps s /\
  Forall (fun e => exists p regs, e = Dump p regs /\ length regs = 8%nat) (log s).
Proof.
  intros Hr. split; [now apply reachable_wf|]. split; [now apply reachable_reg0|].
  induction Hr as [text memory Hload | s s' Hr IH Hstep].
  - cbn. unfold STEP_LIMIT. repeat split; try lia. constructor.
  - destruct IH as (Hsteps & Hlen & Hall).
    pose proof (reachable_wf s Hr) as [_ Hrl _ _ _].
    pose proof (step_Val_log _ _ Hstep) as Hlog.
    apply step_Val in Hstep as (Hs & Hlim & _).
    rewrite Hlog, length_app. cbn [length]. repeat split; try lia.
    apply Forall_app. split; [exact Hall|]. constructor; [|constructor].
    eexists _, _. split; [reflexivity|].
    rewrite length_take. lia.
Qed.

Lemma reachable_invariant_witness :
  wf Examples.add_loaded /\ Py.py_get (reg Examples.add_loaded) 0 = Some 0 /\
  0 <= steps Examples.add_loaded <= STEP_LIMIT /\
  Z.of_nat (length (log Examples.add_loaded)) = steps Examples.add_loaded /\
  Forall (fun e => exists p regs, e = Dump p regs /\ length regs = 8%nat)
         (log Examples.add_loaded).
Proof.
  apply (reachable_invariant Examples.add_loaded).
  apply (reachable_init Examples.add_mc). reflexivity.
Defined.

End ExecSpec.
